(** * The OpenDeplete -> OpenMC linkage (opendeplete/openmc_wrapper.py)

    A shallow embedding of [OpenMCOperator] and of the properties of its
    material decomposition, input generation, tally ingestion and power
    normalisation.

    Conventions of the embedding:
    - a Python [int] is a [Z]; a Python [str] is a [string], compared the way
      Python compares [str] (lexicographically, character code by character
      code); a [set] of [str] is a [gset string]; an [OrderedDict] is an
      association list in insertion order;
    - a Python or numpy float is an exact rational extended with the IEEE
      special values ([flt] below): arithmetic is exact, and only what
      division by zero and the special values do is kept of IEEE 754;
    - a Python exception or [exit] is an explicit outcome ([py] below). *)

From Stdlib Require Import QArith Qcanon Qround.
From stdpp Require Import sorting.
From stdpp Require Import base decidable option list_numbers strings pretty
  gmap numbers list.

Local Open Scope Z_scope.
Set Warnings "-clear-no-such-hyp".

(** ** Outcomes of Python code *)

Inductive exception :=
  | ZeroDivisionError
  | KeyError (key : string)
  | IndexError
  | ValueError
  | AttributeError.

Inductive py (A : Type) :=
  | Return (a : A)
  | Raise (e : exception)
  | SystemExit (msg : string).
Arguments Return {A} a.
Arguments Raise {A} e.
Arguments SystemExit {A} msg.

Global Instance py_ret : MRet py := @Return.
Global Instance py_bind : MBind py := λ A B f m,
  match m with
  | Return a => f a
  | Raise e => Raise e
  | SystemExit msg => SystemExit msg
  end.

(** [for x in l: s = body(s, x)], stopping at the first exception. *)
Fixpoint for_each {A S : Type} (body : S → A → py S) (l : list A) (s : S) : py S :=
  match l with
  | [] => Return s
  | x :: l' => s' ← body s x; for_each body l' s'
  end.

(** ** Python strings: order, [str] of a list of strings *)

Module PyStr.

Definition le (s1 s2 : string) : Prop := String.leb s1 s2 = true.
Definition lt (s1 s2 : string) : Prop := String.ltb s1 s2 = true.

Global Instance le_dec : RelDecision le.
Proof. intros s1 s2. unfold le. apply _. Defined.

(** [str(l)] for a list of strings none of which needs escaping (material
    ids are decimal numerals): ['1', '10']. *)
Definition repr (s : string) : string := "'" +:+ s +:+ "'".

Fixpoint join (sep : string) (l : list string) : string :=
  match l with
  | [] => ""
  | [s] => s
  | s :: l' => s +:+ sep +:+ join sep l'
  end.

Definition str_list (l : list string) : string :=
  "[" +:+ join ", " (repr <$> l) +:+ "]".

(** [sorted(list(s))] for a set [s] of strings. *)
Definition sorted (s : gset string) : list string := merge_sort le (elements s).

End PyStr.

(** ** Python lists: slices *)

Module PyList.

(** The bound of [l[a:b]] that Python computes from an index: negative
    indices count from the end, and everything is clipped to the list. *)
Definition clip (len i : Z) : Z :=
  if decide (i < 0) then Z.max 0 (i + len) else Z.min i len.

(** [l[a:b]] *)
Definition slice {A} (l : list A) (a b : Z) : list A :=
  let len := Z.of_nat (length l) in
  let a' := clip len a in
  let b' := clip len b in
  take (Z.to_nat (b' - a')) (drop (Z.to_nat a') l).

(** [divmod(a, n)] on ints. *)
Definition divmod (a n : Z) : py (Z * Z) :=
  if decide (n = 0) then Raise ZeroDivisionError else Return (a `div` n, a `mod` n).

End PyList.

(** ** [OrderedDict] *)

Module ODict.

Section odict.
Context {K V : Type} `{EqDecision K}.

Definition t := list (K * V).

Definition keys (d : t) : list K := d.*1.

(** [d.get(k)]; [d[k]] raises [KeyError] where this is [None]. *)
Fixpoint get (d : t) (k : K) : option V :=
  match d with
  | [] => None
  | (k', v) :: d' => if decide (k' = k) then Some v else get d' k
  end.

(** [k in d] *)
Definition mem (d : t) (k : K) : bool := bool_decide (is_Some (get d k)).

(** [d[k] = v]: an existing key keeps its position, a new key goes last. *)
Fixpoint set (d : t) (k : K) (v : V) : t :=
  match d with
  | [] => [(k, v)]
  | (k', v') :: d' => if decide (k' = k) then (k', v) :: d' else (k', v') :: set d' k v
  end.

End odict.
Global Arguments t : clear implicits.

(** [d[k]] for a [str] key *)
Definition getitem {V} (d : t string V) (k : string) : py V :=
  match get d k with
  | Some v => Return v
  | None => Raise (KeyError k)
  end.

End ODict.

(** ** Floating-point numbers

    A float is an exact rational or one of the IEEE special values.  The
    operations are exact on rationals and follow IEEE 754 (as numpy does,
    which warns and goes on where Python's own floats would raise) on
    division by zero and on the special values.  There is one zero, and no
    rounding, overflow or underflow: a finite result is the exact one. *)

Inductive flt :=
  | Fin (q : Qc)
  | Inf (negative : bool)
  | NaN.

Module Flt.

Local Open Scope Qc_scope.

Definition zero : flt := Fin 0.

Definition of_Z (z : Z) : flt := Fin (Qc_of_Z z).

Definition is_finite (x : flt) : bool :=
  match x with Fin _ => true | _ => false end.

Definition negative (q : Qc) : bool := bool_decide (q < 0).

Definition add (x y : flt) : flt :=
  match x, y with
  | NaN, _ | _, NaN => NaN
  | Fin a, Fin b => Fin (a + b)
  | Fin _, Inf s | Inf s, Fin _ => Inf s
  | Inf s1, Inf s2 => if bool_decide (s1 = s2) then Inf s1 else NaN
  end.

Definition mul (x y : flt) : flt :=
  match x, y with
  | NaN, _ | _, NaN => NaN
  | Fin a, Fin b => Fin (a * b)
  | Fin a, Inf s | Inf s, Fin a =>
      if bool_decide (a = 0) then NaN else Inf (xorb s (negative a))
  | Inf s1, Inf s2 => Inf (xorb s1 s2)
  end.

Definition div (x y : flt) : flt :=
  match x, y with
  | NaN, _ | _, NaN => NaN
  | Fin a, Fin b =>
      if bool_decide (b = 0)
      then (if bool_decide (a = 0) then NaN else Inf (negative a))
      else Fin (a / b)
  | Fin _, Inf _ => Fin 0
  | Inf s, Fin b => Inf (xorb s (negative b))
  | Inf _, Inf _ => NaN
  end.

(** [x < y]; false when either is a NaN. *)
Definition lt (x y : flt) : bool :=
  match x, y with
  | NaN, _ | _, NaN => false
  | Fin a, Fin b => bool_decide (a < b)
  | Fin _, Inf s => negb s
  | Inf s, Fin _ => s
  | Inf s1, Inf s2 => s1 && negb s2
  end.

(** [x > y] *)
Definition gt (x y : flt) : bool := lt y x.

(** [x != y]; true when either is a NaN. *)
Definition ne (x y : flt) : bool :=
  match x, y with
  | Fin a, Fin b => bool_decide (a ≠ b)
  | Inf s1, Inf s2 => bool_decide (s1 ≠ s2)
  | _, _ => true
  end.

(** [np.sum(v)] and [np.dot(u, v)] of one-dimensional arrays. *)
Definition sum (v : list flt) : flt := foldl add zero v.
Definition dot (u v : list flt) : flt := sum (zip_with mul u v).

(** The literals of the source. *)
Definition e_minus_24 : flt := Fin (Q2Qc (1 # 1000000000000000000000000)).
Definition e_plus_24 : flt := Fin (Q2Qc 1000000000000000000000000).
Definition minus_e_minus_21 : flt := Fin (Q2Qc (-1 # 1000000000000000000000)).

(** *** Rounding to 8 significant digits *)

Definition pow10 (m : Z) : Qc :=
  if decide (0 ≤ m)%Z then Qc_of_Z (10 ^ m) else / Qc_of_Z (10 ^ (- m)).

Fixpoint magnitude_up (fuel : nat) (q : Qc) (m : Z) : Z :=
  match fuel with
  | O => m
  | S fuel' => if bool_decide (q < pow10 (m + 1)) then m else magnitude_up fuel' q (m + 1)
  end.

Fixpoint magnitude_down (fuel : nat) (q : Qc) (m : Z) : Z :=
  match fuel with
  | O => m
  | S fuel' => if bool_decide (pow10 m ≤ q) then m else magnitude_down fuel' q (m - 1)
  end.

(** [np.floor(np.log10(q))] for [0 < q]: the [m] with [10^m <= q < 10^(m+1)]. *)
Definition magnitude (q : Qc) : Z :=
  let fuel := Z.to_nat (Z.log2 (Z.abs (Qnum q)) + Z.log2 (Zpos (Qden q)) + 2) in
  if bool_decide (1 ≤ q) then magnitude_up fuel q 0 else magnitude_down fuel q (-1).

(** [round(q)], to the nearest integer and to the even one on a tie. *)
Definition round_half_even (q : Qc) : Z :=
  let f := Qfloor q in
  let r := q - Qc_of_Z f in
  if bool_decide (r < Q2Qc (1 # 2)) then f
  else if bool_decide (Q2Qc (1 # 2) < r) then (f + 1)%Z
  else if Z.even f then f else (f + 1)%Z.

(** [round(q, 8)] *)
Definition round8 (q : Qc) : Qc := Qc_of_Z (round_half_even (q * pow10 8)) / pow10 8.

(** The value written for a positive [val] when [round_number] is set
    (lines 534-538): the decimal order of magnitude is taken out, the
    mantissa rounded, and the value put together again. *)
Definition round_number_value (val : flt) : flt :=
  match val with
  | Fin q =>
      let val_magnitude := magnitude q in
      let val_scaled := q / pow10 val_magnitude in
      let val_round := round8 val_scaled in
      Fin (val_round * pow10 val_magnitude)
  | _ => NaN   (* inf / 10**inf is a NaN *)
  end.

End Flt.

Global Arguments Flt.add : simpl never.
Global Arguments Flt.mul : simpl never.
Global Arguments Flt.div : simpl never.
Global Arguments Flt.lt : simpl never.
Global Arguments Flt.gt : simpl never.
Global Arguments Flt.ne : simpl never.
Global Arguments Flt.zero : simpl never.
Global Arguments Flt.e_minus_24 : simpl never.
Global Arguments Flt.minus_e_minus_21 : simpl never.
Global Arguments Flt.round_number_value : simpl never.

(** ** The geometry, as far as [extract_mat_ids] reads it *)

Record Material := {
  mat_id : Z;                          (* mat.id *)
  mat_burnable : bool;                 (* mat.burnable *)
  mat_volume : option flt;             (* mat.volume, None when not set *)
  mat_temperature : option flt;        (* mat.temperature *)
  mat_nuclides : list (string * flt);  (* (nuclide[0].name, nuclide[1]) *)
  mat_sab : list string                (* mat._sab *)
}.

(** [cell.fill] is one [openmc.Material] or an iterable of them. *)
Inductive Fill :=
  | FillMaterial (m : Material)
  | FillList (ms : list Material).

Record Cell := {
  cell_name : string;
  cell_fill : Fill
}.

(** [geometry.get_all_material_cells()]: cells by id, in iteration order. *)
Definition Geometry := list (Z * Cell).

Module Decompose.

(** The sets and dictionaries filled by the single pass over the geometry. *)
Record scan := {
  mat_burn : gset string;
  mat_not_burn : gset string;
  nuc_set : gset string;
  volume : ODict.t string (option flt);
  mat_name : ODict.t Z string   (* self.mat_name *)
}.

Definition scan0 : scan :=
  {| mat_burn := ∅; mat_not_burn := ∅; nuc_set := ∅; volume := []; mat_name := [] |}.

(** The body run for one material of a cell named [name]. *)
Definition scan_material (name : string) (st : scan) (mat : Material) : scan :=
  let nucs := foldl (λ s nuclide, s ∪ {[ nuclide.1 ]}) (nuc_set st) (mat_nuclides mat) in
  let id := pretty (mat_id mat) in
  if mat_burnable mat then
    {| mat_burn := mat_burn st ∪ {[ id ]};
       mat_not_burn := mat_not_burn st;
       nuc_set := nucs;
       volume := ODict.set (volume st) id (mat_volume mat);
       mat_name := ODict.set (mat_name st) (mat_id mat) name |}
  else
    {| mat_burn := mat_burn st;
       mat_not_burn := mat_not_burn st ∪ {[ id ]};
       nuc_set := nucs;
       volume := volume st;
       mat_name := ODict.set (mat_name st) (mat_id mat) name |}.

Definition scan_cell (st : scan) (c : Z * Cell) : scan :=
  let name := cell_name c.2 in
  match cell_fill c.2 with
  | FillMaterial mat => scan_material name st mat
  | FillList mats => foldl (scan_material name) st mats
  end.

Definition scan_geometry (g : Geometry) : scan := foldl scan_cell scan0 g.

(** [need_vol]: the keys of [volume] whose value is [None], in order. *)
Definition need_vol (volume : ODict.t string (option flt)) : list string :=
  (filter (λ kv, kv.2 = None) volume).*1.

(** The global nuclide dictionary: the chain's, then the new names. *)
Definition add_nuc (st : ODict.t string Z * Z) (nuc : string) : ODict.t string Z * Z :=
  let '(nuc_dict, i) := st in
  if ODict.mem nuc_dict nuc then (nuc_dict, i)
  else (ODict.set nuc_dict nuc i, i + 1).

Definition build_nuc_dict (chain_nuclide_dict : ODict.t string Z) (nuc_list : list string) : ODict.t string Z :=
  (foldl add_nuc (chain_nuclide_dict, Z.of_nat (length chain_nuclide_dict)) nuc_list).1.

(** One pass of the decomposition loop: rank [i] takes the next chunk. *)
Definition take_chunk (mats : list string) (chunk extra : Z)
    (st : list (list string) * Z) (i : Z) : list (list string) * Z :=
  let '(lists, j) := st in
  let c_chunk := if decide (i < extra) then chunk + 1 else chunk in
  (lists ++ [PyList.slice mats j (j + c_chunk)], j + c_chunk).

Definition decompose (mats : list string) (n : Z) : py (list (list string)) :=
  '(chunk, extra) ← PyList.divmod (Z.of_nat (length mats)) n;
  Return (foldl (take_chunk mats chunk extra) ([], 0) (seqZ 0 n)).1.

Record result := {
  mat_burn_lists : list (list string);
  mat_not_burn_lists : list (list string);
  res_volume : ODict.t string (option flt);
  mat_tally_ind : ODict.t string Z;
  nuc_dict : ODict.t string Z;
  res_mat_name : ODict.t Z string
}.

(** [OpenMCOperator.extract_mat_ids], for a communicator of [size] ranks and
    the chain's nuclide dictionary. *)
Definition extract_mat_ids (geometry : Geometry) (chain_nuclide_dict : ODict.t string Z)
    (size : Z) : py result :=
  let st := scan_geometry geometry in
  let missing := need_vol (volume st) in
  if decide (missing ≠ []) then
    SystemExit ("Need volumes for materials: " +:+ PyStr.str_list missing)
  else
    let burn := PyStr.sorted (mat_burn st) in
    let not_burn := PyStr.sorted (mat_not_burn st) in
    let nucs := PyStr.sorted (nuc_set st) in
    let nuc_dict := build_nuc_dict chain_nuclide_dict nucs in
    burn_lists ← decompose burn size;
    not_burn_lists ← decompose not_burn size;
    let tally_ind := foldl (λ d im, ODict.set d im.2 (Z.of_nat im.1)) [] (imap pair burn) in
    Return {| mat_burn_lists := burn_lists;
              mat_not_burn_lists := not_burn_lists;
              res_volume := volume st;
              mat_tally_ind := tally_ind;
              nuc_dict := nuc_dict;
              res_mat_name := mat_name st |}.

End Decompose.


(** ** numpy arrays of floats, as far as the operator uses them *)

Module Np.

(** The position an index stands for in an axis of length [len]: a negative
    index counts from the end, and an index outside the axis raises. *)
Definition index (len : nat) (i : Z) : py nat :=
  if decide (0 ≤ i < Z.of_nat len) then Return (Z.to_nat i)
  else if decide (- Z.of_nat len ≤ i < 0) then Return (Z.to_nat (Z.of_nat len + i))
  else Raise IndexError.

(** [np.zeros(n)] and [np.zeros((n, m))] *)
Definition zeros (n : nat) : list flt := replicate n Flt.zero.
Definition zeros2 (n m : nat) : list (list flt) := replicate n (zeros m).

(** [v[i]] *)
Definition get1 (v : list flt) (i : Z) : py flt :=
  k ← index (length v) i;
  match v !! k with Some x => Return x | None => Raise IndexError end.

(** [v[i] = x] *)
Definition set1 (v : list flt) (i : Z) (x : flt) : py (list flt) :=
  k ← index (length v) i;
  Return (<[k := x]> v).

(** [a[i, j]] *)
Definition get2 (a : list (list flt)) (i j : Z) : py flt :=
  k ← index (length a) i;
  match a !! k with Some row => get1 row j | None => Raise IndexError end.

(** [a[i, j] = x] *)
Definition set2 (a : list (list flt)) (i j : Z) (x : flt) : py (list (list flt)) :=
  k ← index (length a) i;
  match a !! k with
  | Some row => row' ← set1 row j x; Return (<[k := row']> a)
  | None => Raise IndexError
  end.

(** [a[:, j]] *)
Definition column (a : list (list flt)) (j : Z) : py (list flt) :=
  mapM (λ row, get1 row j) a.

(** [np.dot(u, v)] of one-dimensional arrays, which must be as long. *)
Definition dot (u v : list flt) : py flt :=
  if decide (length u = length v) then Return (Flt.dot u v) else Raise ValueError.

End Np.

(** ** The objects the operator holds *)

(** [OpenMCSettings] *)
Module Settings.
Record t := {
  openmc_call : list string;
  particles : Z;
  batches : Z;
  inactive : Z;
  lower_left : list flt;
  upper_right : list flt;
  entropy_dimension : list Z;
  round_number : bool;
  constant_seed : option Z;
  power : flt
}.
End Settings.

(** [class Materials] *)
Module Materials.
Record t := {
  temperature : option flt;
  sab : list string
}.
End Materials.

Module AtomNumber.

(** Modelled from the spec: the atom-density storage container
    (atom_number.py is not among the sources).  It holds, for every material
    and nuclide of its two dictionaries, a stored number of atoms, read and
    written as [self.number[mat, nuc]]; [density_of] is what
    [get_atom_density] makes of the stored number of a material. *)
Record t := {
  mat_to_ind : ODict.t string Z;
  nuc_to_ind : ODict.t string Z;
  burn_mat_list : list string;
  burn_nuc_list : list string;
  n_mat_burn : Z;
  number : gmap (string * string) flt;
  density_of : string → flt → flt
}.

Definition with_number (n : t) (number' : gmap (string * string) flt) : t :=
  {| mat_to_ind := mat_to_ind n; nuc_to_ind := nuc_to_ind n;
     burn_mat_list := burn_mat_list n; burn_nuc_list := burn_nuc_list n;
     n_mat_burn := n_mat_burn n; number := number'; density_of := density_of n |}.

(** [n[mat, nuc]] *)
Definition getitem (n : t) (mat nuc : string) : py flt :=
  match number n !! (mat, nuc) with
  | Some x => Return x
  | None => Raise (KeyError (mat +:+ ", " +:+ nuc))
  end.

(** [n[mat, nuc] = x] *)
Definition setitem (n : t) (mat nuc : string) (x : flt) : py t :=
  match number n !! (mat, nuc) with
  | Some _ => Return (with_number n (<[(mat, nuc) := x]> (number n)))
  | None => Raise (KeyError (mat +:+ ", " +:+ nuc))
  end.

(** [n.get_atom_density(mat, nuc)] *)
Definition get_atom_density (n : t) (mat nuc : string) : py flt :=
  x ← getitem n mat nuc; Return (density_of n mat x).

(** [n[:, nuc]] *)
Definition column (n : t) (nuc : string) : py (list flt) :=
  mapM (λ mat, getitem n mat nuc) (ODict.keys (mat_to_ind n)).

(** [n.set_mat_slice(i, val)]: the stored numbers of the [i]-th burnable
    material, one for each burnable nuclide. *)
Definition set_mat_slice (n : t) (i : Z) (val : list flt) : py t :=
  k ← Np.index (length (burn_mat_list n)) i;
  match burn_mat_list n !! k with
  | None => Raise IndexError
  | Some mat =>
      for_each (λ n' knuc, x ← Np.get1 val (Z.of_nat knuc.1); setitem n' mat knuc.2 x)
               (imap pair (burn_nuc_list n)) n
  end.

End AtomNumber.

Module ReactionRates.

(** Modelled from the spec: the reaction-rate storage container
    (reaction_rates.py is not among the sources): a dense array [rates]
    indexed [material, nuclide, reaction], with the dictionaries that give
    the indices and the sizes of the last two axes. *)
Record t := {
  nuc_to_ind : ODict.t string Z;
  react_to_ind : ODict.t string Z;
  n_nuc : nat;
  n_react : nat;
  rates : list (list (list flt))
}.

Definition with_rates (r : t) (rates' : list (list (list flt))) : t :=
  {| nuc_to_ind := nuc_to_ind r; react_to_ind := react_to_ind r;
     n_nuc := n_nuc r; n_react := n_react r; rates := rates' |}.

(** The array with [f] applied to every entry. *)
Definition map3 (f : flt → flt) (a : list (list (list flt))) : list (list (list flt)) :=
  (λ slice : list (list flt), (λ row : list flt, f <$> row) <$> slice) <$> a.

(** [r[:, :, :] = x] *)
Definition fill (r : t) (x : flt) : t := with_rates r (map3 (λ _, x) (rates r)).

(** [r[:, :, :] *= x] *)
Definition scale (r : t) (x : flt) : t := with_rates r (map3 (λ y, Flt.mul y x) (rates r)).

(** [r.rates[i, :, :] = a] *)
Definition set_row (r : t) (i : Z) (a : list (list flt)) : py t :=
  k ← Np.index (length (rates r)) i;
  Return (with_rates r (<[k := a]> (rates r))).

End ReactionRates.

Module DepletionChain.

Record Nuclide := {
  name : string;
  fission_power : flt
}.

(** What the operator reads of the depletion chain (depletion_chain.py is
    not among the sources). *)
Record t := {
  nuclide_dict : ODict.t string Z;
  nuclides : list Nuclide;
  react_to_ind : ODict.t string Z
}.

End DepletionChain.

(** The statepoint file, as far as [unpack_tallies_and_normalize] reads it. *)
Module Statepoint.
Record t := {
  k_combined : flt;               (* file["k_combined"][0] *)
  bins : list Z;                  (* tallies/tally 1/filter 1/bins *)
  nuclides : list string;         (* tallies/tally 1/nuclides *)
  score_bins : list string;       (* tallies/tally 1/score_bins *)
  results : list (list flt)       (* tallies/tally 1/results[slab, :, 0] *)
}.
End Statepoint.

(** ** What a rank does to the world *)

(** An element of materials.xml. *)
Record material_element := {
  el_id : string;
  el_temperature : option flt;
  el_nuclides : list (string * flt);   (* (name, ao) *)
  el_sab : list string
}.

Record settings_file := {
  sf_batches : Z;
  sf_inactive : Z;
  sf_particles : Z;
  sf_source : list flt * list flt;
  sf_entropy_lower_left : list flt;
  sf_entropy_upper_right : list flt;
  sf_entropy_dimension : list Z;
  sf_seed : Z
}.

Record tallies_file := {
  tf_filter : list string;     (* the burnable materials *)
  tf_nuclides : list string;
  tf_scores : list string
}.

(** What travels between ranks. *)
Inductive message :=
  | MsgBool (b : bool)
  | MsgFloat (x : flt)
  | MsgNuclides (s : gset string)
  | MsgFragment (xml : list material_element).

Inductive event :=
  | Send (dest tag : Z) (m : message)           (* comm.send *)
  | Recv (source tag : Z) (m : message)         (* comm.recv *)
  | Irecv (source tag : Z)                      (* comm.irecv *)
  | Test (arrived : bool)                       (* status.Test() *)
  | Sleep (seconds : Z)                         (* time.sleep *)
  | Bcast (root : Z) (m : message)              (* comm.bcast *)
  | Barrier                                     (* comm.barrier *)
  | Call (command : list string)                (* subprocess call *)
  | WriteMaterials (xml : list material_element)
  | WriteSettings (f : settings_file)
  | WriteTallies (f : tallies_file)
  | OpenStatepoint (name : string)              (* h5py.File *)
  | Remove (name : string)                      (* os.remove *)
  | Warning (nuc mat : string) (val : flt)      (* the negative-density print *)
  | PrintTimes.

(** What a rank receives from the others and from the outside in one step. *)
Record Env := {
  fragment_from : Z → list material_element;   (* materials.xml pieces, by rank *)
  nuclides_from : Z → gset string;             (* non-zero nuclides, by rank *)
  random_seed : Z;                             (* random.randint(1, sys.maxsize-1) *)
  polls : nat;                                 (* failed status.Test() *)
  statepoint : Statepoint.t;
  power_from : Z → flt;                        (* partial powers, by rank *)
  power_bcast : flt                            (* the power rank 0 broadcasts *)
}.

Module OpenMCOperator.

Record t := {
  rank : Z;
  size : Z;
  settings : Settings.t;
  materials : list (option Materials.t);
  seed : Z;
  number : AtomNumber.t;
  participating_nuclides : gset string;
  chain : DepletionChain.t;
  reaction_rates : ReactionRates.t;
  mat_tally_ind : ODict.t string Z
}.

Definition with_number (op : t) (n : AtomNumber.t) : t :=
  {| rank := rank op; size := size op; settings := settings op;
     materials := materials op; seed := seed op; number := n;
     participating_nuclides := participating_nuclides op; chain := chain op;
     reaction_rates := reaction_rates op; mat_tally_ind := mat_tally_ind op |}.

Definition with_seed (op : t) (s : Z) : t :=
  {| rank := rank op; size := size op; settings := settings op;
     materials := materials op; seed := s; number := number op;
     participating_nuclides := participating_nuclides op; chain := chain op;
     reaction_rates := reaction_rates op; mat_tally_ind := mat_tally_ind op |}.

Definition with_reaction_rates (op : t) (r : ReactionRates.t) : t :=
  {| rank := rank op; size := size op; settings := settings op;
     materials := materials op; seed := seed op; number := number op;
     participating_nuclides := participating_nuclides op; chain := chain op;
     reaction_rates := r; mat_tally_ind := mat_tally_ind op |}.

(** The ranks other than 0, in order: [range(1, self.size)]. *)
Definition others (op : t) : list Z := seqZ 1 (size op - 1).


(** *** [generate_materials_xml] *)

(** [l[i]] for a Python list. *)
Definition list_getitem {A} (l : list A) (i : Z) : py A :=
  k ← Np.index (length l) i;
  match l !! k with Some x => Return x | None => Raise IndexError end.

(** [self.materials[mat_id]], of which an attribute is then read. *)
Definition materials_getitem (op : t) (mat_id : Z) : py Materials.t :=
  m ← list_getitem (materials op) mat_id;
  match m with Some m => Return m | None => Raise AttributeError end.

(** What the loop over the nuclides of a material carries: the container,
    the nuclide entries of the element so far, and what was printed. *)
Definition nuclide_state : Type := AtomNumber.t * list (string * flt) * list event.

(** The body of the loop over [self.number.nuc_to_ind] (lines 528-549). *)
Definition material_nuclide (round_number : bool) (participating : gset string)
    (mat : string) (st : nuclide_state) (nuc : string) : py nuclide_state :=
  let '(number, nuclides, out) := st in
  if decide (nuc ∈ participating) then
    density ← AtomNumber.get_atom_density number mat nuc;
    let val := Flt.mul Flt.e_minus_24 density in
    if Flt.gt val Flt.zero then
      let val := if round_number then Flt.round_number_value val else val in
      Return (number, nuclides ++ [(nuc, val)], out)
    else
      let out := if Flt.lt val Flt.minus_e_minus_21
                 then out ++ [Warning nuc mat val] else out in
      number ← AtomNumber.setitem number mat nuc Flt.zero;
      Return (number, nuclides, out)
  else Return st.

Definition fragment_state : Type := AtomNumber.t * list material_element * list event.

(** The body of the loop over [self.number.mat_to_ind] (lines 517-561). *)
Definition material_fragment (op : t) (st : fragment_state) (entry : string * Z)
    : py fragment_state :=
  let '(number, xml_strings, out) := st in
  let '(mat, mat_id) := entry in
  m ← materials_getitem op mat_id;
  '(number, nuclides, out) ←
    for_each (material_nuclide (Settings.round_number (settings op))
                               (participating_nuclides op) mat)
             (ODict.keys (AtomNumber.nuc_to_ind number)) (number, [], out);
  let root := {| el_id := mat; el_temperature := Materials.temperature m;
                 el_nuclides := nuclides; el_sab := Materials.sab m |} in
  Return (number, xml_strings ++ [root], out).

(** The elements this rank writes for its materials, the container they
    leave behind, and what is printed on the way. *)
Definition materials_fragments (op : t) : py fragment_state :=
  for_each (material_fragment op) (AtomNumber.mat_to_ind (number op)) (number op, [], []).

Definition generate_materials_xml (op : t) (env : Env) : py (t * list event) :=
  '(number, xml_string, out) ← materials_fragments op;
  let op := with_number op number in
  if decide (rank op = 0) then
    let received := (λ i, Recv i i (MsgFragment (fragment_from env i))) <$> others op in
    let document := xml_string ++ concat (fragment_from env <$> others op) in
    Return (op, out ++ received ++ [WriteMaterials document; Barrier])
  else
    Return (op, out ++ [Send 0 (rank op) (MsgFragment xml_string); Barrier]).

(** *** [generate_settings_xml] *)

(** [sys.maxsize] *)
Definition maxsize : Z := 2 ^ 63 - 1.

Definition generate_settings_xml (op : t) (env : Env) : t * list event :=
  if decide (rank op = 0) then
    let s := settings op in
    let seed := match Settings.constant_seed s with
                | Some seed => seed
                | None => random_seed env
                end in
    let settings_file :=
      {| sf_batches := Settings.batches s;
         sf_inactive := Settings.inactive s;
         sf_particles := Settings.particles s;
         sf_source := (Settings.lower_left s, Settings.upper_right s);
         sf_entropy_lower_left := Settings.lower_left s;
         sf_entropy_upper_right := Settings.upper_right s;
         sf_entropy_dimension := Settings.entropy_dimension s;
         sf_seed := seed |} in
    (with_seed op seed, [WriteSettings settings_file])
  else (op, []).

(** *** [generate_tally_xml] *)

(** The nuclides this rank holds with a positive total. *)
Definition nonzero_nuclide (op : t) (nuc_set : gset string) (nuc : string)
    : py (gset string) :=
  if decide (nuc ∈ participating_nuclides op) then
    column ← AtomNumber.column (number op) nuc;
    if Flt.gt (Flt.sum column) Flt.zero then Return (nuc_set ∪ {[ nuc ]})
    else Return nuc_set
  else Return nuc_set.

Definition generate_tally_xml (op : t) (env : Env) : py (list event) :=
  let keys := ODict.keys (AtomNumber.nuc_to_ind (number op)) in
  nuc_set ← for_each (nonzero_nuclide op) keys ∅;
  if decide (rank op = 0) then
    let received := (λ i, Recv i i (MsgNuclides (nuclides_from env i))) <$> others op in
    let nuc_set := foldl (λ s i, s ∪ nuclides_from env i) nuc_set (others op) in
    let nuc_list := filter (λ nuc, nuc ∈ nuc_set) keys in
    let tallies_file :=
      {| tf_filter := ODict.keys (mat_tally_ind op);
         tf_nuclides :=
           filter (λ key, key ∈ ODict.keys (DepletionChain.nuclide_dict (chain op))) nuc_list;
         tf_scores := ODict.keys (DepletionChain.react_to_ind (chain op)) |} in
    Return (received ++ [WriteTallies tallies_file])
  else
    Return [Send 0 (rank op) (MsgNuclides nuc_set)].

(** *** [set_density] *)

Definition set_density (op : t) (total_density : list (list flt)) : py t :=
  number ← for_each (λ n i, slice ← list_getitem total_density i;
                            AtomNumber.set_mat_slice n i slice)
                    (seqZ 0 (AtomNumber.n_mat_burn (number op))) (number op);
  Return (with_number op number).

(** *** [unpack_tallies_and_normalize] *)

(** [l.index(x)] for a Python list of strings. *)
Definition list_index (l : list string) (x : string) : py Z :=
  match list_find (λ y, y = x) l with
  | Some (i, _) => Return (Z.of_nat i)
  | None => Raise ValueError
  end.

(** What the expansion of a row carries: [results_expanded], the local
    array [number] and the counter [j]. *)
Definition expand_state : Type := list (list flt) * list flt * Z.

(** The body of the loop over [react_ind] (lines 781-784), for the tally
    nuclide [nuc] whose row in [results_expanded] is [i_nuc_results]. *)
Definition expand_bin (self_number : AtomNumber.t) (results : list flt)
    (mat nuc : string) (i_nuc_results : Z) (st : expand_state) (react : Z)
    : py expand_state :=
  let '(results_expanded, number, j) := st in
  x ← Np.get1 results j;
  results_expanded ← Np.set2 results_expanded i_nuc_results react x;
  count ← AtomNumber.getitem self_number mat nuc;
  number ← Np.set1 number i_nuc_results count;
  Return (results_expanded, number, j + 1).

(** The body of the loop over [enumerate(nuc_ind)] (lines 779-784). *)
Definition expand_nuclide (self_number : AtomNumber.t) (results : list flt)
    (mat : string) (nuclides : list string) (react_ind : list Z)
    (st : expand_state) (entry : nat * Z) : py expand_state :=
  let '(i_nuc_array, i_nuc_results) := entry in
  nuc ← list_getitem nuclides (Z.of_nat i_nuc_array);
  for_each (expand_bin self_number results mat nuc i_nuc_results) react_ind st.

(** The body of the inner loop of the division (lines 791-793). *)
Definition divide_bin (number : list flt) (i_nuc_results : Z)
    (results_expanded : list (list flt)) (react : Z) : py (list (list flt)) :=
  count ← Np.get1 number i_nuc_results;
  if Flt.ne count Flt.zero then
    x ← Np.get2 results_expanded i_nuc_results react;
    Np.set2 results_expanded i_nuc_results react (Flt.div x count)
  else Return results_expanded.

(** The division by the numbers of atoms (lines 790-793). *)
Definition divide (number : list flt) (nuc_ind react_ind : list Z)
    (results_expanded : list (list flt)) : py (list (list flt)) :=
  for_each (λ re i_nuc_results, for_each (divide_bin number i_nuc_results) react_ind re)
           nuc_ind results_expanded.

(** The expansion of the row of a material into [results_expanded] and
    [number] (lines 774-784). *)
Definition expand (op : t) (results : list flt) (mat : string)
    (nuclides : list string) (nuc_ind react_ind : list Z) : py expand_state :=
  let rr := reaction_rates op in
  let results_expanded := Np.zeros2 (ReactionRates.n_nuc rr) (ReactionRates.n_react rr) in
  let number := Np.zeros (ReactionRates.n_nuc rr) in
  for_each (expand_nuclide (OpenMCOperator.number op) results mat nuclides react_ind)
           (imap pair nuc_ind) (results_expanded, number, 0).

(** The body of the loop over [enumerate(self.number.burn_mat_list)]
    (lines 767-795). *)
Definition unpack_material (op : t) (file : Statepoint.t) (materials nuclides : list string)
    (nuc_ind react_ind : list Z) (fission_ind : Z) (power_vec : list flt)
    (st : ReactionRates.t * flt) (entry : nat * string) : py (ReactionRates.t * flt) :=
  let '(rr, power) := st in
  let '(i, mat) := entry in
  slab ← list_index materials mat;
  results ← list_getitem (Statepoint.results file) slab;
  '(results_expanded, number, _) ← expand op results mat nuclides nuc_ind react_ind;
  fission ← Np.column results_expanded fission_ind;
  p ← Np.dot fission power_vec;
  let power := Flt.add power p in
  results_expanded ← divide number nuc_ind react_ind results_expanded;
  rr ← ReactionRates.set_row rr (Z.of_nat i) results_expanded;
  Return (rr, power).

(** The fission energy of the nuclides, by index (lines 756-764). *)
Definition fission_power_vec (op : t) : py (list flt) :=
  let rr := reaction_rates op in
  for_each (λ power_vec nuclide,
              if ODict.mem (ReactionRates.nuc_to_ind rr) (DepletionChain.name nuclide) then
                ind ← ODict.getitem (ReactionRates.nuc_to_ind rr) (DepletionChain.name nuclide);
                Np.set1 power_vec ind (DepletionChain.fission_power nuclide)
              else Return power_vec)
           (DepletionChain.nuclides (chain op)) (Np.zeros (ReactionRates.n_nuc rr)).

(** What a rank does before it talks to the others (lines 731-795): the
    eigenvalue, the rates per atom of its materials and its part of the
    fission power. *)
Definition unpack_local (op : t) (file : Statepoint.t) : py (flt * ReactionRates.t * flt) :=
  let rr := ReactionRates.fill (reaction_rates op) Flt.zero in
  let k_combined := Statepoint.k_combined file in
  let materials := pretty <$> Statepoint.bins file in
  let nuclides := Statepoint.nuclides file in
  let reactions := Statepoint.score_bins file in
  nuc_ind ← mapM (ODict.getitem (ReactionRates.nuc_to_ind rr)) nuclides;
  react_ind ← mapM (ODict.getitem (ReactionRates.react_to_ind rr)) reactions;
  let power := Flt.zero in
  fission_ind ← ODict.getitem (ReactionRates.react_to_ind rr) "fission";
  power_vec ← fission_power_vec op;
  '(rr, power) ← for_each (unpack_material op file materials nuclides nuc_ind react_ind
                                           fission_ind power_vec)
                          (imap pair (AtomNumber.burn_mat_list (number op))) (rr, power);
  Return (k_combined, rr, power).

(** The power of all ranks, as rank 0 adds it up (lines 800-806). *)
Definition gather_power (op : t) (env : Env) (power : flt) : py flt :=
  let power_array := Np.zeros (Z.to_nat (size op)) in
  power_array ← Np.set1 power_array 0 power;
  power_array ← for_each (λ a i, Np.set1 a i (power_from env i)) (others op) power_array;
  Return (Flt.sum power_array).

Definition unpack_tallies_and_normalize (op : t) (env : Env) (filename : string)
    : py (flt * t * list event) :=
  '(k_combined, rr, power) ← unpack_local op (statepoint env);
  '(power, talk) ←
    (if decide (rank op = 0) then
       power ← gather_power op env power;
       Return (power, (λ i, Recv i i (MsgFloat (power_from env i))) <$> others op)
     else
       Return (power_bcast env, [Send 0 (rank op) (MsgFloat power)]));
  let rr := ReactionRates.scale rr (Flt.div (Settings.power (settings op)) power) in
  Return (k_combined, with_reaction_rates op rr,
          [OpenStatepoint filename] ++ talk ++ [Bcast 0 (MsgFloat power)]).

(** *** [eval] *)

(** The wait of a rank other than 0 for the end of the run: [polls] tests
    fail, each followed by a second of sleep, and the next succeeds. *)
Definition wait_for_run (polls : nat) : list event :=
  [Irecv 0 0] ++ concat (replicate polls [Test false; Sleep 1]) ++ [Test true].

Definition eval (op : t) (env : Env) (vec : list (list flt)) (print_out : bool)
    : py ((flt * ReactionRates.t * Z) * t * list event) :=
  op ← set_density op vec;
  '(op, materials_xml) ← generate_materials_xml op env;
  tally_xml ← generate_tally_xml op env;
  let '(op, settings_xml) := generate_settings_xml op env in
  let run :=
    if decide (rank op = 0)
    then [Call (Settings.openmc_call (settings op))]
           ++ ((λ i, Send i 0 (MsgBool true)) <$> others op)
    else [] in
  let wait := if decide (rank op ≠ 0) then wait_for_run (polls env) else [] in
  let statepoint_name := "statepoint." +:+ pretty (Settings.batches (settings op)) +:+ ".h5" in
  '(k, op, unpack) ← unpack_tallies_and_normalize op env statepoint_name;
  let barrier := [Barrier] in
  let finish :=
    if decide (rank op = 0)
    then [Remove statepoint_name] ++ (if print_out then [PrintTimes] else [])
    else [] in
  Return ((k, reaction_rates op, seed op), op,
          materials_xml ++ tally_xml ++ settings_xml ++ run ++ wait ++ unpack
            ++ barrier ++ finish).

End OpenMCOperator.

(** ** What the decomposition is to satisfy *)

Module DecomposeSpec.
Import Decompose.

(** The number of ids that rank [i] of [r] takes out of [n]. *)
Definition chunk_size (n r i : Z) : Z :=
  n `div` r + (if decide (i < n `mod` r) then 1 else 0).

(** Where the chunk of rank [k] starts. *)
Definition chunk_start (n r k : Z) : Z := k * (n `div` r) + Z.min k (n `mod` r).

(** [lists] splits [ids] among [r] ranks, as evenly as can be. *)
Definition balanced_split (ids : list string) (r : Z) (lists : list (list string)) : Prop :=
  let n := Z.of_nat (length ids) in
  Z.of_nat (length lists) = r ∧
  (∀ (i : nat) c, lists !! i = Some c →
     Z.of_nat (length c) = n `div` r + (if decide (Z.of_nat i < n `mod` r) then 1 else 0)) ∧
  (∀ (i j : nat) ci cj, lists !! i = Some ci → lists !! j = Some cj →
     Z.abs (Z.of_nat (length ci) - Z.of_nat (length cj)) ≤ 1) ∧
  concat lists = ids.

(** The materials the pass visits, each with the name of its cell. *)
Definition scan_items (g : Geometry) : list (string * Material) :=
  g ≫= λ c, match cell_fill c.2 with
            | FillMaterial mat => [(cell_name c.2, mat)]
            | FillList mats => pair (cell_name c.2) <$> mats
            end.

Definition materials_of (g : Geometry) : list Material := (scan_items g).*2.

Definition scan_item (st : scan) (nm : string * Material) : scan :=
  scan_material nm.1 st nm.2.

(** Material ids identify materials: two burnable materials of the geometry
    with the same id have the same volume. *)
Definition ids_consistent (g : Geometry) : Prop :=
  ∀ m1 m2, m1 ∈ materials_of g → m2 ∈ materials_of g →
    mat_burnable m1 = true → mat_burnable m2 = true →
    mat_id m1 = mat_id m2 → mat_volume m1 = mat_volume m2.

(** The names of [nucs] that the dictionary [d] does not know. *)
Definition new_nuclides (d : ODict.t string Z) (nucs : list string) : list string :=
  filter (λ x, x ∉ ODict.keys d) nucs.

(** Modelled from the spec: [chain.nuclide_dict] is built by the depletion
    chain (depletion_chain.py, which is not among the sources); the spec has it
    map every chain nuclide to its position in the chain ("chain-known
    nuclides occupy the lowest indices in chain order"). *)
Definition chain_order (d : ODict.t string Z) : Prop :=
  NoDup (ODict.keys d) ∧ d.*2 = seqZ 0 (Z.of_nat (length d)).

(** [d] is the global nuclide index for the chain's dictionary and the
    names [nucs] found in the geometry. *)
Definition nuclide_index_ok (chain d : ODict.t string Z) (nucs : gset string) : Prop :=
  ∃ new : list string,
    (* the chain's entries come first, unchanged; the new names follow with
       the next consecutive indices *)
    d = chain ++ zip new (seqZ (Z.of_nat (length chain)) (Z.of_nat (length new))) ∧
    (* the new names are the geometry names the chain lacks, in order *)
    StronglySorted PyStr.le new ∧
    NoDup new ∧
    (∀ x, x ∈ new ↔ x ∈ nucs ∧ x ∉ ODict.keys chain) ∧
    (* the map is deduplicated, dense and injective *)
    NoDup (ODict.keys d) ∧
    d.*2 = seqZ 0 (Z.of_nat (length d)) ∧
    (∀ k1 k2 i, ODict.get d k1 = Some i → ODict.get d k2 = Some i → k1 = k2) ∧
    (∀ k i, ODict.get chain k = Some i → ODict.get d k = Some i).

(** The decomposition of a geometry whose burnable materials all have a
    volume, among [size] ranks. *)
Definition partition_ok (geometry : Geometry) (chain : ODict.t string Z) (size : Z) : Prop :=
  let burn := PyStr.sorted (mat_burn (scan_geometry geometry)) in
  let not_burn := PyStr.sorted (mat_not_burn (scan_geometry geometry)) in
  (* the two id lists are the sorted ids of the two kinds of material *)
  StronglySorted PyStr.le burn ∧ StronglySorted PyStr.le not_burn ∧
  (∀ x, x ∈ burn ↔
     ∃ m, m ∈ materials_of geometry ∧ mat_burnable m = true ∧ pretty (mat_id m) = x) ∧
  (∀ x, x ∈ not_burn ↔
     ∃ m, m ∈ materials_of geometry ∧ mat_burnable m = false ∧ pretty (mat_id m) = x) ∧
  (* and each is split among the ranks *)
  ∃ res, extract_mat_ids geometry chain size = Return res ∧
    balanced_split burn size (mat_burn_lists res) ∧
    balanced_split not_burn size (mat_not_burn_lists res).

(** A burnable material of the geometry that has no volume. *)
Definition missing_volume (geometry : Geometry) (m : Material) : Prop :=
  m ∈ materials_of geometry ∧ mat_burnable m = true ∧ mat_volume m = None.

End DecomposeSpec.

(** ** What [generate_materials_xml] is to do *)

Module MaterialsSpec.
Import OpenMCOperator.

(** The value [val] computed for a nuclide of a material (line 530). *)
Definition nuclide_val (n : AtomNumber.t) (mat nuc : string) : option flt :=
  x ← AtomNumber.number n !! (mat, nuc);
  Some (Flt.mul Flt.e_minus_24 (AtomNumber.density_of n mat x)).

(** The nuclide takes part and its value is not positive. *)
Definition clamped (participating : gset string) (n : AtomNumber.t) (mat nuc : string) : bool :=
  bool_decide (nuc ∈ participating) &&
  match nuclide_val n mat nuc with
  | Some val => negb (Flt.gt val Flt.zero)
  | None => false
  end.

(** The entry written for a nuclide, if any. *)
Definition entry_of (round_number : bool) (participating : gset string)
    (n : AtomNumber.t) (mat nuc : string) : option (string * flt) :=
  if decide (nuc ∈ participating) then
    val ← nuclide_val n mat nuc;
    if Flt.gt val Flt.zero
    then Some (nuc, if round_number then Flt.round_number_value val else val)
    else None
  else None.

(** The warning printed for a nuclide, if any. *)
Definition warning_of (participating : gset string)
    (n : AtomNumber.t) (mat nuc : string) : option event :=
  if decide (nuc ∈ participating) then
    val ← nuclide_val n mat nuc;
    if Flt.gt val Flt.zero then None
    else if Flt.lt val Flt.minus_e_minus_21 then Some (Warning nuc mat val)
    else None
  else None.

(** The stored numbers after the nuclides [nucs] of [mat] have been gone
    through. *)
Definition clamp_material (participating : gset string) (n : AtomNumber.t)
    (mat : string) (nucs : list string) (m : gmap (string * string) flt)
    : gmap (string * string) flt :=
  foldl (λ m nuc, if clamped participating n mat nuc
                  then <[(mat, nuc) := Flt.zero]> m else m) m nucs.

Definition clamp_all (participating : gset string) (n : AtomNumber.t)
    (mats nucs : list string) : gmap (string * string) flt :=
  foldl (λ m mat, clamp_material participating n mat nucs m) (AtomNumber.number n) mats.

(** The [Materials] object of the material with index [mat_id]. *)
Definition material_at (op : t) (mat_id : Z) : Materials.t :=
  match materials_getitem op mat_id with
  | Return m => m
  | _ => {| Materials.temperature := None; Materials.sab := [] |}
  end.

(** The element written for an entry of [mat_to_ind]. *)
Definition element_of (op : t) (n : AtomNumber.t) (entry : string * Z) : material_element :=
  {| el_id := entry.1;
     el_temperature := Materials.temperature (material_at op entry.2);
     el_nuclides :=
       omap (entry_of (Settings.round_number (settings op)) (participating_nuclides op)
                      n entry.1)
            (ODict.keys (AtomNumber.nuc_to_ind n));
     el_sab := Materials.sab (material_at op entry.2) |}.

(** The warnings printed for a material. *)
Definition warnings_of (op : t) (n : AtomNumber.t) (mat : string) : list event :=
  omap (warning_of (participating_nuclides op) n mat) (ODict.keys (AtomNumber.nuc_to_ind n)).

(** The container can be read at every nuclide of every material, and the
    operator knows every material. *)
Definition well_formed (op : t) : Prop :=
  let n := number op in
  NoDup (ODict.keys (AtomNumber.mat_to_ind n)) ∧
  NoDup (ODict.keys (AtomNumber.nuc_to_ind n)) ∧
  (∀ mat nuc, mat ∈ ODict.keys (AtomNumber.mat_to_ind n) →
              nuc ∈ ODict.keys (AtomNumber.nuc_to_ind n) →
              is_Some (AtomNumber.number n !! (mat, nuc))) ∧
  (∀ mat mat_id, (mat, mat_id) ∈ AtomNumber.mat_to_ind n →
                 ∃ m, materials_getitem op mat_id = Return m).

(** The warnings printed about a nuclide of a material. *)
Definition is_warning_about (nuc mat : string) (e : event) : bool :=
  match e with
  | Warning nuc' mat' _ => bool_decide (nuc' = nuc ∧ mat' = mat)
  | _ => false
  end.

Definition warnings_about (out : list event) (nuc mat : string) : list event :=
  filter (λ e, Is_true (is_warning_about nuc mat e)) out.

(** The document has an entry for the nuclide in the element of the material. *)
Definition has_entry (xml : list material_element) (mat nuc : string) : Prop :=
  ∃ el, el ∈ xml ∧ el_id el = mat ∧ nuc ∈ (el_nuclides el).*1.

(** [x <= y] on floats. *)
Definition flt_le (x y : flt) : bool :=
  Flt.lt x y || negb (Flt.ne x y).

(** The clamping of the densities as the code does it: only a positive value
    gives an entry; any other value is stored as zero, with one warning
    that names nuclide, material and value when the value is below -1e-21
    and with no warning otherwise. *)
Definition clamping_ok (op : t) : Prop :=
  ∃ number' xml out,
    materials_fragments op = Return (number', xml, out) ∧
    ∀ mat nuc val,
      mat ∈ ODict.keys (AtomNumber.mat_to_ind (number op)) →
      nuc ∈ ODict.keys (AtomNumber.nuc_to_ind (number op)) →
      nuc ∈ participating_nuclides op →
      nuclide_val (number op) mat nuc = Some val →
      (has_entry xml mat nuc ↔ Flt.gt val Flt.zero = true) ∧
      (Flt.gt val Flt.zero = false →
         AtomNumber.number number' !! (mat, nuc) = Some Flt.zero ∧
         warnings_about out nuc mat =
           if Flt.lt val Flt.minus_e_minus_21 then [Warning nuc mat val] else []).

(** The clamping as claim C3 states it: a warning for every value that is at
    most -1e-21. *)
Definition clamping_claimed (op : t) : Prop :=
  ∀ number' xml out,
    materials_fragments op = Return (number', xml, out) →
    ∀ mat nuc val,
      mat ∈ ODict.keys (AtomNumber.mat_to_ind (number op)) →
      nuc ∈ ODict.keys (AtomNumber.nuc_to_ind (number op)) →
      nuc ∈ participating_nuclides op →
      nuclide_val (number op) mat nuc = Some val →
      (Flt.lt Flt.minus_e_minus_21 val = true → Flt.lt val Flt.zero = true →
         AtomNumber.number number' !! (mat, nuc) = Some Flt.zero ∧
         warnings_about out nuc mat = []) ∧
      (flt_le val Flt.minus_e_minus_21 = true →
         AtomNumber.number number' !! (mat, nuc) = Some Flt.zero ∧
         ∃ w, warnings_about out nuc mat = [w]) ∧
      (has_entry xml mat nuc ↔ Flt.gt val Flt.zero = true).

(** The effect of [generate_materials_xml] on the operator: the stored
    number of every participating nuclide whose value is not positive is
    zero afterwards, and nothing else has changed. *)
Definition clamps_state (op op' : t) : Prop :=
  let n := number op in
  let n' := number op' in
  (∀ mat nuc val,
     mat ∈ ODict.keys (AtomNumber.mat_to_ind n) →
     nuc ∈ ODict.keys (AtomNumber.nuc_to_ind n) →
     nuc ∈ participating_nuclides op →
     nuclide_val n mat nuc = Some val → Flt.gt val Flt.zero = false →
     AtomNumber.number n' !! (mat, nuc) = Some Flt.zero) ∧
  (∀ mat nuc,
     ¬ (mat ∈ ODict.keys (AtomNumber.mat_to_ind n) ∧
        nuc ∈ ODict.keys (AtomNumber.nuc_to_ind n) ∧
        nuc ∈ participating_nuclides op ∧
        ∃ val, nuclide_val n mat nuc = Some val ∧ Flt.gt val Flt.zero = false) →
     AtomNumber.number n' !! (mat, nuc) = AtomNumber.number n !! (mat, nuc)) ∧
  op' = with_number op (AtomNumber.with_number n (AtomNumber.number n')).

End MaterialsSpec.

(** ** What a step of the operator is to do *)

Module EvalSpec.
Import OpenMCOperator.

(** The seed of the run: the configured one, or else the one drawn. *)
Definition seed_used (op : t) (env : Env) : Z :=
  match Settings.constant_seed (settings op) with
  | Some seed => seed
  | None => random_seed env
  end.

(** The settings files among the events of a rank. *)
Definition settings_written (events : list event) : list settings_file :=
  omap (λ e, match e with WriteSettings f => Some f | _ => None end) events.

(** What [eval] returns. *)
Definition outcome : Type := (flt * ReactionRates.t * Z) * t * list event.

(** The seed as claim C8 states it: every rank returns the seed of the run. *)
Definition seed_claimed (op : t) (env : Env) (out : outcome) : Prop :=
  let '((_, _, seed), op', _) := out in
  seed = seed_used op env ∧ OpenMCOperator.seed op' = seed.

(** The seed as the code has it: rank 0 writes the seed of the run to the
    settings, records and returns it; another rank writes no settings and
    returns the seed it held before. *)
Definition seed_recorded (op : t) (env : Env) (out : outcome) : Prop :=
  let '((_, _, seed), op', events) := out in
  (rank op = 0 →
     seed = seed_used op env ∧ OpenMCOperator.seed op' = seed ∧
     sf_seed <$> settings_written events = [seed]) ∧
  (rank op ≠ 0 →
     seed = OpenMCOperator.seed op ∧ OpenMCOperator.seed op' = seed ∧
     settings_written events = []).

(** The event with which a rank learns that the run is over: on rank 0 the
    call of the simulator returns, on the others a test of the pending
    receive succeeds. *)
Definition is_completion (e : event) : bool :=
  match e with
  | Call _ | Test true => true
  | _ => false
  end.

Definition is_open (e : event) : bool :=
  match e with OpenStatepoint _ => true | _ => false end.

(** The events after the first that satisfies [p], if there is one. *)
Fixpoint after (p : event → bool) (events : list event) : option (list event) :=
  match events with
  | [] => None
  | e :: events' => if p e then Some events' else after p events'
  end.

(** The events before the first that satisfies [p]. *)
Fixpoint before (p : event → bool) (events : list event) : list event :=
  match events with
  | [] => []
  | e :: events' => if p e then [] else e :: before p events'
  end.

(** What a rank does between the end of the run and the opening of the
    statepoint, with which the ingestion begins. *)
Definition before_ingestion (events : list event) : option (list event) :=
  before is_open <$> after is_completion events.

(** The barrier as claim C6 states it: between the end of the run and the
    ingestion. *)
Definition barrier_claimed (out : outcome) : Prop :=
  ∃ l, before_ingestion out.2 = Some l ∧ Barrier ∈ l.

(** An exchange of the partial powers. *)
Definition is_power_talk (e : event) : Prop :=
  match e with
  | Send _ _ (MsgFloat _) | Recv _ _ (MsgFloat _) => True
  | _ => False
  end.

(** The barrier as the code has it: a rank goes from the end of the run to
    the ingestion without a barrier; it opens the statepoint, exchanges the
    powers, takes part in the broadcast of the total, and only then in the
    barrier, after which rank 0 removes the statepoint. *)
Definition barrier_after_normalization (op : t) (out : outcome) : Prop :=
  let events := out.2 in
  (∃ l, before_ingestion events = Some l ∧ Barrier ∉ l) ∧
  ∃ name talk power finish,
    after is_open events = Some (talk ++ [Bcast 0 (MsgFloat power); Barrier] ++ finish) ∧
    Forall is_power_talk talk ∧
    (Barrier ∉ finish) ∧
    (rank op = 0 → ∃ prints, finish = Remove name :: prints) ∧
    (rank op ≠ 0 → finish = []).

End EvalSpec.

(** ** What the ingestion of the tallies is to do *)

Module UnpackSpec.
Import OpenMCOperator.

(** [a] is an array of [n] entries, the [i]-th being [g i]. *)
Definition array1 (n : nat) (v : list flt) (g : nat → flt) : Prop :=
  length v = n ∧ ∀ i, (i < n)%nat → v !! i = Some (g i).

(** [a] is an array of [n] rows and [m] columns whose entry [i, j] is [f i j]. *)
Definition array2 (n m : nat) (a : list (list flt)) (f : nat → nat → flt) : Prop :=
  length a = n ∧
  ∀ i, (i < n)%nat → ∃ row, a !! i = Some row ∧ array1 m row (f i).

(** A function of indices changed at one place. *)
Definition upd1 (g : nat → flt) (i : nat) (x : flt) : nat → flt :=
  λ k, if decide (k = i) then x else g k.
Definition upd2 (f : nat → nat → flt) (i j : nat) (x : flt) : nat → nat → flt :=
  λ k l, if decide (k = i ∧ l = j) then x else f k l.

(** A dictionary gives distinct names distinct indices below [n]. *)
Definition index_dict (n : nat) (d : ODict.t string Z) : Prop :=
  NoDup (ODict.keys d) ∧ NoDup d.*2 ∧ Forall (λ i, 0 ≤ i < Z.of_nat n) d.*2.

(** *** The tensor and the tallies *)

(** The entry [i, k, l] of the tensor of reaction rates. *)
Definition rate_at (rr : ReactionRates.t) (i k l : nat) : option flt :=
  slice ← ReactionRates.rates rr !! i; row ← slice !! k; row !! l.

(** The tally of the material [mat] for the [a]-th nuclide and the [b]-th
    score of the statepoint. *)
Definition tally_at (file : Statepoint.t) (mat : string) (a b : nat) : option flt :=
  found ← list_find (λ y, y = mat) (pretty <$> Statepoint.bins file);
  row ← Statepoint.results file !! found.1;
  row !! (a * length (Statepoint.score_bins file) + b)%nat.

(** The statepoint has a row of tallies for the material [mat], with a bin
    for every nuclide and score, and the operator stores a number of atoms
    of every tally nuclide in [mat]. *)
Definition row_ready (op : t) (file : Statepoint.t) (mat : string) : Prop :=
  (∃ slab row,
     list_find (λ y, y = mat) (pretty <$> Statepoint.bins file) = Some (slab, mat) ∧
     Statepoint.results file !! slab = Some row ∧
     (length (Statepoint.nuclides file) * length (Statepoint.score_bins file)
        ≤ length row)%nat) ∧
  Forall (λ nuc, is_Some (AtomNumber.number (number op) !! (mat, nuc)))
         (Statepoint.nuclides file).

(** The statepoint fits the operator: the nuclides and the scores of the
    tally are distinct and known to the tensor, whose dictionaries give
    distinct indices within its axes, fission is among the reactions, the
    tensor has a slice for every burnable material of the rank, and the
    statepoint a row for each. *)
Definition unpack_ready (op : t) (file : Statepoint.t) : Prop :=
  let rr := reaction_rates op in
  index_dict (ReactionRates.n_nuc rr) (ReactionRates.nuc_to_ind rr) ∧
  index_dict (ReactionRates.n_react rr) (ReactionRates.react_to_ind rr) ∧
  NoDup (Statepoint.nuclides file) ∧
  Forall (λ nuc, nuc ∈ ODict.keys (ReactionRates.nuc_to_ind rr)) (Statepoint.nuclides file) ∧
  NoDup (Statepoint.score_bins file) ∧
  Forall (λ react, react ∈ ODict.keys (ReactionRates.react_to_ind rr))
         (Statepoint.score_bins file) ∧
  "fission" ∈ ODict.keys (ReactionRates.react_to_ind rr) ∧
  (length (AtomNumber.burn_mat_list (number op)) ≤ length (ReactionRates.rates rr))%nat ∧
  Forall (row_ready op file) (AtomNumber.burn_mat_list (number op)).

(** Claim C4: where the operator stores exactly zero atoms of a tally
    nuclide in a material, the entries of the nuclide in the slice of the
    material are the tallies themselves. *)
Definition zero_atoms_kept (op : t) (file : Statepoint.t) (rr : ReactionRates.t) : Prop :=
  ∀ i mat a nuc b react,
    AtomNumber.burn_mat_list (number op) !! i = Some mat →
    Statepoint.nuclides file !! a = Some nuc →
    Statepoint.score_bins file !! b = Some react →
    AtomNumber.number (number op) !! (mat, nuc) = Some Flt.zero →
    ∃ k l x,
      ODict.get (ReactionRates.nuc_to_ind (reaction_rates op)) nuc = Some (Z.of_nat k) ∧
      ODict.get (ReactionRates.react_to_ind (reaction_rates op)) react = Some (Z.of_nat l) ∧
      tally_at file mat a b = Some x ∧
      rate_at rr i k l = Some x ∧
      (Flt.is_finite x = true → ∃ q, rate_at rr i k l = Some (Fin q)).

(** *** The power *)

(** The power of all ranks as a rank has it after the exchange: rank 0
    adds its own to what it receives, the others hear it from rank 0. *)
Definition global_power (op : t) (env : Env) (power : flt) : flt :=
  if decide (rank op = 0)
  then Flt.sum (power :: (power_from env <$> others op))
  else power_bcast env.

(** The index of fission on the axis of the reactions. *)
Definition fission_index (rr : ReactionRates.t) : nat :=
  Z.to_nat (default 0 (ODict.get (ReactionRates.react_to_ind rr) "fission")).

(** The nuclide of the index [k] of the tensor. *)
Definition nuclide_of (rr : ReactionRates.t) (k : nat) : option string :=
  (λ found, found.2.1) <$> list_find (λ e, e.2 = Z.of_nat k) (ReactionRates.nuc_to_ind rr).

(** The atoms of the nuclide of index [k] that the operator stores for [mat]. *)
Definition count_at (op : t) (mat : string) (k : nat) : flt :=
  default Flt.zero
    (nuc ← nuclide_of (reaction_rates op) k; AtomNumber.number (number op) !! (mat, nuc)).

(** The energy of a fission of the nuclide of index [k]: that of the last
    nuclide of the chain with this index. *)
Definition energy_at (op : t) (k : nat) : flt :=
  foldl (λ e nuclide,
           if decide (ODict.get (ReactionRates.nuc_to_ind (reaction_rates op))
                                (DepletionChain.name nuclide) = Some (Z.of_nat k))
           then DepletionChain.fission_power nuclide else e)
        Flt.zero (DepletionChain.nuclides (chain op)).

(** The rate of fission of the nuclide of index [k] in the [i]-th material. *)
Definition fission_rate (op : t) (i k : nat) : flt :=
  default Flt.zero
    (rate_at (reaction_rates op) i k (fission_index (reaction_rates op))).

(** The sum of [term i mat k] over the burnable materials of a rank and the
    nuclides of the tensor. *)
Definition sum_owned (op : t) (term : nat → string → nat → flt) : flt :=
  Flt.sum (imap (λ i mat,
                   Flt.sum (term i mat <$> seq 0 (ReactionRates.n_nuc (reaction_rates op))))
                (AtomNumber.burn_mat_list (number op))).

(** The fissions of a rank: rate of fission times atoms. *)
Definition fissions (op : t) : flt :=
  sum_owned op (λ i mat k, Flt.mul (fission_rate op i k) (count_at op mat k)).

(** The power of a rank: rate of fission times atoms times energy of a
    fission. *)
Definition fission_power_of (op : t) : flt :=
  sum_owned op (λ i mat k,
    Flt.mul (Flt.mul (fission_rate op i k) (count_at op mat k)) (energy_at op k)).

(** The ranks [ops] of a run come out of the ingestion as [ops']. *)
Definition normalized (ops : list t) (env : Env) (ops' : list t) : Prop :=
  Forall2 (λ op op', ∃ k name events,
             unpack_tallies_and_normalize op env name = Return (k, op', events))
          ops ops'.

(** The part of the power that a rank measures. *)
Definition partial_power (op : t) (file : Statepoint.t) : option flt :=
  match unpack_local op file with
  | Return (_, _, power) => Some power
  | _ => None
  end.

(** All that a rank reads is finite: the tallies, the numbers of atoms and
    the energies. *)
Definition finite_inputs (op : t) (file : Statepoint.t) : Prop :=
  Forall (Forall (λ x, Flt.is_finite x = true)) (Statepoint.results file) ∧
  map_Forall (λ _ x, Flt.is_finite x = true) (AtomNumber.number (number op)) ∧
  Forall (λ nuclide, Flt.is_finite (DepletionChain.fission_power nuclide) = true)
         (DepletionChain.nuclides (chain op)).

(** A tally nuclide of which a material has no atoms has no fissions there. *)
Definition zero_atoms_silent (op : t) (file : Statepoint.t) : Prop :=
  ∀ mat a nuc b x,
    mat ∈ AtomNumber.burn_mat_list (number op) →
    Statepoint.nuclides file !! a = Some nuc →
    Statepoint.score_bins file !! b = Some "fission" →
    AtomNumber.number (number op) !! (mat, nuc) = Some Flt.zero →
    tally_at file mat a b = Some x →
    x = Flt.zero.

(** The ranks of a run and what they hear fit together: the [i]-th of the
    [length ops] ranks has rank [i], all aim at the power [target], which
    is finite, every rank is ready for the statepoint and reads finite
    values, what rank 0 hears from a rank is the part that this rank
    measures, and what the ranks hear from rank 0 is the sum of the parts,
    which is finite and not zero. *)
Definition run_ready (ops : list t) (env : Env) (target : Qc) : Prop :=
  ops ≠ [] ∧
  (∀ i op, ops !! i = Some op →
     rank op = Z.of_nat i ∧ size op = Z.of_nat (length ops) ∧
     Settings.power (settings op) = Fin target ∧
     unpack_ready op (statepoint env) ∧
     finite_inputs op (statepoint env) ∧
     zero_atoms_silent op (statepoint env) ∧
     partial_power op (statepoint env) = Some (power_from env (Z.of_nat i))) ∧
  power_bcast env = Flt.sum (power_from env <$> seqZ 0 (Z.of_nat (length ops))) ∧
  ∃ w, power_bcast env = Fin w ∧ w ≠ 0%Qc.

(** Claim C2 as it is stated: after the ingestion the fissions of all ranks
    add up to the target power. *)
Definition normalization_claimed (ops : list t) (env : Env) (target : Qc) : Prop :=
  ∀ ops', normalized ops env ops' → Flt.sum (fissions <$> ops') = Fin target.

(** Claim C2 as the code has it: the ingestion goes through on every rank,
    and after it the fissions of all ranks, each weighted with the energy of
    a fission of its nuclide, add up to the target power. *)
Definition normalization_ok (ops : list t) (env : Env) (target : Qc) : Prop :=
  (∃ ops', normalized ops env ops') ∧
  ∀ ops', normalized ops env ops' → Flt.sum (fission_power_of <$> ops') = Fin target.

(** *** The division by the measured power *)

(** The ranks [ops] of a run and what they hear in [env] fit together: the
    [i]-th of them has rank [i] of [length ops], what rank 0 receives from a
    rank is the part of the power that this rank measures on the
    statepoint, and what the ranks hear in the broadcast of the power is
    what rank 0 puts into it. *)
Definition run_coherent (ops : list t) (env : Env) : Prop :=
  ops ≠ [] ∧
  (∀ i op, ops !! i = Some op →
     rank op = Z.of_nat i ∧ size op = Z.of_nat (length ops) ∧
     partial_power op (statepoint env) = Some (power_from env (Z.of_nat i))) ∧
  (∀ op name k op' events, ops !! 0%nat = Some op →
     unpack_tallies_and_normalize op env name = Return (k, op', events) →
     Bcast 0 (MsgFloat (power_bcast env)) ∈ events).

(** The measured power of a run: the sum, in the order of the ranks, of the
    parts that the ranks measure on the statepoint. *)
Definition measured_power (ops : list t) (file : Statepoint.t) : flt :=
  Flt.sum ((λ op, default NaN (partial_power op file)) <$> ops).

(** Claim C10: on every rank of the run [unpack_tallies_and_normalize]
    returns, whatever the measured power of the run is, and leaves the
    tensor of the rank scaled by the target power over the measured power;
    when the measured power is zero, no entry of this tensor is finite. *)
Definition divided_unguarded (ops : list t) (env : Env) : Prop :=
  let total := measured_power ops (statepoint env) in
  ∀ i op, ops !! i = Some op →
    ∃ k rr power,
      unpack_local op (statepoint env) = Return (k, rr, power) ∧
      let rr' := ReactionRates.scale rr (Flt.div (Settings.power (settings op)) total) in
      (∀ name, ∃ events,
         unpack_tallies_and_normalize op env name
           = Return (k, with_reaction_rates op rr', events)) ∧
      (total = Flt.zero →
         ∀ j k' l x, rate_at rr' j k' l = Some x → Flt.is_finite x = false).

(** *** What the loops leave *)

(** What the pass of the loop for [mat] leaves: the slice [slice] of the
    tensor and the power [power] of the material, given the indices
    [nuc_ind] and [react_ind] of the tally's nuclides and scores, the index
    [fi] of fission, the energies [e] by index and the row [row] of the
    tallies of the material.  [x] is the expansion of the row and [g] the
    numbers of atoms by index. *)
Definition material_unpacked (op : t) (nuclides : list string) (nuc_ind react_ind : list Z)
    (fi : nat) (e : nat → flt) (mat : string) (row : list flt)
    (slice : list (list flt)) (power : flt) : Prop :=
  let n := ReactionRates.n_nuc (reaction_rates op) in
  let m := ReactionRates.n_react (reaction_rates op) in
  ∃ (f x : nat → nat → flt) (g : nat → flt),
    array2 n m slice f ∧
    power = Flt.sum ((λ k, Flt.mul (x k fi) (e k)) <$> seq 0 n) ∧
    (∀ k l, f k l =
       if decide (Z.of_nat k ∈ nuc_ind ∧ Z.of_nat l ∈ react_ind ∧
                  Flt.ne (g k) Flt.zero = true)
       then Flt.div (x k l) (g k) else x k l) ∧
    (∀ a b i r, nuc_ind !! a = Some i → react_ind !! b = Some r →
       row !! (a * length react_ind + b)%nat = Some (x (Z.to_nat i) (Z.to_nat r))) ∧
    (∀ k l, Z.of_nat k ∉ nuc_ind ∨ Z.of_nat l ∉ react_ind → x k l = Flt.zero) ∧
    (∀ a i nuc c, nuc_ind !! a = Some i → nuclides !! a = Some nuc →
       AtomNumber.number (number op) !! (mat, nuc) = Some c → react_ind ≠ [] →
       g (Z.to_nat i) = c) ∧
    (∀ k, Z.of_nat k ∉ nuc_ind ∨ react_ind = [] → g k = Flt.zero).

End UnpackSpec.

(** ** More on what the ingestion leaves *)

Module IngestSpec.
Import OpenMCOperator UnpackSpec.

(** The rates are per atom: where the operator stores a number of atoms
    other than zero of a tally nuclide in a material, the entries of the
    nuclide in the slice of the material are the tallies over that number. *)
Definition rates_per_atom (op : t) (file : Statepoint.t) (rr : ReactionRates.t) : Prop :=
  ∀ i mat a nuc b react c,
    AtomNumber.burn_mat_list (number op) !! i = Some mat →
    Statepoint.nuclides file !! a = Some nuc →
    Statepoint.score_bins file !! b = Some react →
    AtomNumber.number (number op) !! (mat, nuc) = Some c →
    Flt.ne c Flt.zero = true →
    ∃ k l x,
      ODict.get (ReactionRates.nuc_to_ind (reaction_rates op)) nuc = Some (Z.of_nat k) ∧
      ODict.get (ReactionRates.react_to_ind (reaction_rates op)) react = Some (Z.of_nat l) ∧
      tally_at file mat a b = Some x ∧
      rate_at rr i k l = Some (Flt.div x c).




(** The tally of the statepoint is known to the tensor: its nuclides and
    scores are distinct and have indices, the dictionaries of the tensor
    give distinct indices within its axes, and fission is among the
    reactions. *)
Definition tally_known (op : t) (file : Statepoint.t) : Prop :=
  let rr := reaction_rates op in
  index_dict (ReactionRates.n_nuc rr) (ReactionRates.nuc_to_ind rr) ∧
  index_dict (ReactionRates.n_react rr) (ReactionRates.react_to_ind rr) ∧
  NoDup (Statepoint.nuclides file) ∧
  Forall (λ nuc, nuc ∈ ODict.keys (ReactionRates.nuc_to_ind rr)) (Statepoint.nuclides file) ∧
  NoDup (Statepoint.score_bins file) ∧
  Forall (λ react, react ∈ ODict.keys (ReactionRates.react_to_ind rr))
         (Statepoint.score_bins file) ∧
  "fission" ∈ ODict.keys (ReactionRates.react_to_ind rr).

End IngestSpec.

(** ** A small problem to run the definitions on *)

Module Demo.

Definition material (id : Z) (burnable : bool) (volume : option flt)
    (nuclides : list (string * flt)) : Material :=
  {| mat_id := id; mat_burnable := burnable; mat_volume := volume;
     mat_temperature := None; mat_nuclides := nuclides; mat_sab := [] |}.

Definition cell (name : string) (fill : Fill) : Cell :=
  {| cell_name := name; cell_fill := fill |}.

Definition fuel (id : Z) : Material :=
  material id true (Some (Fin 1)) [("U235", Fin 1); ("O16", Fin 2)].

Definition water : Material :=
  material 7 false None [("H1", Fin 2); ("O16", Fin 1)].

(** Four fuel pins and their moderator. *)
Definition geometry : Geometry :=
  [ (1, cell "pin" (FillMaterial (fuel 10)));
    (2, cell "ring" (FillList [fuel 2; fuel 3; fuel 1]));
    (3, cell "moderator" (FillMaterial water)) ].

(** The same pins, two of them without a volume. *)
Definition geometry_no_volume : Geometry :=
  [ (1, cell "pin" (FillMaterial (material 10 true None [("U235", Fin 1)])));
    (2, cell "ring" (FillList [fuel 2; material 3 true None [("U235", Fin 1)]]));
    (3, cell "moderator" (FillMaterial water)) ].

Definition chain_nuclide_dict : ODict.t string Z :=
  [("U238", 0); ("U235", 1); ("Xe135", 2)].

(** Two ranks; rank 0 owns the burnable materials 1 and 2, rank 1 owns 3. *)

Definition q (n : Z) : flt := Flt.of_Z n.

Definition run_settings : Settings.t :=
  {| Settings.openmc_call := ["openmc"];
     Settings.particles := 1000; Settings.batches := 100; Settings.inactive := 40;
     Settings.lower_left := [q (-1); q (-1); q (-1)];
     Settings.upper_right := [q 1; q 1; q 1];
     Settings.entropy_dimension := [10; 10; 1];
     Settings.round_number := false;
     Settings.constant_seed := Some 42;
     Settings.power := q 30 |}.

Definition run_chain : DepletionChain.t :=
  {| DepletionChain.nuclide_dict := [("U235", 0); ("U238", 1)];
     DepletionChain.nuclides :=
       [ {| DepletionChain.name := "U235"; DepletionChain.fission_power := q 5 |};
         {| DepletionChain.name := "U238"; DepletionChain.fission_power := q 4 |} ];
     DepletionChain.react_to_ind := [("fission", 0); ("(n,gamma)", 1)] |}.

(** The container of a rank that owns the materials [mats], each holding
    [u235] atoms of U235 and [u238] of U238 in a volume of 2. *)
Definition atom_number (mats : list string) (u235 u238 : Z) : AtomNumber.t :=
  {| AtomNumber.mat_to_ind := imap (λ i mat, (mat, Z.of_nat i)) mats;
     AtomNumber.nuc_to_ind := [("U235", 0); ("U238", 1)];
     AtomNumber.burn_mat_list := mats;
     AtomNumber.burn_nuc_list := ["U235"; "U238"];
     AtomNumber.n_mat_burn := Z.of_nat (length mats);
     AtomNumber.number :=
       list_to_map (mats ≫= λ mat, [((mat, "U235"), q u235); ((mat, "U238"), q u238)]);
     AtomNumber.density_of := λ _ x, Flt.div x (q 2) |}.

Definition empty_rates (n_mat : nat) : ReactionRates.t :=
  {| ReactionRates.nuc_to_ind := [("U235", 0); ("U238", 1)];
     ReactionRates.react_to_ind := [("fission", 0); ("(n,gamma)", 1)];
     ReactionRates.n_nuc := 2; ReactionRates.n_react := 2;
     ReactionRates.rates := replicate n_mat (Np.zeros2 2 2) |}.

Definition operator (rank : Z) (mats : list string) (u235 u238 : Z) : OpenMCOperator.t :=
  {| OpenMCOperator.rank := rank; OpenMCOperator.size := 2;
     OpenMCOperator.settings := run_settings;
     OpenMCOperator.materials :=
       replicate (length mats)
         (Some {| Materials.temperature := Some (q 300); Materials.sab := [] |});
     OpenMCOperator.seed := 0;
     OpenMCOperator.number := atom_number mats u235 u238;
     OpenMCOperator.participating_nuclides := {[ "U235"; "U238" ]};
     OpenMCOperator.chain := run_chain;
     OpenMCOperator.reaction_rates := empty_rates (length mats);
     OpenMCOperator.mat_tally_ind := [("1", 0); ("2", 1); ("3", 2)] |}.

Definition rank0 : OpenMCOperator.t := operator 0 ["1"; "2"] 2 1.
Definition rank1 : OpenMCOperator.t := operator 1 ["3"] 2 1.

(** The statepoint of a run: rows of (U235 fission, U235 (n,gamma),
    U238 fission, U238 (n,gamma)) for the materials 1, 2 and 3. *)
Definition run_statepoint : Statepoint.t :=
  {| Statepoint.k_combined := q 1;
     Statepoint.bins := [1; 2; 3];
     Statepoint.nuclides := ["U235"; "U238"];
     Statepoint.score_bins := ["fission"; "(n,gamma)"];
     Statepoint.results :=
       [ [q 3; q 1; q 0; q 2]; [q 3; q 1; q 0; q 2]; [q 3; q 1; q 0; q 2] ] |}.

(** What a rank of this run hears from the other, given the power that
    rank 1 sends and the power that rank 0 broadcasts. *)
Definition env (power1 total : flt) : Env :=
  {| fragment_from := λ _, [];
     nuclides_from := λ _, {[ "U235" ]};
     random_seed := 123456789;
     polls := 2;
     statepoint := run_statepoint;
     power_from := λ _, power1;
     power_bcast := total |}.

(** A rank whose densities came out of the solver partly negative: in
    material 1 the value of U235 is exactly -1e-21 and that of U238 is
    -5e-25; in material 2 the value of U235 is -2e-21 and U238 is positive. *)
Definition noisy : OpenMCOperator.t :=
  let n := atom_number ["1"; "2"] 0 0 in
  let number :=
    list_to_map [ (("1", "U235"), q (-2000)); (("1", "U238"), q (-1));
                  (("2", "U235"), q (-4000)); (("2", "U238"), q 6) ] in
  OpenMCOperator.with_number rank0 (AtomNumber.with_number n number).

(** A rank that has burnt all its U238. *)
Definition depleted : OpenMCOperator.t := operator 0 ["1"; "2"] 2 0.

(** The two ranks of the run, and what they hear when rank 0 measures a
    power of 30 and rank 1 one of 15. *)
Definition ranks : list OpenMCOperator.t := [rank0; rank1].

Definition run_env : Env :=
  {| fragment_from := λ _, [];
     nuclides_from := λ _, {[ "U235" ]};
     random_seed := 123456789;
     polls := 2;
     statepoint := run_statepoint;
     power_from := λ i, if decide (i = 0) then q 30 else q 15;
     power_bcast := q 45 |}.

(** A statepoint with a tally of a nuclide that the tensor does not have,
    and one without a bin for the material 2. *)
Definition strange_statepoint : Statepoint.t :=
  {| Statepoint.k_combined := q 1;
     Statepoint.bins := [1; 2; 3];
     Statepoint.nuclides := ["U235"; "Pu239"; "U238"];
     Statepoint.score_bins := ["fission"; "(n,gamma)"];
     Statepoint.results := [] |}.

Definition partial_statepoint : Statepoint.t :=
  {| Statepoint.k_combined := q 1;
     Statepoint.bins := [1; 3];
     Statepoint.nuclides := ["U235"; "U238"];
     Statepoint.score_bins := ["fission"; "(n,gamma)"];
     Statepoint.results := [ [q 3; q 1; q 0; q 2]; [q 3; q 1; q 0; q 2] ] |}.

(** A run of two ranks whose nuclides give no energy when they fission:
    every rank measures a power of zero. *)
Definition inert_chain : DepletionChain.t :=
  {| DepletionChain.nuclide_dict := [("U235", 0); ("U238", 1)];
     DepletionChain.nuclides :=
       [ {| DepletionChain.name := "U235"; DepletionChain.fission_power := q 0 |};
         {| DepletionChain.name := "U238"; DepletionChain.fission_power := q 0 |} ];
     DepletionChain.react_to_ind := [("fission", 0); ("(n,gamma)", 1)] |}.

Definition inert (op : OpenMCOperator.t) : OpenMCOperator.t :=
  {| OpenMCOperator.rank := OpenMCOperator.rank op;
     OpenMCOperator.size := OpenMCOperator.size op;
     OpenMCOperator.settings := OpenMCOperator.settings op;
     OpenMCOperator.materials := OpenMCOperator.materials op;
     OpenMCOperator.seed := OpenMCOperator.seed op;
     OpenMCOperator.number := OpenMCOperator.number op;
     OpenMCOperator.participating_nuclides := OpenMCOperator.participating_nuclides op;
     OpenMCOperator.chain := inert_chain;
     OpenMCOperator.reaction_rates := OpenMCOperator.reaction_rates op;
     OpenMCOperator.mat_tally_ind := OpenMCOperator.mat_tally_ind op |}.

Definition inert_ranks : list OpenMCOperator.t := [inert rank0; inert rank1].

Definition inert_env : Env := env (q 0) (q 0).

End Demo.

(** ** Facts on the outcomes of Python code *)

Module PyFacts.

Lemma bind_Return {A B} (f : A → py B) (a : A) : (Return a ≫= f) = f a.
Proof. done. Qed.

Lemma bind_Return_inv {A B} (f : A → py B) (m : py A) (b : B) :
  m ≫= f = Return b → ∃ a, m = Return a ∧ f a = Return b.
Proof. destruct m; [eauto|done..]. Qed.

Lemma for_each_app {A S} (body : S → A → py S) (l1 l2 : list A) (s : S) :
  for_each body (l1 ++ l2) s = for_each body l1 s ≫= for_each body l2.
Proof.
  revert s. induction l1 as [|x l1 IH]; intros s; [done|].
  simpl. destruct (body s x) as [s'| |]; [|done..]. apply IH.
Qed.

(** A loop whose body never raises is a fold. *)
Lemma for_each_foldl {A S} (body : S → A → py S) (f : S → A → S) (l : list A) (s : S) :
  (∀ s x, x ∈ l → body s x = Return (f s x)) →
  for_each body l s = Return (foldl f s l).
Proof.
  revert s. induction l as [|x l IH]; intros s Hbody; [done|].
  simpl. rewrite Hbody by left. simpl. apply IH. intros; apply Hbody; by right.
Qed.

Lemma foldl_ext_elem {A B} (f g : A → B → A) (l : list B) (a : A) :
  (∀ a x, x ∈ l → f a x = g a x) → foldl f a l = foldl g a l.
Proof.
  revert a. induction l as [|x l IH]; intros a Hext; [done|].
  simpl. rewrite Hext by left. apply IH. intros; apply Hext; by right.
Qed.

Lemma omap_ext_elem {A B} (f g : A → option B) (l : list A) :
  (∀ x, x ∈ l → f x = g x) → omap f l = omap g l.
Proof.
  induction l as [|x l IH]; intros Hext; [done|].
  csimpl. rewrite Hext by left. rewrite IH; [done|]. intros; apply Hext; by right.
Qed.

(** What every pass of a loop keeps holds when the loop ends. *)
Lemma for_each_inv {A S} (P : S → Prop) (body : S → A → py S) (l : list A) (s s' : S) :
  (∀ s x s', P s → body s x = Return s' → P s') →
  P s → for_each body l s = Return s' → P s'.
Proof.
  intros Hbody. revert s. induction l as [|x l IH]; intros s Hs; simpl.
  - by intros [= <-].
  - intros (s1 & H1 & Hrest)%bind_Return_inv. eauto.
Qed.

Lemma index_in_range (len : nat) (i : Z) :
  0 ≤ i < Z.of_nat len → Np.index len i = Return (Z.to_nat i).
Proof. intros. unfold Np.index. by rewrite decide_True. Qed.

End PyFacts.

(** ** Facts on [OrderedDict] *)

Module ODictFacts.
Section facts.
Context {K V : Type} `{EqDecision K}.
Implicit Types (d : ODict.t K V) (k : K) (v : V).

Lemma get_None d k : ODict.get d k = None ↔ k ∉ ODict.keys d.
Proof.
  unfold ODict.keys. induction d as [|[k' v'] d IH]; simpl.
  - split; [intros _; apply not_elem_of_nil|done].
  - rewrite not_elem_of_cons. case_decide; intuition congruence.
Qed.

Lemma get_Some_elem d k v : ODict.get d k = Some v → (k, v) ∈ d.
Proof.
  induction d as [|[k' v'] d IH]; simpl; [done|].
  case_decide; [intros [= <-]; subst; left|right; eauto].
Qed.

Lemma elem_get d k v : NoDup (ODict.keys d) → (k, v) ∈ d → ODict.get d k = Some v.
Proof.
  unfold ODict.keys. induction d as [|[k' v'] d IH]; simpl; [by intros _ ?%elem_of_nil|].
  intros [Hk' Hnd]%NoDup_cons [[= -> ->]|Hin]%elem_of_cons.
  - by rewrite decide_True.
  - rewrite decide_False; [eauto|]. intros ->. apply Hk'.
    apply list_elem_of_fmap. by exists (k, v).
Qed.

Lemma mem_spec d k : ODict.mem d k = true ↔ k ∈ ODict.keys d.
Proof.
  unfold ODict.mem. rewrite bool_decide_eq_true.
  destruct (ODict.get d k) eqn:Hg.
  - split; [intros _|eauto]. apply get_Some_elem in Hg.
    apply list_elem_of_fmap. by eexists (_, _).
  - apply get_None in Hg. split; [by intros [? ?]|done].
Qed.

Lemma get_set d k v k' :
  ODict.get (ODict.set d k v) k' = if decide (k = k') then Some v else ODict.get d k'.
Proof.
  induction d as [|[k0 v0] d IH]; simpl.
  - repeat case_decide; congruence.
  - destruct (decide (k0 = k)) as [->|]; simpl; repeat case_decide; congruence.
Qed.

Lemma set_fresh d k v : k ∉ ODict.keys d → ODict.set d k v = d ++ [(k, v)].
Proof.
  unfold ODict.keys. induction d as [|[k0 v0] d IH]; simpl; [done|].
  intros [? ?]%not_elem_of_cons. rewrite decide_False by done. f_equal; eauto.
Qed.

Lemma keys_set d k v :
  ODict.keys (ODict.set d k v) =
    if decide (k ∈ ODict.keys d) then ODict.keys d else ODict.keys d ++ [k].
Proof.
  unfold ODict.keys. induction d as [|[k0 v0] d IH]; [done|].
  cbn [ODict.set]. destruct (decide (k0 = k)) as [->|Hne]; csimpl.
  - rewrite decide_True; [done|left].
  - rewrite IH. destruct (decide (k ∈ d.*1)) as [Hin|Hnin].
    + rewrite decide_True; [done|by right].
    + rewrite decide_False; [done|]. rewrite not_elem_of_cons. naive_solver.
Qed.

Lemma NoDup_keys_set d k v : NoDup (ODict.keys d) → NoDup (ODict.keys (ODict.set d k v)).
Proof.
  intros Hnd. rewrite keys_set. case_decide; [done|].
  apply NoDup_app. split_and!; [done| |apply NoDup_singleton].
  intros x Hx ->%list_elem_of_singleton. done.
Qed.

End facts.
End ODictFacts.

(** ** Facts on Python's order of strings *)

Module PyStrFacts.
Import PyStr.

Lemma ascii_compare_refl a : Ascii.compare a a = Eq.
Proof. unfold Ascii.compare. apply N.compare_refl. Qed.

Lemma compare_refl s : String.compare s s = Eq.
Proof. induction s as [|a s IH]; simpl; [done|]. by rewrite ascii_compare_refl. Qed.

Lemma compare_eq s1 s2 : String.compare s1 s2 = Eq ↔ s1 = s2.
Proof.
  split; [apply String.compare_eq_iff|]. intros ->. apply compare_refl.
Qed.

Lemma compare_lt_trans s1 s2 s3 :
  String.compare s1 s2 = Lt → String.compare s2 s3 = Lt → String.compare s1 s3 = Lt.
Proof.
  revert s2 s3. induction s1 as [|a s1 IH]; intros [|b s2] [|c s3]; simpl; try done.
  unfold Ascii.compare.
  destruct (N.compare_spec (Ascii.N_of_ascii a) (Ascii.N_of_ascii b)) as [Hab|Hab|Hab];
    destruct (N.compare_spec (Ascii.N_of_ascii b) (Ascii.N_of_ascii c)) as [Hbc|Hbc|Hbc];
    try done; intros H1 H2.
  - rewrite Hab, Hbc, N.compare_refl. eauto.
  - rewrite Hab. by apply N.compare_lt_iff in Hbc as ->.
  - rewrite <-Hbc. by apply N.compare_lt_iff in Hab as ->.
  - assert (Ascii.N_of_ascii a < Ascii.N_of_ascii c)%N as Hac by lia.
    by apply N.compare_lt_iff in Hac as ->.
Qed.

Global Instance le_total : Total le.
Proof. intros s1 s2. apply String.leb_total. Qed.

Global Instance le_antisym : AntiSymm (=) le.
Proof. intros s1 s2. apply String.leb_antisym. Qed.

Global Instance le_refl : Reflexive le.
Proof. intros s. unfold le, String.leb. by rewrite compare_refl. Qed.

Lemma le_lt_or_eq s1 s2 : le s1 s2 ↔ String.compare s1 s2 = Lt ∨ s1 = s2.
Proof.
  unfold le, String.leb. rewrite <-compare_eq.
  destruct (String.compare s1 s2); intuition discriminate.
Qed.

Global Instance le_trans : Transitive le.
Proof.
  intros s1 s2 s3. rewrite !le_lt_or_eq.
  intros [H1| ->] [H2| ->]; eauto using compare_lt_trans.
Qed.

(** [sorted(list(s))] is the increasing list of the elements of [s]. *)
Lemma sorted_spec (s : gset string) :
  StronglySorted le (sorted s) ∧ NoDup (sorted s) ∧ ∀ x, x ∈ sorted s ↔ x ∈ s.
Proof.
  unfold sorted. split_and!.
  - apply StronglySorted_merge_sort; apply _.
  - rewrite merge_sort_Permutation. apply NoDup_elements.
  - intros x. rewrite merge_sort_Permutation. apply elem_of_elements.
Qed.

End PyStrFacts.

(** ** The decomposition into chunks *)

Module DecomposeFacts.
Import Decompose DecomposeSpec.

Lemma slice_in_range {A} (l : list A) (j c : Z) :
  0 ≤ j → 0 ≤ c → j + c ≤ Z.of_nat (length l) →
  PyList.slice l j (j + c) = take (Z.to_nat c) (drop (Z.to_nat j) l).
Proof.
  intros Hj Hc Hlen. unfold PyList.slice, PyList.clip.
  repeat case_decide; try lia.
  rewrite !Z.min_l by lia. do 2 f_equal. lia.
Qed.

Lemma chunk_start_succ n r k :
  chunk_start n r (k + 1) = chunk_start n r k + chunk_size n r k.
Proof. unfold chunk_start, chunk_size. case_decide; lia. Qed.

Lemma chunk_start_bound n r k :
  0 < r → 0 ≤ n → 0 ≤ k ≤ r → 0 ≤ chunk_start n r k ≤ n.
Proof.
  intros Hr Hn Hk. unfold chunk_start.
  pose proof (Z.div_mod n r ltac:(lia)) as Hdm.
  pose proof (Z.mod_pos_bound n r Hr) as Hm.
  assert (0 ≤ n `div` r) by (apply Z.div_pos; lia).
  split; [nia|].
  destruct (decide (k = r)) as [->|]; [lia|].
  assert (k + 1 ≤ r) by lia. nia.
Qed.

Lemma chunk_start_all n r : 0 < r → chunk_start n r r = n.
Proof.
  intros Hr. unfold chunk_start.
  pose proof (Z.div_mod n r ltac:(lia)). pose proof (Z.mod_pos_bound n r Hr). lia.
Qed.

(** The state of the loop after the first [k] ranks have been served. *)
Lemma take_chunk_loop (mats : list string) (n r : Z) (k : nat) :
  n = Z.of_nat (length mats) → 0 < r → Z.of_nat k ≤ r →
  ∃ lists,
    foldl (take_chunk mats (n `div` r) (n `mod` r)) ([], 0) (Z.of_nat <$> seq 0 k)
      = (lists, chunk_start n r (Z.of_nat k)) ∧
    length lists = k ∧
    concat lists = take (Z.to_nat (chunk_start n r (Z.of_nat k))) mats ∧
    ∀ (i : nat) c, lists !! i = Some c →
      Z.of_nat (length c) = chunk_size n r (Z.of_nat i).
Proof.
  intros Hn Hr. induction k as [|k IH]; intros Hk.
  - assert (chunk_start n r (Z.of_nat 0) = 0) as ->.
    { unfold chunk_start. pose proof (Z.mod_pos_bound n r Hr). lia. }
    by exists [].
  - destruct IH as (lists & Hst & Hlen & Hcat & Hsz); [lia|].
    rewrite seq_S, fmap_app, foldl_app, Hst. simpl.
    pose proof (chunk_start_succ n r (Z.of_nat k)) as Hs.
    pose proof (chunk_start_bound n r (Z.of_nat k) Hr ltac:(lia) ltac:(lia)) as Hb1.
    pose proof (chunk_start_bound n r (Z.of_nat k + 1) Hr ltac:(lia) ltac:(lia)) as Hb2.
    assert ((if decide (Z.of_nat k < n `mod` r) then n `div` r + 1 else n `div` r)
            = chunk_size n r (Z.of_nat k)) as ->.
    { unfold chunk_size. case_decide; lia. }
    assert (0 ≤ chunk_size n r (Z.of_nat k)) as Hc.
    { unfold chunk_size. assert (0 ≤ n `div` r) by (apply Z.div_pos; lia).
      case_decide; lia. }
    rewrite slice_in_range by lia.
    eexists. split_and!.
    + f_equal. rewrite <-Hs. f_equal. lia.
    + rewrite length_app. simpl. lia.
    + rewrite concat_app, Hcat. simpl. rewrite app_nil_r.
      replace (Z.of_nat (S k)) with (Z.of_nat k + 1) by lia.
      rewrite Hs, Z2Nat.inj_add by lia. by rewrite take_take_drop.
    + intros i c. rewrite lookup_app_Some. intros [Hi|[Hge Hi]]; [eauto|].
      rewrite Hlen in *. destruct (i - k)%nat as [|?] eqn:Hik; [|done].
      assert (i = k) as -> by lia. simpl in Hi. injection Hi as <-.
      rewrite length_take, length_drop. lia.
Qed.

Lemma chunk_size_diff n r i j :
  0 < r → Z.abs (chunk_size n r i - chunk_size n r j) ≤ 1.
Proof. intros Hr. unfold chunk_size. repeat case_decide; lia. Qed.

Lemma decompose_balanced (mats : list string) (r : Z) :
  0 < r → ∃ lists, decompose mats r = Return lists ∧ balanced_split mats r lists.
Proof.
  intros Hr. unfold decompose, PyList.divmod. rewrite decide_False by lia. simpl.
  set (n := Z.of_nat (length mats)).
  destruct (take_chunk_loop mats n r (Z.to_nat r) eq_refl Hr ltac:(lia))
    as (lists & Hst & Hlen & Hcat & Hsz).
  assert (seqZ 0 r = Z.of_nat <$> seq 0 (Z.to_nat r)) as ->.
  { unfold seqZ. apply list_fmap_ext. intros; lia. }
  rewrite Hst. exists lists. split; [done|]. unfold balanced_split. fold n.
  split_and!.
  - lia.
  - exact Hsz.
  - intros i j ci cj Hi Hj. rewrite (Hsz _ _ Hi), (Hsz _ _ Hj).
    by apply chunk_size_diff.
  - rewrite Hcat, Z2Nat.id, chunk_start_all by lia.
    apply take_ge. lia.
Qed.

(** *** The pass over the geometry *)

Lemma scan_geometry_items g : scan_geometry g = foldl scan_item scan0 (scan_items g).
Proof.
  unfold scan_geometry, scan_items. generalize scan0.
  induction g as [|[cid [name fill]] g IH]; intros st; [done|].
  cbn [foldl]. rewrite IH. csimpl. rewrite foldl_app. f_equal.
  unfold scan_cell. simpl. destruct fill as [mat|mats]; [done|].
  revert st. induction mats as [|m mats IHm]; intros st; [done|]. apply IHm.
Qed.

Lemma scan_items_snoc (st : scan) items nm :
  foldl scan_item st (items ++ [nm]) = scan_item (foldl scan_item st items) nm.
Proof. by rewrite foldl_app. Qed.

Lemma nuc_fold_spec (s : gset string) (l : list (string * flt)) x :
  x ∈ foldl (λ s nuclide, s ∪ {[ nuclide.1 ]}) s l ↔ x ∈ s ∨ x ∈ l.*1.
Proof.
  revert s. induction l as [|[n d] l IH]; intros s; csimpl.
  - rewrite elem_of_nil. tauto.
  - rewrite IH, elem_of_cons. set_solver.
Qed.

Lemma mat_burn_spec g x :
  x ∈ mat_burn (scan_geometry g) ↔
  ∃ m, m ∈ materials_of g ∧ mat_burnable m = true ∧ pretty (mat_id m) = x.
Proof.
  rewrite scan_geometry_items. unfold materials_of.
  induction (scan_items g) as [|[name m] items IH] using rev_ind.
  - simpl. split; [set_solver|]. by intros (m & ?%elem_of_nil & _).
  - rewrite scan_items_snoc, fmap_app. unfold scan_item at 1, scan_material. simpl.
    setoid_rewrite elem_of_app. setoid_rewrite list_elem_of_singleton.
    destruct (mat_burnable m) eqn:Hb; simpl; [rewrite elem_of_union, elem_of_singleton|];
      rewrite IH; clear IH.
    + split.
      * intros [(m' & Hm' & Hb' & Hx)|Hx]; [exists m'; auto|exists m; auto].
      * intros (m' & [Hm'| ->] & Hb' & Hx); [left; exists m'; auto|by right].
    + split.
      * intros (m' & Hm' & Hb' & Hx). exists m'; auto.
      * intros (m' & [Hm'| ->] & Hb' & Hx); [exists m'; auto|congruence].
Qed.

Lemma mat_not_burn_spec g x :
  x ∈ mat_not_burn (scan_geometry g) ↔
  ∃ m, m ∈ materials_of g ∧ mat_burnable m = false ∧ pretty (mat_id m) = x.
Proof.
  rewrite scan_geometry_items. unfold materials_of.
  induction (scan_items g) as [|[name m] items IH] using rev_ind.
  - simpl. split; [set_solver|]. by intros (m & ?%elem_of_nil & _).
  - rewrite scan_items_snoc, fmap_app. unfold scan_item at 1, scan_material. simpl.
    setoid_rewrite elem_of_app. setoid_rewrite list_elem_of_singleton.
    destruct (mat_burnable m) eqn:Hb; simpl; [|rewrite elem_of_union, elem_of_singleton];
      rewrite IH; clear IH.
    + split.
      * intros (m' & Hm' & Hb' & Hx). exists m'; auto.
      * intros (m' & [Hm'| ->] & Hb' & Hx); [exists m'; auto|congruence].
    + split.
      * intros [(m' & Hm' & Hb' & Hx)|Hx]; [exists m'; auto|exists m; auto].
      * intros (m' & [Hm'| ->] & Hb' & Hx); [left; exists m'; auto|by right].
Qed.

Lemma nuc_set_spec g x :
  x ∈ nuc_set (scan_geometry g) ↔
  ∃ m, m ∈ materials_of g ∧ x ∈ (mat_nuclides m).*1.
Proof.
  rewrite scan_geometry_items. unfold materials_of.
  induction (scan_items g) as [|[name m] items IH] using rev_ind.
  - simpl. split; [set_solver|]. by intros (m & ?%elem_of_nil & _).
  - rewrite scan_items_snoc, fmap_app. unfold scan_item at 1, scan_material. simpl.
    setoid_rewrite elem_of_app. setoid_rewrite list_elem_of_singleton.
    destruct (mat_burnable m) eqn:Hb; simpl; rewrite nuc_fold_spec, IH; naive_solver.
Qed.

(** The volume dictionary keeps, for each burnable id, the volume of the
    last burnable material visited under that id. *)
Lemma volume_snoc st nm x :
  ODict.get (volume (scan_item st nm)) x =
    if decide (mat_burnable nm.2 = true ∧ pretty (mat_id nm.2) = x)
    then Some (mat_volume nm.2) else ODict.get (volume st) x.
Proof.
  unfold scan_item, scan_material. destruct (mat_burnable nm.2); cbn [volume].
  - rewrite ODictFacts.get_set. repeat case_decide; naive_solver.
  - case_decide; naive_solver.
Qed.

Lemma volume_NoDup g : NoDup (ODict.keys (volume (scan_geometry g))).
Proof.
  rewrite scan_geometry_items.
  induction (scan_items g) as [|[name m] items IH] using rev_ind.
  - apply NoDup_nil_2.
  - rewrite scan_items_snoc. unfold scan_item at 1, scan_material. simpl.
    destruct (mat_burnable m); simpl; [by apply ODictFacts.NoDup_keys_set|done].
Qed.

Lemma volume_get_Some g x v :
  ODict.get (volume (scan_geometry g)) x = Some v →
  ∃ m, m ∈ materials_of g ∧ mat_burnable m = true ∧ pretty (mat_id m) = x ∧ mat_volume m = v.
Proof.
  rewrite scan_geometry_items. unfold materials_of.
  induction (scan_items g) as [|[name m] items IH] using rev_ind; [done|].
  rewrite scan_items_snoc, volume_snoc, fmap_app. simpl.
  setoid_rewrite elem_of_app. setoid_rewrite list_elem_of_singleton.
  case_decide as Hd.
  - intros [= <-]. destruct Hd. exists m. eauto.
  - intros (m0 & ? & ? & ? & ?)%IH. exists m0. eauto.
Qed.

Lemma volume_get_material g m :
  ids_consistent g → m ∈ materials_of g → mat_burnable m = true →
  ODict.get (volume (scan_geometry g)) (pretty (mat_id m)) = Some (mat_volume m).
Proof.
  intros Hc Hm Hb.
  destruct (ODict.get _ _) as [v|] eqn:Hg.
  - apply volume_get_Some in Hg as (m' & Hm' & Hb' & Hid & <-).
    f_equal. apply Hc; [done..|]. by apply (inj pretty).
  - exfalso. revert Hm Hg. rewrite scan_geometry_items. unfold materials_of.
    induction (scan_items g) as [|[name m'] items IH] using rev_ind.
    + by intros ?%elem_of_nil.
    + rewrite scan_items_snoc, volume_snoc, fmap_app, elem_of_app. csimpl.
      rewrite list_elem_of_singleton. case_decide as Hd; [done|].
      intros [?| ->] ?; [eauto|]. apply Hd. eauto.
Qed.

Lemma need_vol_spec (d : ODict.t string (option flt)) x :
  NoDup (ODict.keys d) → x ∈ need_vol d ↔ ODict.get d x = Some None.
Proof.
  intros Hnd. unfold need_vol. rewrite list_elem_of_fmap. split.
  - intros ([k v] & -> & [Hv Hin]%list_elem_of_filter). simpl in *. subst v.
    by apply ODictFacts.elem_get.
  - intros Hin%ODictFacts.get_Some_elem. exists (x, None). split; [done|].
    by apply list_elem_of_filter.
Qed.

Lemma need_vol_NoDup (d : ODict.t string (option flt)) :
  NoDup (ODict.keys d) → NoDup (need_vol d).
Proof.
  unfold need_vol, ODict.keys. intros Hnd.
  eapply sublist_NoDup; [done|]. apply (fmap_sublist fst), sublist_filter.
Qed.

(** The ids of the burnable materials without a volume. *)
Lemma need_vol_geometry g x :
  ids_consistent g →
  x ∈ need_vol (volume (scan_geometry g)) ↔
  ∃ m, m ∈ materials_of g ∧ mat_burnable m = true ∧ mat_volume m = None ∧
       pretty (mat_id m) = x.
Proof.
  intros Hc. rewrite need_vol_spec by apply volume_NoDup. split.
  - intros (m & ? & ? & ? & ?)%volume_get_Some. eauto 10.
  - intros (m & Hm & Hb & Hv & <-). rewrite <-Hv. by apply volume_get_material.
Qed.

(** *** The global nuclide dictionary *)

Lemma filter_ext_elem {A} (P1 P2 : A → Prop)
    `{!∀ x, Decision (P1 x), !∀ x, Decision (P2 x)} (l : list A) :
  (∀ x, x ∈ l → P1 x ↔ P2 x) → filter P1 l = filter P2 l.
Proof.
  induction l as [|x l IH]; intros Hext; [done|].
  rewrite !filter_cons.
  rewrite IH by (intros y Hy; apply Hext; by right).
  destruct (decide (P1 x)) as [H1|H1], (decide (P2 x)) as [H2|H2]; try done;
    exfalso; apply (Hext x) in H1 || apply (Hext x) in H2; try done; left.
Qed.

Lemma StronglySorted_filter {A} (R : relation A) (P : A → Prop)
    `{!∀ x, Decision (P x)} (l : list A) :
  StronglySorted R l → StronglySorted R (filter P l).
Proof.
  induction 1 as [|x l Hs IH Hx]; [constructor|].
  rewrite filter_cons. case_decide; [|done].
  constructor; [done|]. rewrite Forall_forall in Hx |- *.
  intros y [_ Hy]%list_elem_of_filter. by apply Hx.
Qed.

Lemma add_nuc_loop (d : ODict.t string Z) (i : Z) (nucs : list string) :
  NoDup nucs →
  foldl add_nuc (d, i) nucs =
    (d ++ zip (new_nuclides d nucs) (seqZ i (Z.of_nat (length (new_nuclides d nucs)))),
     i + Z.of_nat (length (new_nuclides d nucs))).
Proof.
  unfold new_nuclides. revert d i.
  induction nucs as [|nuc nucs IH]; intros d i Hnd.
  - simpl. rewrite app_nil_r. f_equal. lia.
  - apply NoDup_cons in Hnd as [Hnuc Hnd]. cbn [foldl]. unfold add_nuc at 2.
    destruct (ODict.mem d nuc) eqn:Hmem.
    + apply ODictFacts.mem_spec in Hmem.
      rewrite filter_cons_False by (intros Hn; by apply Hn). by apply IH.
    + assert (nuc ∉ ODict.keys d) as Hfresh.
      { rewrite <-ODictFacts.mem_spec. by rewrite Hmem. }
      rewrite ODictFacts.set_fresh, IH, filter_cons_True by done.
      assert (filter (λ x, x ∉ ODict.keys (d ++ [(nuc, i)])) nucs
              = filter (λ x, x ∉ ODict.keys d) nucs) as ->.
      { apply filter_ext_elem. intros x Hx. unfold ODict.keys.
        rewrite fmap_app, not_elem_of_app. simpl.
        rewrite list_elem_of_singleton. naive_solver. }
      cbn [length]. set (n := length (filter _ nucs)).
      rewrite (seqZ_cons i) by lia. cbn [zip zip_with].
      rewrite <-app_assoc. cbn [app].
      replace (Z.succ i) with (i + 1) by lia.
      replace (Z.pred (Z.of_nat (S n))) with (Z.of_nat n) by lia.
      f_equal. lia.
Qed.

Lemma get_app_l {V} (d1 d2 : ODict.t string V) k v :
  ODict.get d1 k = Some v → ODict.get (d1 ++ d2) k = Some v.
Proof.
  induction d1 as [|[k' v'] d1 IH]; simpl; [done|]. case_decide; eauto.
Qed.

Lemma build_nuc_dict_ok chain (nucs : gset string) :
  chain_order chain →
  nuclide_index_ok chain (build_nuc_dict chain (PyStr.sorted nucs)) nucs.
Proof.
  intros [Hkeys Hvals].
  destruct (PyStrFacts.sorted_spec nucs) as (Hsorted & Hnd & Hel).
  unfold build_nuc_dict. rewrite add_nuc_loop by done. cbn [fst].
  set (new := new_nuclides chain (PyStr.sorted nucs)).
  assert (NoDup new) as Hnew by by apply NoDup_filter.
  assert (∀ x, x ∈ new ↔ x ∈ nucs ∧ x ∉ ODict.keys chain) as Hnew_el.
  { intros x. unfold new, new_nuclides. rewrite list_elem_of_filter, Hel. tauto. }
  assert (length (seqZ (Z.of_nat (length chain)) (Z.of_nat (length new))) = length new)
    as Hlen by (rewrite length_seqZ; lia).
  set (d := chain ++ zip new _).
  assert (ODict.keys d = ODict.keys chain ++ new) as Hdk.
  { unfold d, ODict.keys. rewrite fmap_app, fst_zip; [done|lia]. }
  assert (d.*2 = seqZ 0 (Z.of_nat (length d))) as Hdv.
  { unfold d. rewrite fmap_app, snd_zip, Hvals by lia.
    rewrite length_app, length_zip, Hlen, Nat.min_id, Nat2Z.inj_add.
    rewrite seqZ_app by lia. by rewrite Z.add_0_l. }
  assert (NoDup (ODict.keys d)) as Hdnd.
  { rewrite Hdk. apply NoDup_app. split_and!; [done| |done].
    intros x Hx Hx'. by apply Hnew_el in Hx' as [_ ?]. }
  exists new. split_and!; try done.
  - by apply StronglySorted_filter.
  - intros k1 k2 i H1%ODictFacts.get_Some_elem H2%ODictFacts.get_Some_elem.
    apply list_elem_of_lookup in H1 as [i1 H1], H2 as [i2 H2].
    assert (d.*2 !! i1 = Some i) as Hv1 by (by rewrite list_lookup_fmap, H1).
    assert (d.*2 !! i2 = Some i) as Hv2 by (by rewrite list_lookup_fmap, H2).
    assert (i1 = i2) as ->.
    { eapply NoDup_lookup; [|done..]. rewrite Hdv. apply NoDup_seqZ. }
    congruence.
  - intros k i. apply get_app_l.
Qed.

End DecomposeFacts.
(** ** Facts on [generate_materials_xml] *)

Module MaterialsFacts.
Import OpenMCOperator MaterialsSpec.

Section loops.
Context (round_number : bool) (participating : gset string).
Abbreviation entry_of := (entry_of round_number participating).
Abbreviation warning_of := (warning_of participating).
Abbreviation clamped := (clamped participating).
Abbreviation clamp_material := (clamp_material participating).

Lemma with_number_id (n : AtomNumber.t) : AtomNumber.with_number n (AtomNumber.number n) = n.
Proof. by destruct n. Qed.

(** Two containers that agree on the entry of a nuclide of a material give
    it the same value. *)
Lemma nuclide_val_frame (n : AtomNumber.t) (m : gmap (string * string) flt) mat nuc :
  m !! (mat, nuc) = AtomNumber.number n !! (mat, nuc) →
  nuclide_val (AtomNumber.with_number n m) mat nuc = nuclide_val n mat nuc.
Proof. unfold nuclide_val. simpl. by intros ->. Qed.

Lemma clamped_frame n m mat nuc :
  m !! (mat, nuc) = AtomNumber.number n !! (mat, nuc) →
  clamped (AtomNumber.with_number n m) mat nuc = clamped n mat nuc.
Proof. intros H. unfold MaterialsSpec.clamped. by rewrite nuclide_val_frame. Qed.

Lemma entry_of_frame n m mat nuc :
  m !! (mat, nuc) = AtomNumber.number n !! (mat, nuc) →
  entry_of (AtomNumber.with_number n m) mat nuc = entry_of n mat nuc.
Proof. intros H. unfold MaterialsSpec.entry_of. by rewrite nuclide_val_frame. Qed.

Lemma warning_of_frame n m mat nuc :
  m !! (mat, nuc) = AtomNumber.number n !! (mat, nuc) →
  warning_of (AtomNumber.with_number n m) mat nuc = warning_of n mat nuc.
Proof. intros H. unfold MaterialsSpec.warning_of. by rewrite nuclide_val_frame. Qed.

(** One pass of the loop over the nuclides. *)
Lemma material_nuclide_step mat n els out nuc :
  (nuc ∈ participating → is_Some (AtomNumber.number n !! (mat, nuc))) →
  material_nuclide round_number participating mat (n, els, out) nuc =
    Return (AtomNumber.with_number n (clamp_material n mat [nuc] (AtomNumber.number n)),
            els ++ option_list (entry_of n mat nuc),
            out ++ option_list (warning_of n mat nuc)).
Proof.
  intros Hsome.
  unfold material_nuclide, MaterialsSpec.clamp_material, MaterialsSpec.clamped,
    MaterialsSpec.entry_of, MaterialsSpec.warning_of, nuclide_val.
  cbn [foldl]. destruct (decide (nuc ∈ participating)) as [Hin|Hout].
  - destruct (Hsome Hin) as [x Hx].
    rewrite bool_decide_eq_true_2 by done.
    unfold AtomNumber.get_atom_density, AtomNumber.getitem, AtomNumber.setitem.
    rewrite Hx. simpl.
    set (val := Flt.mul Flt.e_minus_24 (AtomNumber.density_of n mat x)).
    destruct (Flt.gt val Flt.zero); simpl.
    + by rewrite with_number_id, !app_nil_r.
    + destruct (Flt.lt val Flt.minus_e_minus_21); simpl; by rewrite !app_nil_r.
  - rewrite bool_decide_eq_false_2 by done. simpl.
    by rewrite with_number_id, !app_nil_r.
Qed.

Lemma clamp_material_lookup n mat nucs m mat' nuc' :
  clamp_material n mat nucs m !! (mat', nuc') =
    if decide (mat' = mat ∧ nuc' ∈ nucs ∧ clamped n mat nuc' = true)
    then Some Flt.zero else m !! (mat', nuc').
Proof.
  unfold MaterialsSpec.clamp_material. revert m.
  induction nucs as [|nuc nucs IH]; intros m.
  - simpl. rewrite decide_False; [done|]. intros (_ & ?%elem_of_nil & _). done.
  - cbn [foldl]. rewrite IH. clear IH.
    destruct (decide (mat' = mat ∧ nuc' ∈ nucs ∧ clamped n mat nuc' = true))
      as [(-> & Hin & Hc)|Hno].
    + rewrite decide_True; [done|]. split_and!; [done|by right|done].
    + destruct (decide (mat' = mat ∧ nuc' = nuc ∧ clamped n mat nuc = true))
        as [(-> & -> & Hc)|Hno'].
      * rewrite Hc, lookup_insert_eq. rewrite decide_True; [done|].
        split_and!; [done|left|done].
      * rewrite decide_False.
        { destruct (clamped n mat nuc) eqn:Hc; [|done].
          rewrite lookup_insert_ne; [done|]. intros [= -> ->]. by apply Hno'. }
        intros (-> & [->|Hin]%elem_of_cons & Hc); [by apply Hno'|by apply Hno].
Qed.

Lemma clamp_material_ext n n' mat nucs m :
  (∀ nuc, nuc ∈ nucs → clamped n' mat nuc = clamped n mat nuc) →
  clamp_material n' mat nucs m = clamp_material n mat nucs m.
Proof.
  intros Hext. unfold MaterialsSpec.clamp_material.
  apply PyFacts.foldl_ext_elem. intros a nuc Hnuc. by rewrite Hext.
Qed.

(** The loop over the nuclides of a material. *)
Lemma nuclide_loop mat nucs n els out :
  NoDup nucs →
  (∀ nuc, nuc ∈ nucs → is_Some (AtomNumber.number n !! (mat, nuc))) →
  for_each (material_nuclide round_number participating mat) nucs (n, els, out) =
    Return (AtomNumber.with_number n (clamp_material n mat nucs (AtomNumber.number n)),
            els ++ omap (entry_of n mat) nucs,
            out ++ omap (warning_of n mat) nucs).
Proof.
  revert n els out. induction nucs as [|nuc nucs IH]; intros n els out Hnd Hsome.
  - simpl. by rewrite with_number_id, !app_nil_r.
  - apply NoDup_cons in Hnd as [Hnuc Hnd].
    cbn [for_each]. rewrite material_nuclide_step by (intros _; apply Hsome; left).
    rewrite PyFacts.bind_Return.
    set (m1 := clamp_material n mat [nuc] (AtomNumber.number n)).
    assert (∀ nuc', nuc' ∈ nucs → m1 !! (mat, nuc') = AtomNumber.number n !! (mat, nuc'))
      as Hframe.
    { intros nuc' Hin. unfold m1. rewrite clamp_material_lookup.
      rewrite decide_False; [done|].
      intros (_ & ->%list_elem_of_singleton & _). done. }
    rewrite IH; [|done|].
    2:{ intros nuc' Hin. simpl. rewrite Hframe by done. apply Hsome. by right. }
    f_equal. f_equal; [f_equal|].
    + cbn [AtomNumber.with_number AtomNumber.number AtomNumber.mat_to_ind
           AtomNumber.nuc_to_ind AtomNumber.burn_mat_list AtomNumber.burn_nuc_list
           AtomNumber.n_mat_burn AtomNumber.density_of].
      unfold AtomNumber.with_number at 1. f_equal.
      rewrite (clamp_material_ext n); [done|].
      intros nuc' Hin. by apply clamped_frame, Hframe.
    + rewrite <-app_assoc. f_equal. csimpl.
      rewrite (PyFacts.omap_ext_elem _ (entry_of n mat)); [by destruct (entry_of n mat nuc)|].
      intros nuc' Hin. by apply entry_of_frame, Hframe.
    + rewrite <-app_assoc. f_equal. csimpl.
      rewrite (PyFacts.omap_ext_elem _ (warning_of n mat)); [by destruct (warning_of n mat nuc)|].
      intros nuc' Hin. by apply warning_of_frame, Hframe.
Qed.

End loops.
Lemma clamped_mat_frame participating n m mat nuc :
  m !! (mat, nuc) = AtomNumber.number n !! (mat, nuc) →
  clamped participating (AtomNumber.with_number n m) mat nuc = clamped participating n mat nuc.
Proof. apply clamped_frame. Qed.

(** The loop over the materials, from any container [n] that the loop may
    have reached. *)
Lemma fragment_loop (op : t) (entries : list (string * Z)) (n : AtomNumber.t) xml out :
  let nucs := ODict.keys (AtomNumber.nuc_to_ind n) in
  let participating := participating_nuclides op in
  NoDup entries.*1 → NoDup nucs →
  (∀ mat nuc, mat ∈ entries.*1 → nuc ∈ nucs → is_Some (AtomNumber.number n !! (mat, nuc))) →
  (∀ mat mat_id, (mat, mat_id) ∈ entries → ∃ m, materials_getitem op mat_id = Return m) →
  for_each (material_fragment op) entries (n, xml, out) =
    Return (AtomNumber.with_number n
              (foldl (λ m mat, clamp_material participating n mat nucs m)
                     (AtomNumber.number n) entries.*1),
            xml ++ (element_of op n <$> entries),
            out ++ concat (warnings_of op n <$> entries.*1)).
Proof.
  intros nucs participating. subst nucs.
  revert n xml out. induction entries as [|[mat mat_id] entries IH];
    intros n xml out Hnd Hnucs Hsome Hmat.
  - simpl. by rewrite with_number_id, !app_nil_r.
  - csimpl in Hnd. apply NoDup_cons in Hnd as [Hfresh Hnd].
    cbn [for_each]. unfold material_fragment at 2.
    destruct (Hmat mat mat_id) as [m Hm]; [left|]. rewrite Hm, PyFacts.bind_Return.
    rewrite nuclide_loop; [|done|intros nuc Hnuc; apply Hsome; [left|done]].
    rewrite PyFacts.bind_Return. cbn [app].
    set (nucs := ODict.keys (AtomNumber.nuc_to_ind n)).
    set (m1 := clamp_material participating n mat nucs (AtomNumber.number n)).
    assert (∀ mat' nuc, mat' ∈ entries.*1 →
              m1 !! (mat', nuc) = AtomNumber.number n !! (mat', nuc)) as Hframe.
    { intros mat' nuc Hin. unfold m1. rewrite clamp_material_lookup.
      rewrite decide_False; [done|]. intros (-> & _). done. }
    rewrite PyFacts.bind_Return.
    rewrite IH; [|done|done| |].
    2:{ intros mat' nuc Hin Hnuc. simpl. rewrite Hframe by done. apply Hsome; [by right|done]. }
    2:{ intros mat' id' Hin. apply (Hmat mat' id'). by right. }
    f_equal. f_equal; [f_equal|].
    + unfold AtomNumber.with_number. simpl. f_equal.
      apply PyFacts.foldl_ext_elem. intros a mat' Hin.
      apply clamp_material_ext. intros nuc _. by apply clamped_frame, Hframe.
    + rewrite <-app_assoc. f_equal. csimpl. f_equal.
      * unfold element_of, material_at. simpl. by rewrite Hm.
      * apply list_fmap_ext. intros i [mat' id'] Hi.
        assert (mat' ∈ entries.*1) as Hin.
        { apply list_elem_of_fmap. exists (mat', id'). split; [done|].
          by eapply list_elem_of_lookup_2. }
        unfold element_of. simpl. f_equal.
        apply PyFacts.omap_ext_elem. intros nuc _. by apply entry_of_frame, Hframe.
    + rewrite <-app_assoc. f_equal. csimpl. f_equal. f_equal.
      apply list_fmap_ext. intros i mat' Hi.
      assert (mat' ∈ entries.*1) as Hin by by eapply list_elem_of_lookup_2.
      unfold warnings_of. simpl.
      apply PyFacts.omap_ext_elem. intros nuc _. by apply warning_of_frame, Hframe.
Qed.

(** What [generate_materials_xml] computes before it talks to the others. *)
Lemma materials_fragments_spec (op : t) :
  well_formed op →
  let n := number op in
  let mats := ODict.keys (AtomNumber.mat_to_ind n) in
  materials_fragments op =
    Return (AtomNumber.with_number n
              (clamp_all (participating_nuclides op) n mats
                         (ODict.keys (AtomNumber.nuc_to_ind n))),
            element_of op n <$> AtomNumber.mat_to_ind n,
            concat (warnings_of op n <$> mats)).
Proof.
  intros (Hmats & Hnucs & Hsome & Hmat) n mats.
  unfold materials_fragments. by rewrite fragment_loop.
Qed.

Lemma clamp_all_lookup participating n mats nucs mat nuc :
  clamp_all participating n mats nucs !! (mat, nuc) =
    if decide (mat ∈ mats ∧ nuc ∈ nucs ∧ clamped participating n mat nuc = true)
    then Some Flt.zero else AtomNumber.number n !! (mat, nuc).
Proof.
  unfold clamp_all. generalize (AtomNumber.number n) as m.
  induction mats as [|mat0 mats IH]; intros m.
  - cbn [foldl]. rewrite decide_False; [done|]. intros (?%elem_of_nil & _). done.
  - cbn [foldl]. rewrite IH. clear IH.
    destruct (decide (mat ∈ mats ∧ nuc ∈ nucs ∧ clamped participating n mat nuc = true))
      as [(Hin & Hnuc & Hc)|Hno].
    + rewrite decide_True; [done|]. split_and!; [by right|done..].
    + rewrite clamp_material_lookup.
      destruct (decide (mat = mat0 ∧ nuc ∈ nucs ∧ clamped participating n mat0 nuc = true))
        as [(-> & Hnuc & Hc)|Hno'].
      * rewrite decide_True; [done|]. split_and!; [left|done..].
      * rewrite decide_False; [done|].
        intros ([->|Hin]%elem_of_cons & Hnuc & Hc); [by apply Hno'|by apply Hno].
Qed.

(** The warnings about a nuclide of a material among those of the loop. *)
Lemma warnings_about_omap participating n mat' nucs nuc mat :
  NoDup nucs →
  warnings_about (omap (warning_of participating n mat') nucs) nuc mat =
    if decide (mat' = mat ∧ nuc ∈ nucs)
    then option_list (warning_of participating n mat nuc) else [].
Proof.
  unfold warnings_about. induction nucs as [|nuc0 nucs IH]; intros Hnd.
  - rewrite decide_False; [done|]. intros (_ & ?%elem_of_nil). done.
  - apply NoDup_cons in Hnd as [Hfresh Hnd]. csimpl.
    assert (filter (λ e, Is_true (is_warning_about nuc mat e))
                   (option_list (warning_of participating n mat' nuc0))
            = if decide (mat' = mat ∧ nuc0 = nuc)
              then option_list (warning_of participating n mat nuc) else []) as Hhead.
    { unfold MaterialsSpec.warning_of.
      destruct (decide (mat' = mat ∧ nuc0 = nuc)) as [[-> ->]|Hne].
      - destruct (decide (nuc ∈ participating)); [|done].
        destruct (nuclide_val n mat nuc) as [val|]; [|done]. simpl.
        destruct (Flt.gt val Flt.zero); [done|].
        destruct (Flt.lt val Flt.minus_e_minus_21); [|done].
        simpl. rewrite filter_cons_True; [done|].
        simpl. by rewrite bool_decide_eq_true_2.
      - destruct (decide (nuc0 ∈ participating)); [|done].
        destruct (nuclide_val n mat' nuc0) as [val|]; [|done]. simpl.
        destruct (Flt.gt val Flt.zero); [done|].
        destruct (Flt.lt val Flt.minus_e_minus_21); [|done].
        simpl. rewrite filter_cons_False; [done|].
        simpl. rewrite bool_decide_eq_false_2; [by intros []|]. naive_solver. }
    destruct (warning_of participating n mat' nuc0) as [w|] eqn:Hw.
    + change (w :: omap _ nucs) with (option_list (Some w) ++ omap (warning_of participating n mat') nucs).
      rewrite filter_app, Hhead, IH by done.
      destruct (decide (mat' = mat ∧ nuc0 = nuc)) as [[-> ->]|Hne].
      * rewrite decide_False by naive_solver. rewrite app_nil_r.
        rewrite decide_True; [done|]. split; [done|left].
      * simpl. destruct (decide (mat' = mat ∧ nuc ∈ nucs)) as [[-> Hin]|Hno].
        -- rewrite decide_True; [done|]. split; [done|by right].
        -- rewrite decide_False; [done|].
           intros [-> [->|Hin]%elem_of_cons]; naive_solver.
    + rewrite IH by done. simpl in Hhead.
      destruct (decide (mat' = mat ∧ nuc ∈ nucs)) as [[-> Hin]|Hno].
      * rewrite decide_True; [done|]. split; [done|by right].
      * destruct (decide (mat' = mat ∧ nuc0 = nuc)) as [[-> ->]|Hne].
        -- rewrite decide_True by (split; [done|left]). by rewrite <-Hhead.
        -- rewrite decide_False; [done|].
           intros [-> [->|Hin]%elem_of_cons]; naive_solver.
Qed.

Lemma warnings_about_concat participating n mats nucs nuc mat :
  NoDup mats → NoDup nucs →
  warnings_about (concat ((λ mat', omap (warning_of participating n mat') nucs) <$> mats))
                 nuc mat =
    if decide (mat ∈ mats ∧ nuc ∈ nucs)
    then option_list (warning_of participating n mat nuc) else [].
Proof.
  intros Hmats Hnucs. induction mats as [|mat0 mats IH].
  - rewrite decide_False; [done|]. intros (?%elem_of_nil & _). done.
  - apply NoDup_cons in Hmats as [Hfresh Hmats]. csimpl.
    unfold warnings_about in *. rewrite filter_app.
    fold (warnings_about (omap (warning_of participating n mat0) nucs) nuc mat).
    rewrite warnings_about_omap, IH by done.
    destruct (decide (mat0 = mat ∧ nuc ∈ nucs)) as [[-> Hin]|Hno].
    + rewrite decide_False by naive_solver. rewrite app_nil_r.
      rewrite decide_True; [done|]. split; [left|done].
    + simpl. destruct (decide (mat ∈ mats ∧ nuc ∈ nucs)) as [[Hin Hnuc]|Hno'].
      * rewrite decide_True; [done|]. split; [by right|done].
      * rewrite decide_False; [done|].
        intros [[->|Hin]%elem_of_cons Hnuc]; naive_solver.
Qed.

Lemma entry_of_name round_number participating n mat nuc entry :
  entry_of round_number participating n mat nuc = Some entry → entry.1 = nuc.
Proof.
  unfold MaterialsSpec.entry_of. case_decide; [|done].
  destruct (nuclide_val n mat nuc); [|done]. simpl.
  destruct (Flt.gt _ _); [|done]. by intros [= <-].
Qed.

(** The entries of the document. *)
Lemma has_entry_spec (op : t) (n : AtomNumber.t) (entries : list (string * Z)) mat nuc :
  has_entry (element_of op n <$> entries) mat nuc ↔
  mat ∈ entries.*1 ∧ nuc ∈ ODict.keys (AtomNumber.nuc_to_ind n) ∧
  is_Some (entry_of (Settings.round_number (settings op)) (participating_nuclides op)
                    n mat nuc).
Proof.
  unfold has_entry. split.
  - intros (el & Hel & <- & Hnuc).
    apply list_elem_of_fmap in Hel as ([mat' id'] & -> & Hin).
    apply list_elem_of_fmap in Hnuc as (entry & -> & Hnuc).
    cbn [element_of el_nuclides el_id fst snd] in *.
    apply list_elem_of_omap in Hnuc as (nuc0 & Hnuc0 & Hentry).
    rewrite (entry_of_name _ _ _ _ _ _ Hentry).
    split_and!; [|done|by rewrite Hentry].
    apply list_elem_of_fmap. by exists (mat', id').
  - intros (([mat' id'] & -> & Hin)%list_elem_of_fmap & Hnuc & [entry Hentry]).
    exists (element_of op n (mat', id')). split_and!; [|done|].
    + apply list_elem_of_fmap. eauto.
    + cbn [element_of el_nuclides el_id fst snd] in *.
      apply list_elem_of_fmap. exists entry.
      split; [by rewrite (entry_of_name _ _ _ _ _ _ Hentry)|].
      apply list_elem_of_omap. eauto.
Qed.

End MaterialsFacts.

(** ** Facts on a step of the operator *)

Module EvalFacts.
Import OpenMCOperator EvalSpec.

(** What the methods leave of the operator. *)

Lemma set_density_fields op vec op' :
  set_density op vec = Return op' → ∃ n, op' = with_number op n.
Proof.
  unfold set_density. intros (n & _ & [= <-])%PyFacts.bind_Return_inv. eauto.
Qed.

Lemma generate_materials_xml_inv op env op' events :
  generate_materials_xml op env = Return (op', events) →
  ∃ n xml out,
    materials_fragments op = Return (n, xml, out) ∧
    op' = with_number op n ∧
    events = out ++ (if decide (rank op = 0)
                     then ((λ i, Recv i i (MsgFragment (fragment_from env i))) <$> others op)
                            ++ [WriteMaterials (xml ++ concat (fragment_from env <$> others op));
                                Barrier]
                     else [Send 0 (rank op) (MsgFragment xml); Barrier]).
Proof.
  unfold generate_materials_xml.
  intros ([[n xml] out] & Hfrag & Hrest)%PyFacts.bind_Return_inv.
  exists n, xml, out. split; [done|]. cbn [rank with_number] in Hrest.
  case_decide; injection Hrest as <- <-; done.
Qed.

Lemma unpack_inv op env filename k op' events :
  unpack_tallies_and_normalize op env filename = Return (k, op', events) →
  ∃ rr talk power,
    op' = with_reaction_rates op rr ∧
    events = [OpenStatepoint filename] ++ talk ++ [Bcast 0 (MsgFloat power)] ∧
    Forall is_power_talk talk.
Proof.
  unfold unpack_tallies_and_normalize.
  intros ([[k0 rr] power] & Hlocal & Hrest)%PyFacts.bind_Return_inv.
  apply PyFacts.bind_Return_inv in Hrest as ([power' talk] & Htalk & Hret).
  injection Hret as <- <- <-. do 3 eexists. split_and!; [done..|].
  case_decide.
  - apply PyFacts.bind_Return_inv in Htalk as (p & _ & [= <- <-]).
    apply Forall_fmap, Forall_true. done.
  - injection Htalk as <- <-. by repeat constructor.
Qed.

(** The events of a warning loop are warnings. *)
Definition is_warning (e : event) : Prop :=
  match e with Warning _ _ _ => True | _ => False end.

Lemma materials_fragments_warnings op n xml out :
  materials_fragments op = Return (n, xml, out) → Forall is_warning out.
Proof.
  unfold materials_fragments.
  apply (PyFacts.for_each_inv (λ st : fragment_state, Forall is_warning st.2)); [|done].
  intros [[n0 xml0] out0] [mat mat_id] [[n1 xml1] out1] Hout0. simpl in Hout0.
  unfold material_fragment.
  intros (m & _ & Hrest)%PyFacts.bind_Return_inv.
  apply PyFacts.bind_Return_inv in Hrest as ([[n2 els] out2] & Hloop & [= <- <- <-]).
  simpl. revert Hloop.
  apply (PyFacts.for_each_inv (λ st : nuclide_state, Forall is_warning st.2)); [|done].
  clear. intros [[n els] out] nuc [[n' els'] out'] Hout. simpl in Hout.
  unfold material_nuclide. case_decide; [|by intros [= <- <- <-]].
  intros (d & _ & Hrest)%PyFacts.bind_Return_inv. revert Hrest.
  destruct (Flt.gt _ _); [by intros [= <- <- <-]|].
  intros (n2 & _ & [= <- <- <-])%PyFacts.bind_Return_inv. simpl.
  destruct (Flt.lt _ _); [|done]. apply Forall_app. split; [done|]. by repeat constructor.
Qed.

(** An event of the generation of the materials and tally documents: it
    neither ends the run, nor opens the statepoint, nor writes the settings. *)
Definition is_input_event (e : event) : Prop :=
  match e with
  | Warning _ _ _ | Recv _ _ _ | Send _ _ (MsgFragment _) | Send _ _ (MsgNuclides _)
  | WriteMaterials _ | WriteTallies _ | Barrier => True
  | _ => False
  end.

Lemma generate_materials_xml_events op env op' events :
  generate_materials_xml op env = Return (op', events) → Forall is_input_event events.
Proof.
  intros (n & xml & out & Hfrag & _ & ->)%generate_materials_xml_inv.
  apply Forall_app. split.
  - eapply Forall_impl; [by eapply materials_fragments_warnings|]. by intros [].
  - case_decide.
    + apply Forall_app. split; [|by repeat constructor].
      apply Forall_fmap, Forall_true. done.
    + by repeat constructor.
Qed.

Lemma generate_tally_xml_events op env events :
  generate_tally_xml op env = Return events → Forall is_input_event events.
Proof.
  unfold generate_tally_xml. intros (s & _ & Hrest)%PyFacts.bind_Return_inv.
  case_decide; injection Hrest as <-.
  - apply Forall_app. split; [|by repeat constructor].
    apply Forall_fmap, Forall_true. done.
  - by repeat constructor.
Qed.

Lemma after_input_events p pre rest :
  (∀ e, is_input_event e → p e = false) →
  Forall is_input_event pre → after p (pre ++ rest) = after p rest.
Proof.
  intros Hp. induction 1 as [|e pre He _ IH]; [done|].
  simpl. by rewrite (Hp e He).
Qed.

Lemma settings_written_input_events pre :
  Forall is_input_event pre → settings_written pre = [].
Proof.
  unfold settings_written. induction 1 as [|e pre He _ IH]; [done|].
  csimpl. rewrite IH. by destruct e.
Qed.

Lemma settings_written_app l1 l2 :
  settings_written (l1 ++ l2) = settings_written l1 ++ settings_written l2.
Proof. apply omap_app. Qed.

Lemma settings_written_power_talk talk :
  Forall is_power_talk talk → settings_written talk = [].
Proof.
  unfold settings_written. induction 1 as [|e pre He _ IH]; [done|].
  csimpl. rewrite IH. by destruct e.
Qed.

Lemma settings_written_sends (l : list Z) :
  settings_written ((λ i, Send i 0 (MsgBool true)) <$> l) = [].
Proof. unfold settings_written. induction l as [|i l IH]; [done|]. by csimpl. Qed.

Lemma settings_written_wait polls : settings_written (wait_for_run polls) = [].
Proof.
  unfold wait_for_run, settings_written. csimpl.
  induction polls as [|n IH]; [done|]. by csimpl.
Qed.

Lemma power_talk_no_barrier talk :
  Forall is_power_talk talk → ¬ Barrier ∈ talk.
Proof.
  intros Htalk Hin. rewrite Forall_forall in Htalk. by apply Htalk in Hin.
Qed.

Lemma after_skip p pre rest :
  Forall (λ e, p e = false) pre → after p (pre ++ rest) = after p rest.
Proof. induction 1 as [|e pre He _ IH]; [done|]. simpl. by rewrite He. Qed.

Lemma before_skip p pre rest :
  Forall (λ e, p e = false) pre → before p (pre ++ rest) = pre ++ before p rest.
Proof. induction 1 as [|e pre He _ IH]; [done|]. simpl. by rewrite He, IH. Qed.

Lemma input_events_skip (p : event → bool) l :
  (∀ e, is_input_event e → p e = false) →
  Forall is_input_event l → Forall (λ e, p e = false) l.
Proof. intros Hp Hl. by eapply Forall_impl. Qed.

Lemma input_event_not_completion e : is_input_event e → is_completion e = false.
Proof. by destruct e as [| | |[]| | | | | | | | | | |]. Qed.

Lemma input_event_not_open e : is_input_event e → is_open e = false.
Proof. by destruct e. Qed.

Lemma settings_event_skip (p : event → bool) op env :
  (∀ f, p (WriteSettings f) = false) →
  Forall (λ e, p e = false) (generate_settings_xml op env).2.
Proof.
  intros Hp. unfold generate_settings_xml. case_decide; simpl; by repeat constructor.
Qed.

Lemma sends_skip (p : event → bool) (l : list Z) :
  (∀ i, p (Send i 0 (MsgBool true)) = false) →
  Forall (λ e, p e = false) ((λ i, Send i 0 (MsgBool true)) <$> l).
Proof. intros Hp. apply Forall_fmap, Forall_true. intros i. apply Hp. Qed.

(** The wait ends with the test that succeeds. *)
Lemma after_wait polls rest :
  after is_completion (wait_for_run polls ++ rest) = Some rest.
Proof.
  unfold wait_for_run. simpl. induction polls as [|n IH]; [done|]. by simpl.
Qed.

Lemma wait_not_open polls : Forall (λ e, is_open e = false) (wait_for_run polls).
Proof.
  unfold wait_for_run. repeat constructor. apply Forall_app. split; [|by repeat constructor].
  induction polls as [|n IH]; simpl; by repeat constructor.
Qed.

(** The parts of a step that returns. *)
Lemma eval_inv op env vec print_out out :
  eval op env vec print_out = Return out →
  ∃ n1 n2 rr materials_xml tally_xml talk power k,
    let op3 := (generate_settings_xml (with_number (with_number op n1) n2) env).1 in
    let settings_xml := (generate_settings_xml (with_number (with_number op n1) n2) env).2 in
    let name := "statepoint." +:+ pretty (Settings.batches (settings op)) +:+ ".h5" in
    let op4 := with_reaction_rates op3 rr in
    Forall is_input_event materials_xml ∧
    Forall is_input_event tally_xml ∧
    Forall is_power_talk talk ∧
    out = ((k, rr, seed op3), op4,
           materials_xml ++ tally_xml ++ settings_xml
             ++ (if decide (rank op = 0)
                 then [Call (Settings.openmc_call (settings op))]
                        ++ ((λ i, Send i 0 (MsgBool true)) <$> others op)
                 else [])
             ++ (if decide (rank op ≠ 0) then wait_for_run (polls env) else [])
             ++ ([OpenStatepoint name] ++ talk ++ [Bcast 0 (MsgFloat power)])
             ++ [Barrier]
             ++ (if decide (rank op = 0)
                 then [Remove name] ++ (if print_out then [PrintTimes] else [])
                 else [])).
Proof.
  unfold eval.
  intros (op1 & Hset & Hrest)%PyFacts.bind_Return_inv.
  apply set_density_fields in Hset as [n1 ->].
  apply PyFacts.bind_Return_inv in Hrest as ([op2 mx] & Hmat & Hrest).
  pose proof (generate_materials_xml_events _ _ _ _ Hmat) as Hmx.
  apply generate_materials_xml_inv in Hmat as (n2 & _ & _ & _ & -> & _).
  apply PyFacts.bind_Return_inv in Hrest as (tx & Htally & Hrest).
  apply generate_tally_xml_events in Htally.
  destruct (generate_settings_xml _ env) as [op3 sx] eqn:Hsettings.
  assert (rank op3 = rank op ∧ settings op3 = settings op ∧ size op3 = size op)
    as (Hrank & Hset & Hsize).
  { revert Hsettings. unfold generate_settings_xml.
    destruct (decide (rank (with_number (with_number op n1) n2) = 0));
      intros Heq; injection Heq as <- _; done. }
  apply PyFacts.bind_Return_inv in Hrest as ([[k op4] un] & Hunpack & Hret).
  apply unpack_inv in Hunpack as (rr & talk & power & -> & -> & Htalk).
  exists n1, n2, rr, mx, tx, talk, power, k. cbn zeta.
  split_and!; [done..|]. injection Hret as <-.
  cbn [rank settings with_reaction_rates reaction_rates seed fst snd].
  unfold others. cbn [size]. by rewrite Hsettings, Hrank, Hset, Hsize.
Qed.

End EvalFacts.

(** ** Facts on the ingestion of the tallies *)

Module UnpackFacts.
Import OpenMCOperator UnpackSpec.

(** *** Arrays *)

Lemma array1_zeros n : array1 n (Np.zeros n) (λ _, Flt.zero).
Proof.
  unfold Np.zeros. split; [apply length_replicate|].
  intros i Hi. by apply lookup_replicate_2.
Qed.

Lemma array2_zeros n m : array2 n m (Np.zeros2 n m) (λ _ _, Flt.zero).
Proof.
  unfold Np.zeros2. split; [apply length_replicate|].
  intros i Hi. exists (Np.zeros m). split; [by apply lookup_replicate_2|apply array1_zeros].
Qed.

Lemma array1_ext n v g g' :
  array1 n v g → (∀ i, (i < n)%nat → g i = g' i) → array1 n v g'.
Proof. intros [Hlen Hv] Hext. split; [done|]. intros i Hi. rewrite <-Hext by done. eauto. Qed.

Lemma array1_list n v g : array1 n v g → v = g <$> seq 0 n.
Proof.
  intros [Hlen Hv]. apply list_eq. intros i.
  destruct (decide (i < n)%nat) as [Hi|Hi].
  - rewrite Hv, list_lookup_fmap, lookup_seq_lt by done. done.
  - rewrite lookup_ge_None_2 by lia.
    rewrite list_lookup_fmap, lookup_seq_ge by lia. done.
Qed.

Lemma get1_array n v g i :
  array1 n v g → 0 ≤ i < Z.of_nat n → Np.get1 v i = Return (g (Z.to_nat i)).
Proof.
  intros [Hlen Hv] Hi. unfold Np.get1.
  rewrite PyFacts.index_in_range by lia. simpl. rewrite Hv by lia. done.
Qed.

Lemma set1_array n v g i x :
  array1 n v g → 0 ≤ i < Z.of_nat n →
  ∃ v', Np.set1 v i x = Return v' ∧ array1 n v' (upd1 g (Z.to_nat i) x).
Proof.
  intros [Hlen Hv] Hi. unfold Np.set1.
  rewrite PyFacts.index_in_range by lia. simpl. eexists. split; [done|].
  split; [by rewrite length_insert|].
  intros k Hk. unfold upd1. case_decide as Hki.
  - subst k. apply list_lookup_insert_eq. lia.
  - rewrite list_lookup_insert_ne by done. eauto.
Qed.

Lemma get2_array n m a f i j :
  array2 n m a f → 0 ≤ i < Z.of_nat n → 0 ≤ j < Z.of_nat m →
  Np.get2 a i j = Return (f (Z.to_nat i) (Z.to_nat j)).
Proof.
  intros [Hlen Ha] Hi Hj. unfold Np.get2.
  rewrite PyFacts.index_in_range by lia. simpl.
  destruct (Ha (Z.to_nat i)) as (row & -> & Hrow); [lia|].
  by eapply get1_array.
Qed.

Lemma set2_array n m a f i j x :
  array2 n m a f → 0 ≤ i < Z.of_nat n → 0 ≤ j < Z.of_nat m →
  ∃ a', Np.set2 a i j x = Return a' ∧ array2 n m a' (upd2 f (Z.to_nat i) (Z.to_nat j) x).
Proof.
  intros [Hlen Ha] Hi Hj. unfold Np.set2.
  rewrite PyFacts.index_in_range by lia. simpl.
  destruct (Ha (Z.to_nat i)) as (row & Hrow & Harr); [lia|]. rewrite Hrow.
  destruct (set1_array m row _ j x Harr Hj) as (row' & -> & Harr'). simpl.
  eexists. split; [done|]. split; [by rewrite length_insert|].
  intros k Hk. destruct (decide (k = Z.to_nat i)) as [->|Hki].
  - exists row'. split; [apply list_lookup_insert_eq; lia|].
    eapply array1_ext; [done|]. intros l Hl. unfold upd1, upd2.
    repeat case_decide; naive_solver.
  - destruct (Ha k Hk) as (rowk & Hrowk & Harrk).
    exists rowk. split; [by rewrite list_lookup_insert_ne|].
    eapply array1_ext; [done|]. intros l Hl. unfold upd2.
    rewrite decide_False; [done|]. naive_solver.
Qed.

Lemma mapM_Return {A B} (f : A → py B) (g : A → B) (l : list A) :
  (∀ x, x ∈ l → f x = Return (g x)) → mapM f l = Return (g <$> l).
Proof.
  induction l as [|x l IH]; intros Hf; [done|].
  change (mapM f (x :: l)) with (y ← f x; k ← mapM f l; mret (y :: k)).
  rewrite Hf by left. rewrite PyFacts.bind_Return, IH; [done|].
  intros; apply Hf; by right.
Qed.

Lemma column_array n m a f j :
  array2 n m a f → 0 ≤ j < Z.of_nat m →
  Np.column a j = Return ((λ i, f i (Z.to_nat j)) <$> seq 0 n).
Proof.
  intros [Hlen Ha] Hj. unfold Np.column.
  assert (a = (λ i, (λ l, f i l) <$> seq 0 m) <$> seq 0 n) as Hrows.
  { apply list_eq. intros i. destruct (decide (i < n)%nat) as [Hi|Hi].
    - destruct (Ha i Hi) as (row & -> & Harr).
      rewrite list_lookup_fmap, lookup_seq_lt by done. simpl.
      by rewrite (array1_list _ _ _ Harr).
    - rewrite lookup_ge_None_2 by lia.
      rewrite list_lookup_fmap, lookup_seq_ge by lia. done. }
  rewrite Hrows at 1.
  rewrite (mapM_Return _ (λ row, default Flt.zero (row !! Z.to_nat j))).
  - f_equal. rewrite <-list_fmap_compose. apply list_fmap_ext.
    intros i k Hk. simpl. rewrite list_lookup_fmap, lookup_seq_lt by lia. done.
  - intros row (i & -> & Hi)%list_elem_of_fmap.
    apply elem_of_seq in Hi.
    assert (array1 m ((λ l, f i l) <$> seq 0 m) (f i)) as Harr.
    { split; [by rewrite length_fmap, length_seq|].
      intros l Hl. by rewrite list_lookup_fmap, lookup_seq_lt. }
    rewrite (get1_array _ _ _ _ Harr) by done.
    destruct Harr as [_ Harr]. rewrite Harr by lia. done.
Qed.

Lemma get1_lookup (v : list flt) (j : nat) x :
  v !! j = Some x → Np.get1 v (Z.of_nat j) = Return x.
Proof.
  intros Hx. unfold Np.get1.
  rewrite PyFacts.index_in_range by (apply lookup_lt_Some in Hx; lia).
  simpl. by rewrite Nat2Z.id, Hx.
Qed.

Lemma list_getitem_lookup {A} (l : list A) (j : nat) x :
  l !! j = Some x → list_getitem l (Z.of_nat j) = Return x.
Proof.
  intros Hx. unfold list_getitem.
  rewrite PyFacts.index_in_range by (apply lookup_lt_Some in Hx; lia).
  simpl. by rewrite Nat2Z.id, Hx.
Qed.

(** *** The expansion of a row *)

Section expand.
Context (n m : nat) (self_number : AtomNumber.t) (results : list flt) (mat : string).

(** The loop over the reactions, for the tally nuclide [nuc] of index [i]. *)
Lemma expand_bins nuc i c rs :
  ∀ re cnt f g (j0 : nat),
  array2 n m re f → array1 n cnt g →
  0 ≤ i < Z.of_nat n → Forall (λ r, 0 ≤ r < Z.of_nat m) rs → NoDup rs →
  AtomNumber.number self_number !! (mat, nuc) = Some c →
  (j0 + length rs ≤ length results)%nat →
  ∃ re' cnt' f' g',
    for_each (expand_bin self_number results mat nuc i) rs (re, cnt, Z.of_nat j0)
      = Return (re', cnt', Z.of_nat (j0 + length rs)) ∧
    array2 n m re' f' ∧ array1 n cnt' g' ∧
    (∀ b r, rs !! b = Some r →
       results !! (j0 + b)%nat = Some (f' (Z.to_nat i) (Z.to_nat r))) ∧
    (∀ k l, k ≠ Z.to_nat i ∨ Z.of_nat l ∉ rs → f' k l = f k l) ∧
    (∀ k, g' k = if decide (k = Z.to_nat i ∧ rs ≠ []) then c else g k).
Proof.
  intros re cnt f g j0 Hre Hcnt Hi Hrs Hnd Hc Hlen.
  revert re cnt f g j0 Hre Hcnt Hlen.
  induction rs as [|r rs IH]; intros re cnt f g j0 Hre Hcnt Hlen.
  - exists re, cnt, f, g. simpl. rewrite Nat.add_0_r.
    split_and!; [done..| | |].
    + intros b r ?. done.
    + done.
    + intros k. rewrite decide_False; [done|]. by intros [_ ?].
  - apply Forall_cons in Hrs as [Hr Hrs]. apply NoDup_cons in Hnd as [Hfresh Hnd].
    simpl in Hlen.
    destruct (lookup_lt_is_Some_2 results j0) as [x Hx]; [lia|].
    cbn [for_each]. unfold expand_bin at 2.
    rewrite (get1_lookup _ _ _ Hx), PyFacts.bind_Return.
    destruct (set2_array n m re f i r x Hre Hi Hr) as (re1 & -> & Hre1).
    rewrite PyFacts.bind_Return. unfold AtomNumber.getitem. rewrite Hc, PyFacts.bind_Return.
    destruct (set1_array n cnt g i c Hcnt Hi) as (cnt1 & -> & Hcnt1).
    rewrite !PyFacts.bind_Return.
    replace (Z.of_nat j0 + 1) with (Z.of_nat (S j0)) by lia.
    destruct (IH Hrs Hnd re1 cnt1 _ _ (S j0) Hre1 Hcnt1 ltac:(lia))
      as (re' & cnt' & f' & g' & Hrun & Hre' & Hcnt' & Hset & Hframe & Hg).
    exists re', cnt', f', g'. split_and!; [|done|done| | |].
    + rewrite Hrun. do 3 f_equal. simpl. lia.
    + intros [|b] r' Hb; simpl in Hb.
      * injection Hb as <-. rewrite Nat.add_0_r, Hx. f_equal.
        rewrite Hframe.
        -- unfold upd2. by rewrite decide_True.
        -- right. by rewrite Z2Nat.id by lia.
      * replace (j0 + S b)%nat with (S j0 + b)%nat by lia. by apply Hset.
    + intros k l Hkl. rewrite Hframe.
      * unfold upd2. rewrite decide_False; [done|].
        intros [-> ->]. destruct Hkl as [?|Hl]; [done|]. apply Hl.
        rewrite Z2Nat.id by lia. left.
      * destruct Hkl as [?|Hl]; [by left|]. right. intros ?. apply Hl. by right.
    + intros k. rewrite Hg. unfold upd1.
      destruct (decide (k = Z.to_nat i)) as [->|Hk].
      * rewrite (decide_True (P := _ ∧ r :: rs ≠ [])) by done.
        by case_decide.
      * rewrite !decide_False by naive_solver. done.
Qed.

(** The loop over the tally nuclides, from the [a0]-th on. *)
Lemma expand_nuclides nuclides react_ind (l : list Z) :
  ∀ a0 re cnt f g,
  array2 n m re f → array1 n cnt g →
  Forall (λ i, 0 ≤ i < Z.of_nat n) l → NoDup l →
  Forall (λ r, 0 ≤ r < Z.of_nat m) react_ind → NoDup react_ind →
  (∀ t, (t < length l)%nat →
     ∃ nuc c, nuclides !! (a0 + t)%nat = Some nuc ∧
              AtomNumber.number self_number !! (mat, nuc) = Some c) →
  ((a0 + length l) * length react_ind ≤ length results)%nat →
  ∃ re' cnt' f' g',
    for_each (expand_nuclide self_number results mat nuclides react_ind)
             (imap (λ t i, ((a0 + t)%nat, i)) l)
             (re, cnt, Z.of_nat (a0 * length react_ind))
      = Return (re', cnt', Z.of_nat ((a0 + length l) * length react_ind)) ∧
    array2 n m re' f' ∧ array1 n cnt' g' ∧
    (∀ t b i r, l !! t = Some i → react_ind !! b = Some r →
       results !! ((a0 + t) * length react_ind + b)%nat
         = Some (f' (Z.to_nat i) (Z.to_nat r))) ∧
    (∀ k l', Z.of_nat k ∉ l ∨ Z.of_nat l' ∉ react_ind → f' k l' = f k l') ∧
    (∀ t i nuc c, l !! t = Some i → nuclides !! (a0 + t)%nat = Some nuc →
       AtomNumber.number self_number !! (mat, nuc) = Some c → react_ind ≠ [] →
       g' (Z.to_nat i) = c) ∧
    (∀ k, Z.of_nat k ∉ l ∨ react_ind = [] → g' k = g k).
Proof.
  induction l as [|i l IH]; intros a0 re cnt f g Hre Hcnt Hl Hnd Hrs Hrnd Hnuc Hlen.
  - exists re, cnt, f, g. simpl. rewrite Nat.add_0_r.
    split_and!; done.
  - apply Forall_cons in Hl as [Hi Hl]. apply NoDup_cons in Hnd as [Hfresh Hnd].
    simpl in Hlen. rewrite imap_cons. cbn [for_each].
    destruct (Hnuc 0%nat) as (nuc & c & Hnuc0 & Hc); [simpl; lia|].
    rewrite Nat.add_0_r in Hnuc0.
    unfold expand_nuclide at 2. rewrite Nat.add_0_r.
    rewrite (list_getitem_lookup _ _ _ Hnuc0), PyFacts.bind_Return.
    destruct (expand_bins nuc i c react_ind re cnt f g (a0 * length react_ind)
                Hre Hcnt Hi Hrs Hrnd Hc ltac:(nia))
      as (re1 & cnt1 & f1 & g1 & -> & Hre1 & Hcnt1 & Hset1 & Hframe1 & Hg1).
    rewrite PyFacts.bind_Return.
    replace (a0 * length react_ind + length react_ind)%nat
      with (S a0 * length react_ind)%nat by lia.
    destruct (IH (S a0) re1 cnt1 f1 g1 Hre1 Hcnt1 Hl Hnd Hrs Hrnd) as
      (re' & cnt' & f' & g' & Hrun & Hre' & Hcnt' & Hset & Hframe & Hg & Hgframe).
    { intros t Ht. replace (S a0 + t)%nat with (a0 + S t)%nat by lia.
      apply Hnuc. simpl. lia. }
    { lia. }
    exists re', cnt', f', g'. split_and!; [|done|done| | | |].
    + erewrite imap_ext; [rewrite Hrun|].
      * do 3 f_equal. simpl. lia.
      * intros t x _. simpl. f_equal. lia.
    + intros [|t] b i' r Ht Hb; simpl in Ht.
      * injection Ht as <-. rewrite Nat.add_0_r.
        rewrite Hframe; [by apply Hset1|].
        left. by rewrite Z2Nat.id by lia.
      * replace (a0 + S t)%nat with (S a0 + t)%nat by lia. by eapply Hset.
    + intros k l' Hkl. rewrite Hframe.
      * apply Hframe1. destruct Hkl as [Hk|?]; [|by right].
        left. intros ->. apply Hk. rewrite Z2Nat.id by lia. left.
      * destruct Hkl as [Hk|?]; [|by right]. left. intros ?. apply Hk. by right.
    + intros [|t] i' nuc' c' Ht Hnuc' Hc' Hne; simpl in Ht.
      * injection Ht as <-. rewrite Nat.add_0_r in Hnuc'.
        assert (nuc' = nuc) as -> by congruence.
        assert (c' = c) as -> by congruence.
        rewrite Hgframe by (left; by rewrite Z2Nat.id by lia).
        rewrite Hg1. by rewrite decide_True.
      * replace (a0 + S t)%nat with (S a0 + t)%nat in Hnuc' by lia. by eapply Hg.
    + intros k Hk. rewrite Hgframe.
      * rewrite Hg1. rewrite decide_False; [done|].
        intros [-> Hne]. destruct Hk as [Hk|?]; [|done].
        apply Hk. rewrite Z2Nat.id by lia. left.
      * destruct Hk as [Hk|?]; [|by right]. left. intros ?. apply Hk. by right.
Qed.

End expand.

(** *** The division by the numbers of atoms *)

Section divide.
Context (n m : nat) (cnt : list flt) (g : nat → flt).

Lemma divide_bins i rs :
  ∀ re f,
  array2 n m re f → array1 n cnt g →
  0 ≤ i < Z.of_nat n → Forall (λ r, 0 ≤ r < Z.of_nat m) rs → NoDup rs →
  ∃ re' f',
    for_each (divide_bin cnt i) rs re = Return re' ∧ array2 n m re' f' ∧
    ∀ k l, f' k l =
      if decide (k = Z.to_nat i ∧ Z.of_nat l ∈ rs ∧ Flt.ne (g k) Flt.zero = true)
      then Flt.div (f k l) (g k) else f k l.
Proof.
  intros re f Hre Hcnt Hi Hrs Hnd. revert re f Hre.
  induction rs as [|r rs IH]; intros re f Hre.
  - exists re, f. split_and!; [done..|]. intros k l.
    rewrite decide_False; [done|]. intros (_ & ?%elem_of_nil & _). done.
  - apply Forall_cons in Hrs as [Hr Hrs]. apply NoDup_cons in Hnd as [Hfresh Hnd].
    cbn [for_each]. unfold divide_bin at 2.
    rewrite (get1_array _ _ _ _ Hcnt Hi), PyFacts.bind_Return.
    destruct (Flt.ne (g (Z.to_nat i)) Flt.zero) eqn:Hne.
    + rewrite (get2_array _ _ _ _ _ _ Hre Hi Hr), PyFacts.bind_Return.
      destruct (set2_array n m re f i r
                  (Flt.div (f (Z.to_nat i) (Z.to_nat r)) (g (Z.to_nat i))) Hre Hi Hr)
        as (re1 & -> & Hre1).
      rewrite PyFacts.bind_Return.
      destruct (IH Hrs Hnd re1 _ Hre1) as (re' & f' & -> & Hre' & Hf').
      exists re', f'. split_and!; [done..|]. intros k l. rewrite Hf'. unfold upd2.
      destruct (decide (k = Z.to_nat i ∧ l = Z.to_nat r)) as [[-> ->]|Hkl].
      * rewrite decide_False.
        2:{ intros (_ & Hin & _). apply Hfresh. by rewrite Z2Nat.id in Hin by lia. }
        rewrite decide_True; [done|]. split_and!; [done| |done].
        rewrite Z2Nat.id by lia. left.
      * destruct (decide (k = Z.to_nat i ∧ Z.of_nat l ∈ rs ∧ _)) as [(-> & Hin & Hg)|Hno].
        -- rewrite decide_True; [done|]. split_and!; [done|by right|done].
        -- rewrite decide_False; [done|].
           intros (-> & [Hl|Hin]%elem_of_cons & Hg).
           ++ apply Hkl. split; [done|]. lia.
           ++ by apply Hno.
    + rewrite PyFacts.bind_Return.
      destruct (IH Hrs Hnd re f Hre) as (re' & f' & -> & Hre' & Hf').
      exists re', f'. split_and!; [done..|]. intros k l. rewrite Hf'.
      destruct (decide (k = Z.to_nat i ∧ Z.of_nat l ∈ rs ∧ _)) as [(-> & Hin & Hg)|Hno].
      * congruence.
      * rewrite decide_False; [done|]. intros (-> & _ & Hg). congruence.
Qed.

Lemma divide_spec nuc_ind react_ind :
  ∀ re f,
  array2 n m re f → array1 n cnt g →
  Forall (λ i, 0 ≤ i < Z.of_nat n) nuc_ind → NoDup nuc_ind →
  Forall (λ r, 0 ≤ r < Z.of_nat m) react_ind → NoDup react_ind →
  ∃ re' f',
    divide cnt nuc_ind react_ind re = Return re' ∧ array2 n m re' f' ∧
    ∀ k l, f' k l =
      if decide (Z.of_nat k ∈ nuc_ind ∧ Z.of_nat l ∈ react_ind ∧
                 Flt.ne (g k) Flt.zero = true)
      then Flt.div (f k l) (g k) else f k l.
Proof.
  unfold divide. intros re f Hre Hcnt Hl Hnd Hrs Hrnd. revert re f Hre.
  induction nuc_ind as [|i l IH]; intros re f Hre.
  - exists re, f. split_and!; [done..|]. intros k l.
    rewrite decide_False; [done|]. intros (?%elem_of_nil & _). done.
  - apply Forall_cons in Hl as [Hi Hl]. apply NoDup_cons in Hnd as [Hfresh Hnd].
    cbn [for_each].
    destruct (divide_bins i react_ind re f Hre Hcnt Hi Hrs Hrnd) as (re1 & f1 & -> & Hre1 & Hf1).
    rewrite PyFacts.bind_Return.
    destruct (IH Hl Hnd re1 f1 Hre1) as (re' & f' & -> & Hre' & Hf').
    exists re', f'. split_and!; [done..|]. intros k l'. rewrite Hf', Hf1.
    destruct (decide (k = Z.to_nat i)) as [->|Hk].
    + rewrite (decide_False (P := Z.of_nat (Z.to_nat i) ∈ l ∧ _)).
      2:{ intros (Hin & _). apply Hfresh. by rewrite Z2Nat.id in Hin by lia. }
      destruct (decide (Z.to_nat i = Z.to_nat i ∧ _ ∈ react_ind ∧ _)) as [(_ & Hin & Hg)|Hno].
      * rewrite decide_True; [done|]. split_and!; [|done..].
        rewrite Z2Nat.id by lia. left.
      * rewrite decide_False; [done|]. intros (_ & Hin & Hg). by apply Hno.
    + rewrite (decide_False (P := k = Z.to_nat i ∧ _)) by (by intros [? _]).
      destruct (decide (Z.of_nat k ∈ l ∧ _ ∈ react_ind ∧ _)) as [(Hin & Hin' & Hg)|Hno].
      * rewrite decide_True; [done|]. split_and!; [by right|done..].
      * rewrite decide_False; [done|].
        intros ([Heq|Hin]%elem_of_cons & Hin' & Hg); [lia|by apply Hno].
Qed.

End divide.

(** *** The indices of the tally's nuclides and scores *)

Lemma mapM_getitem (d : ODict.t string Z) (names : list string) :
  Forall (λ x, x ∈ ODict.keys d) names →
  ∃ inds, mapM (ODict.getitem d) names = Return inds ∧
          Forall2 (λ x i, ODict.get d x = Some i) names inds.
Proof.
  induction names as [|x names IH]; intros Hin.
  - exists []. split; [done|constructor].
  - apply Forall_cons in Hin as [Hx Hin].
    destruct (IH Hin) as (inds & Hrun & Hall).
    assert (∃ i, ODict.getitem d x = Return i ∧ ODict.get d x = Some i) as (i & Hrun' & Hget).
    { unfold ODict.getitem. destruct (ODict.get d x) as [i|] eqn:Hget; [eauto|].
      by apply ODictFacts.get_None in Hget. }
    exists (i :: inds). split; [|by constructor].
    change (mapM (ODict.getitem d) (x :: names))
      with (y ← ODict.getitem d x; k ← mapM (ODict.getitem d) names; mret (y :: k)).
    rewrite Hrun', PyFacts.bind_Return, Hrun. done.
Qed.

Lemma index_dict_get n d x i :
  index_dict n d → ODict.get d x = Some i → 0 ≤ i < Z.of_nat n.
Proof.
  intros (_ & _ & Hrange) Hget%ODictFacts.get_Some_elem.
  rewrite Forall_forall in Hrange. apply Hrange.
  apply list_elem_of_fmap. by exists (x, i).
Qed.

Lemma index_dict_inj n d x y i :
  index_dict n d → ODict.get d x = Some i → ODict.get d y = Some i → x = y.
Proof.
  intros (_ & Hnd & _) Hx%ODictFacts.get_Some_elem Hy%ODictFacts.get_Some_elem.
  induction d as [|[k v] d IH]; [by apply elem_of_nil in Hx|].
  csimpl in Hnd. apply NoDup_cons in Hnd as [Hv Hnd].
  apply elem_of_cons in Hx as [Hx|Hx], Hy as [Hy|Hy].
  - congruence.
  - injection Hx as -> ->. exfalso. apply Hv. apply list_elem_of_fmap. by exists (y, v).
  - injection Hy as -> ->. exfalso. apply Hv. apply list_elem_of_fmap. by exists (x, v).
  - by apply IH.
Qed.

Lemma indices_ok n d names inds :
  index_dict n d → NoDup names →
  Forall2 (λ x i, ODict.get d x = Some i) names inds →
  NoDup inds ∧ Forall (λ i, 0 ≤ i < Z.of_nat n) inds.
Proof.
  intros Hd Hnd Hall. split.
  - induction Hall as [|x i names inds Hx Hall IH]; [constructor|].
    apply NoDup_cons in Hnd as [Hfresh Hnd]. apply NoDup_cons. split; [|by apply IH].
    intros Hi. apply Hfresh.
    apply list_elem_of_lookup in Hi as [a Ha].
    destruct (Forall2_lookup_r _ _ _ _ _ Hall Ha) as (y & Hy & Hget).
    rewrite (index_dict_inj _ _ _ _ _ Hd Hx Hget).
    by eapply list_elem_of_lookup_2.
  - clear Hnd. induction Hall as [|x i names inds Hx Hall IH]; constructor; [|done].
    by eapply index_dict_get.
Qed.

(** *** The energies of fission *)

Lemma fission_power_loop (d : ODict.t string Z) (n : nat)
    (l : list DepletionChain.Nuclide) :
  index_dict n d →
  ∀ pv e, array1 n pv e →
  ∃ pv',
    for_each (λ power_vec nuclide,
                if ODict.mem d (DepletionChain.name nuclide) then
                  ind ← ODict.getitem d (DepletionChain.name nuclide);
                  Np.set1 power_vec ind (DepletionChain.fission_power nuclide)
                else Return power_vec) l pv = Return pv' ∧
    array1 n pv'
      (λ k, foldl (λ e nuclide,
                     if decide (ODict.get d (DepletionChain.name nuclide) = Some (Z.of_nat k))
                     then DepletionChain.fission_power nuclide else e) (e k) l).
Proof.
  intros Hd.
  match goal with |- context [for_each ?b] => set (body := b) end.
  induction l as [|nuclide l IH]; intros pv e Hpv.
  - exists pv. by split.
  - cbn [for_each foldl].
    assert (∃ pv1,
              body pv nuclide = Return pv1 ∧
              array1 n pv1
                (λ k, if decide (ODict.get d (DepletionChain.name nuclide) = Some (Z.of_nat k))
                      then DepletionChain.fission_power nuclide else e k))
      as (pv1 & -> & Hpv1).
    { unfold body, ODict.mem, ODict.getitem.
      destruct (ODict.get d (DepletionChain.name nuclide)) as [ind|] eqn:Hget.
      - rewrite bool_decide_eq_true_2 by eauto. rewrite PyFacts.bind_Return.
        pose proof (index_dict_get _ _ _ _ Hd Hget) as Hind.
        destruct (set1_array n pv e ind (DepletionChain.fission_power nuclide) Hpv Hind)
          as (pv1 & -> & Hpv1).
        exists pv1. split; [done|]. eapply array1_ext; [done|].
        intros k Hk. unfold upd1.
        destruct (decide (k = Z.to_nat ind)) as [->|Hne].
        + rewrite decide_True; [done|]. f_equal. lia.
        + rewrite decide_False; [done|]. intros [= ->]. lia.
      - rewrite bool_decide_eq_false_2 by (by intros [? ?]).
        exists pv. split; [done|]. eapply array1_ext; [done|].
        intros k Hk. by rewrite decide_False. }
    rewrite PyFacts.bind_Return.
    destruct (IH pv1 _ Hpv1) as (pv' & -> & Hpv').
    exists pv'. by split.
Qed.

Lemma fission_power_vec_spec (op : t) :
  index_dict (ReactionRates.n_nuc (reaction_rates op))
             (ReactionRates.nuc_to_ind (reaction_rates op)) →
  ∃ power_vec,
    fission_power_vec op = Return power_vec ∧
    array1 (ReactionRates.n_nuc (reaction_rates op)) power_vec (energy_at op).
Proof.
  intros Hd. unfold fission_power_vec.
  destruct (fission_power_loop _ _ (DepletionChain.nuclides (chain op)) Hd _ _
              (array1_zeros (ReactionRates.n_nuc (reaction_rates op)))) as (pv & Hrun & Hpv).
  exists pv. split; [done|]. eapply array1_ext; [done|]. done.
Qed.

(** *** The pass of the loop for a material *)

Lemma dot_arrays n u v (f g : nat → flt) :
  array1 n v g → u = f <$> seq 0 n →
  Np.dot u v = Return (Flt.sum ((λ k, Flt.mul (f k) (g k)) <$> seq 0 n)).
Proof.
  intros Hv ->. rewrite (array1_list _ _ _ Hv). unfold Np.dot.
  rewrite decide_True by (by rewrite !length_fmap).
  unfold Flt.dot. by rewrite zip_with_fmap_l, zip_with_fmap_r, zip_with_diag.
Qed.

Section unpack.
Context (op : t) (file : Statepoint.t).
Context (nuc_ind react_ind : list Z) (fission_ind : Z) (power_vec : list flt) (e : nat → flt).

Local Abbreviation n := (ReactionRates.n_nuc (reaction_rates op)).
Local Abbreviation m := (ReactionRates.n_react (reaction_rates op)).
Local Abbreviation nuclides := (Statepoint.nuclides file).

Hypothesis Hnuc_len : length nuc_ind = length nuclides.
Hypothesis Hnuc_range : Forall (λ i, 0 ≤ i < Z.of_nat n) nuc_ind.
Hypothesis Hnuc_nodup : NoDup nuc_ind.
Hypothesis Hreact_len : length react_ind = length (Statepoint.score_bins file).
Hypothesis Hreact_range : Forall (λ r, 0 ≤ r < Z.of_nat m) react_ind.
Hypothesis Hreact_nodup : NoDup react_ind.
Hypothesis Hfission : 0 ≤ fission_ind < Z.of_nat m.
Hypothesis Hpower_vec : array1 n power_vec e.

Lemma unpack_material_spec rr p i mat :
  row_ready op file mat → (i < length (ReactionRates.rates rr))%nat →
  ∃ slab row slice pw,
    list_find (λ y, y = mat) (pretty <$> Statepoint.bins file) = Some (slab, mat) ∧
    Statepoint.results file !! slab = Some row ∧
    unpack_material op file (pretty <$> Statepoint.bins file) nuclides nuc_ind react_ind
                    fission_ind power_vec (rr, p) (i, mat)
      = Return (ReactionRates.with_rates rr (<[i := slice]> (ReactionRates.rates rr)),
                Flt.add p pw) ∧
    material_unpacked op nuclides nuc_ind react_ind (Z.to_nat fission_ind) e mat row slice pw.
Proof.
  intros [(slab & row & Hfind & Hrow & Hlen) Hnum] Hi.
  exists slab, row. unfold unpack_material, list_index. rewrite Hfind, PyFacts.bind_Return.
  rewrite (list_getitem_lookup _ _ _ Hrow), PyFacts.bind_Return.
  unfold expand.
  destruct (expand_nuclides n m (number op) row mat nuclides react_ind nuc_ind 0
              _ _ _ _ (array2_zeros n m) (array1_zeros n)
              Hnuc_range Hnuc_nodup Hreact_range Hreact_nodup)
    as (re & cnt & x & g & Hrun & Hre & Hcnt & Hset & Hframe & Hg & Hgframe).
  { intros a Ha. rewrite Hnuc_len in Ha.
    destruct (lookup_lt_is_Some_2 nuclides a Ha) as [nuc Hnuc].
    rewrite Forall_forall in Hnum.
    destruct (Hnum nuc) as [c Hc]; [by eapply list_elem_of_lookup_2|].
    exists nuc, c. by split. }
  { simpl. rewrite Hnuc_len, Hreact_len. done. }
  erewrite imap_ext in Hrun; [|intros a y _; simpl; reflexivity].
  change (Z.of_nat (0 * length react_ind)) with 0 in Hrun.
  rewrite Hrun, PyFacts.bind_Return.
  rewrite (column_array _ _ _ _ _ Hre Hfission), PyFacts.bind_Return.
  rewrite (dot_arrays n _ _ (λ k, x k (Z.to_nat fission_ind)) e Hpower_vec eq_refl).
  rewrite PyFacts.bind_Return.
  destruct (divide_spec n m cnt g nuc_ind react_ind re x Hre Hcnt
              Hnuc_range Hnuc_nodup Hreact_range Hreact_nodup)
    as (slice & f & -> & Hslice & Hf).
  rewrite PyFacts.bind_Return. unfold ReactionRates.set_row.
  rewrite PyFacts.index_in_range by lia. rewrite PyFacts.bind_Return, Nat2Z.id.
  exists slice. eexists. split_and!; [done|done|done|].
  exists f, x, g. split_and!; [done|done|done| | | |].
  - intros a b i' r Ha Hb. by apply (Hset a b i' r).
  - intros k l Hkl. by rewrite Hframe.
  - intros a i' nuc c Ha Hnuc Hc Hne. by apply (Hg a i' nuc c).
  - intros k Hk. by rewrite Hgframe.
Qed.

(** What the loop over the materials leaves, from the [i0]-th slice on. *)
Lemma unpack_materials_spec mats :
  ∀ i0 rr p,
  Forall (row_ready op file) mats →
  (i0 + length mats ≤ length (ReactionRates.rates rr))%nat →
  ∃ outs : list (list (list flt) * flt),
    for_each (unpack_material op file (pretty <$> Statepoint.bins file) nuclides nuc_ind
                              react_ind fission_ind power_vec)
             (imap (λ t mat, ((i0 + t)%nat, mat)) mats) (rr, p)
      = Return (ReactionRates.with_rates rr
                  (take i0 (ReactionRates.rates rr) ++ outs.*1 ++
                   drop (i0 + length mats) (ReactionRates.rates rr)),
                foldl Flt.add p outs.*2) ∧
    Forall2 (λ mat out, ∃ slab row,
               list_find (λ y, y = mat) (pretty <$> Statepoint.bins file) = Some (slab, mat) ∧
               Statepoint.results file !! slab = Some row ∧
               material_unpacked op nuclides nuc_ind react_ind (Z.to_nat fission_ind) e
                                 mat row out.1 out.2)
            mats outs.
Proof.
  induction mats as [|mat mats IH]; intros i0 rr p Hready Hlen.
  - exists []. split; [|constructor]. csimpl.
    rewrite Nat.add_0_r, take_drop. by destruct rr.
  - apply Forall_cons in Hready as [Hmat Hready]. simpl in Hlen.
    rewrite imap_cons. cbn [for_each]. rewrite Nat.add_0_r.
    destruct (unpack_material_spec rr p i0 mat Hmat ltac:(lia))
      as (slab & row & slice & pw & Hfind & Hrow & -> & Hout).
    rewrite PyFacts.bind_Return.
    destruct (IH (S i0) (ReactionRates.with_rates rr (<[i0 := slice]> (ReactionRates.rates rr)))
                (Flt.add p pw) Hready) as (outs & Hrun & Houts).
    { simpl. rewrite length_insert. lia. }
    exists ((slice, pw) :: outs). split.
    + replace (imap ((λ t y, ((i0 + t)%nat, y)) ∘ S) mats)
        with (imap (λ t y, ((S i0 + t)%nat, y)) mats).
      2:{ apply imap_ext. intros t y _. simpl. f_equal. lia. }
      rewrite Hrun. csimpl. do 2 f_equal. unfold ReactionRates.with_rates. simpl. f_equal.
      destruct (lookup_lt_is_Some_2 (ReactionRates.rates rr) i0) as [old Hold]; [lia|].
      rewrite (take_S_r _ _ slice) by (apply list_lookup_insert_eq; lia).
      rewrite take_insert_ge by lia. rewrite drop_insert_lt by lia.
      rewrite <-!app_assoc. simpl. by rewrite Nat.add_succ_r.
    + constructor; [|done]. exists slab, row. by split_and!.
Qed.

End unpack.

(** *** What a rank does before it talks to the others *)

Lemma unpack_local_spec (op : t) (file : Statepoint.t) :
  unpack_ready op file →
  ∃ nuc_ind react_ind fission_ind (outs : list (list (list flt) * flt)),
    Forall2 (λ x i, ODict.get (ReactionRates.nuc_to_ind (reaction_rates op)) x = Some i)
            (Statepoint.nuclides file) nuc_ind ∧
    Forall2 (λ x i, ODict.get (ReactionRates.react_to_ind (reaction_rates op)) x = Some i)
            (Statepoint.score_bins file) react_ind ∧
    ODict.get (ReactionRates.react_to_ind (reaction_rates op)) "fission" = Some fission_ind ∧
    0 ≤ fission_ind < Z.of_nat (ReactionRates.n_react (reaction_rates op)) ∧
    unpack_local op file
      = Return (Statepoint.k_combined file,
                ReactionRates.with_rates (reaction_rates op)
                  (outs.*1 ++
                   drop (length (AtomNumber.burn_mat_list (number op)))
                        (ReactionRates.map3 (λ _, Flt.zero)
                           (ReactionRates.rates (reaction_rates op)))),
                Flt.sum outs.*2) ∧
    Forall2 (λ mat out, ∃ slab row,
               list_find (λ y, y = mat) (pretty <$> Statepoint.bins file) = Some (slab, mat) ∧
               Statepoint.results file !! slab = Some row ∧
               material_unpacked op (Statepoint.nuclides file) nuc_ind react_ind
                                 (Z.to_nat fission_ind) (energy_at op) mat row out.1 out.2)
            (AtomNumber.burn_mat_list (number op)) outs.
Proof.
  intros (Hnd & Hrd & Hnucs & Hnuc_in & Hreacts & Hreact_in & Hfis & Hlen & Hrows).
  destruct (mapM_getitem _ _ Hnuc_in) as (nuc_ind & Hnuc_run & Hnuc_ind).
  destruct (mapM_getitem _ _ Hreact_in) as (react_ind & Hreact_run & Hreact_ind).
  destruct (indices_ok _ _ _ _ Hnd Hnucs Hnuc_ind) as [Hnuc_nodup Hnuc_range].
  destruct (indices_ok _ _ _ _ Hrd Hreacts Hreact_ind) as [Hreact_nodup Hreact_range].
  destruct (ODict.get (ReactionRates.react_to_ind (reaction_rates op)) "fission")
    as [fission_ind|] eqn:Hfget.
  2:{ by apply ODictFacts.get_None in Hfget. }
  pose proof (index_dict_get _ _ _ _ Hrd Hfget) as Hfrange.
  destruct (fission_power_vec_spec op Hnd) as (power_vec & Hpv_run & Hpv).
  destruct (unpack_materials_spec op file nuc_ind react_ind fission_ind power_vec (energy_at op)
              (eq_sym (Forall2_length _ _ _ Hnuc_ind)) Hnuc_range Hnuc_nodup
              (eq_sym (Forall2_length _ _ _ Hreact_ind)) Hreact_range Hreact_nodup
              Hfrange Hpv (AtomNumber.burn_mat_list (number op)) 0
              (ReactionRates.fill (reaction_rates op) Flt.zero) Flt.zero Hrows)
    as (outs & Hrun & Houts).
  { simpl. unfold ReactionRates.map3. by rewrite length_fmap. }
  exists nuc_ind, react_ind, fission_ind, outs.
  split_and!; [exact Hnuc_ind|exact Hreact_ind|reflexivity|lia|lia| |exact Houts].
  unfold unpack_local. cbn [ReactionRates.fill ReactionRates.with_rates
    ReactionRates.nuc_to_ind ReactionRates.react_to_ind].
  rewrite Hnuc_run, PyFacts.bind_Return, Hreact_run, PyFacts.bind_Return.
  unfold ODict.getitem. rewrite Hfget, PyFacts.bind_Return, Hpv_run, PyFacts.bind_Return.
  erewrite imap_ext in Hrun; [|intros a y _; simpl; reflexivity].
  cbn [ReactionRates.fill ReactionRates.with_rates] in Hrun.
  rewrite Hrun, PyFacts.bind_Return. done.
Qed.


Lemma rate_at_unpacked n m (slices rest : list (list (list flt))) (rr : ReactionRates.t)
    i slice f k l :
  slices !! i = Some slice → array2 n m slice f → (k < n)%nat → (l < m)%nat →
  rate_at (ReactionRates.with_rates rr (slices ++ rest)) i k l = Some (f k l).
Proof.
  intros Hi [_ Hslice] Hk Hl. unfold rate_at. cbn [ReactionRates.with_rates ReactionRates.rates].
  rewrite lookup_app_l by (by eapply lookup_lt_Some). rewrite Hi. csimpl.
  destruct (Hslice k Hk) as (row & -> & _ & Hrow). csimpl. by apply Hrow.
Qed.

(** *** The exchange and the scaling *)

Lemma gather_loop (h : Z → flt) (rest : list flt) :
  ∀ pre,
  for_each (λ a i, Np.set1 a i (h i))
           (seqZ (Z.of_nat (length pre)) (Z.of_nat (length rest))) (pre ++ rest)
    = Return (pre ++ (h <$> seqZ (Z.of_nat (length pre)) (Z.of_nat (length rest)))).
Proof.
  induction rest as [|x rest IH]; intros pre.
  - done.
  - rewrite seqZ_cons by (simpl; lia). cbn [for_each]. unfold Np.set1 at 2.
    rewrite PyFacts.index_in_range by (rewrite length_app; simpl; lia).
    rewrite !PyFacts.bind_Return, Nat2Z.id.
    replace (<[length pre := h (Z.of_nat (length pre))]> (pre ++ x :: rest))
      with ((pre ++ [h (Z.of_nat (length pre))]) ++ rest).
    2:{ rewrite <-(Nat.add_0_r (length pre)) at 2. rewrite insert_app_r.
        by rewrite <-app_assoc. }
    replace (Z.succ (Z.of_nat (length pre)))
      with (Z.of_nat (length (pre ++ [h (Z.of_nat (length pre))])))
      by (rewrite length_app; simpl; lia).
    replace (Z.pred (Z.of_nat (length (x :: rest)))) with (Z.of_nat (length rest))
      by (simpl; lia).
    rewrite IH. csimpl. by rewrite <-app_assoc.
Qed.

Lemma gather_power_spec (op : t) (env : Env) (power : flt) :
  1 ≤ size op →
  gather_power op env power = Return (Flt.sum (power :: (power_from env <$> others op))).
Proof.
  intros Hsize. unfold gather_power, others.
  replace (Z.to_nat (size op)) with (S (Z.to_nat (size op - 1))) by lia.
  unfold Np.zeros. cbn [replicate].
  assert (∀ l, Np.set1 (Flt.zero :: l) 0 power = Return (power :: l)) as ->.
  { intros l. unfold Np.set1. by rewrite PyFacts.index_in_range by (simpl; lia). }
  rewrite PyFacts.bind_Return.
  pose proof (gather_loop (power_from env) (replicate (Z.to_nat (size op - 1)) Flt.zero)
                [power]) as Hloop.
  rewrite length_replicate, Z2Nat.id in Hloop by lia.
  change (Z.of_nat (length [power])) with 1 in Hloop.
  change ([power] ++ ?l) with (power :: l) in Hloop.
  simpl. rewrite Hloop. done.
Qed.

Lemma rate_at_scale (rr : ReactionRates.t) (s : flt) i k l :
  rate_at (ReactionRates.scale rr s) i k l = (λ y, Flt.mul y s) <$> rate_at rr i k l.
Proof.
  unfold rate_at, ReactionRates.scale, ReactionRates.map3.
  cbn [ReactionRates.with_rates ReactionRates.rates].
  rewrite list_lookup_fmap. destruct (ReactionRates.rates rr !! i) as [slice|]; [|done].
  csimpl. rewrite list_lookup_fmap. destruct (slice !! k) as [row|]; [|done].
  csimpl. by rewrite list_lookup_fmap.
Qed.

Lemma div_zero_not_finite (x y : flt) :
  Flt.is_finite (Flt.mul y (Flt.div x Flt.zero)) = false.
Proof.
  destruct x as [a| |], y as [b| |]; unfold Flt.div, Flt.mul, Flt.zero; simpl;
    repeat case_bool_decide; done.
Qed.

Lemma div_finite (p w : Qc) : w ≠ 0%Qc → Flt.div (Fin p) (Fin w) = Fin (p / w)%Qc.
Proof. intros Hw. unfold Flt.div. by rewrite bool_decide_eq_false_2. Qed.

Lemma unpack_tallies_and_normalize_spec (op : t) (env : Env) (name : string)
    (k : flt) (rr : ReactionRates.t) (power : flt) :
  unpack_local op (statepoint env) = Return (k, rr, power) →
  (rank op = 0 → 1 ≤ size op) →
  ∃ events,
    unpack_tallies_and_normalize op env name
      = Return (k,
                with_reaction_rates op
                  (ReactionRates.scale rr
                     (Flt.div (Settings.power (settings op)) (global_power op env power))),
                events).
Proof.
  intros Hlocal Hsize. unfold unpack_tallies_and_normalize.
  rewrite Hlocal, PyFacts.bind_Return.
  assert (∃ talk,
            (if decide (rank op = 0) then
               power ← gather_power op env power;
               Return (power, (λ i, Recv i i (MsgFloat (power_from env i))) <$> others op)
             else
               Return (power_bcast env, [Send 0 (rank op) (MsgFloat power)]))
            = Return (global_power op env power, talk)) as (talk & ->).
  { unfold global_power. case_decide as Hrank; [|eauto].
    rewrite gather_power_spec by auto. eauto. }
  rewrite PyFacts.bind_Return. by eexists.
Qed.

(** *** Sums of finite values *)

Lemma sum_scaled_from (s : Qc) (us vs : list flt) :
  Forall2 (λ u v, ∃ q, v = Fin q ∧ u = Fin (s * q)%Qc) us vs →
  ∀ a, ∃ t, foldl Flt.add (Fin a) vs = Fin t ∧ foldl Flt.add (Fin (s * a)%Qc) us = Fin (s * t)%Qc.
Proof.
  induction 1 as [|u v us vs (q & -> & ->) _ IH]; intros a.
  - by exists a.
  - destruct (IH (a + q)%Qc) as (t & Hv & Hu). exists t. simpl.
    unfold Flt.add at 2 4. split; [done|].
    replace (s * a + s * q)%Qc with (s * (a + q))%Qc by ring. done.
Qed.

Lemma sum_scaled (s : Qc) (us vs : list flt) :
  Forall2 (λ u v, ∃ q, v = Fin q ∧ u = Fin (s * q)%Qc) us vs →
  ∃ t, Flt.sum vs = Fin t ∧ Flt.sum us = Fin (s * t)%Qc.
Proof.
  intros Hall. destruct (sum_scaled_from s us vs Hall 0%Qc) as (t & Hv & Hu).
  exists t. unfold Flt.sum, Flt.zero. split; [done|].
  by replace (s * 0)%Qc with 0%Qc in Hu by ring.
Qed.

Lemma Forall2_choice {A B} (R : A → B → Prop) (l : list A) :
  (∀ x, x ∈ l → ∃ y, R x y) → ∃ k, Forall2 R l k.
Proof.
  induction l as [|x l IH]; intros Hall.
  - exists []. constructor.
  - destruct (Hall x) as [y Hy]; [left|].
    destruct IH as [k Hk]; [intros; apply Hall; by right|].
    exists (y :: k). by constructor.
Qed.

(** *** The nuclide of an index *)

Lemma nuclide_of_get (rr : ReactionRates.t) nuc i :
  index_dict (ReactionRates.n_nuc rr) (ReactionRates.nuc_to_ind rr) →
  ODict.get (ReactionRates.nuc_to_ind rr) nuc = Some i →
  nuclide_of rr (Z.to_nat i) = Some nuc.
Proof.
  intros Hd Hget. pose proof (index_dict_get _ _ _ _ Hd Hget) as Hi.
  unfold nuclide_of. rewrite Z2Nat.id by lia.
  destruct (list_find_elem_of (λ e : string * Z, e.2 = i) (ReactionRates.nuc_to_ind rr) (nuc, i))
    as [[j [nuc' i']] Hfind]; [by apply ODictFacts.get_Some_elem|done|].
  rewrite Hfind. csimpl. f_equal.
  apply list_find_Some in Hfind as (Hj & Hi' & _). simpl in Hi'. subst i'.
  eapply index_dict_inj; [done| |done].
  apply ODictFacts.elem_get; [by destruct Hd|]. by eapply list_elem_of_lookup_2.
Qed.

(** *** The power of a rank and its scaled rates *)

Section power.
Context (op : t) (file : Statepoint.t) (s : Qc).
Context (nuc_ind react_ind : list Z) (fission_ind : Z).

Local Abbreviation rr := (reaction_rates op).
Local Abbreviation n := (ReactionRates.n_nuc (reaction_rates op)).
Local Abbreviation m := (ReactionRates.n_react (reaction_rates op)).
Local Abbreviation fi := (Z.to_nat fission_ind).

Hypothesis Hready : unpack_ready op file.
Hypothesis Hfinite : finite_inputs op file.
Hypothesis Hsilent : zero_atoms_silent op file.
Hypothesis Hnuc :
  Forall2 (λ x i, ODict.get (ReactionRates.nuc_to_ind rr) x = Some i)
          (Statepoint.nuclides file) nuc_ind.
Hypothesis Hreact :
  Forall2 (λ x i, ODict.get (ReactionRates.react_to_ind rr) x = Some i)
          (Statepoint.score_bins file) react_ind.
Hypothesis Hfis : ODict.get (ReactionRates.react_to_ind rr) "fission" = Some fission_ind.

Lemma energy_finite k : ∃ q, energy_at op k = Fin q.
Proof.
  destruct Hfinite as (_ & _ & Hchain). unfold energy_at.
  assert (∃ q, Flt.zero = Fin q) as Hzero by (by exists 0%Qc).
  revert Hzero. generalize Flt.zero.
  induction Hchain as [|nuclide l Hfin _ IH]; intros e He; [done|].
  simpl. apply IH. case_decide; [|done].
  destruct (DepletionChain.fission_power nuclide); [eauto|done..].
Qed.

Lemma count_finite mat k : ∃ q, count_at op mat k = Fin q.
Proof.
  destruct Hfinite as (_ & Hnum & _). unfold count_at.
  destruct (nuclide_of rr k) as [nuc|]; csimpl; [|by exists 0%Qc].
  destruct (AtomNumber.number (number op) !! (mat, nuc)) as [c|] eqn:Hc; csimpl;
    [|by exists 0%Qc].
  apply (map_Forall_lookup_1 _ _ _ _ Hnum) in Hc.
  destruct c; [eauto|done..].
Qed.

Lemma count_at_tally mat a nuc i c :
  Statepoint.nuclides file !! a = Some nuc → nuc_ind !! a = Some i →
  AtomNumber.number (number op) !! (mat, nuc) = Some c →
  count_at op mat (Z.to_nat i) = c.
Proof.
  intros Hnuc_a Hi Hc. destruct Hready as (Hd & _).
  pose proof (Forall2_lookup_lr _ _ _ _ _ _ Hnuc Hnuc_a Hi) as Hget. simpl in Hget.
  unfold count_at. rewrite (nuclide_of_get _ _ _ Hd Hget). csimpl. by rewrite Hc.
Qed.

(** The term of the nuclide of index [k] in the power of a material, before
    and after the division and the scaling. *)
Lemma scaled_term mat slab row (f x : nat → nat → flt) (g : nat → flt) k :
  mat ∈ AtomNumber.burn_mat_list (number op) →
  list_find (λ y, y = mat) (pretty <$> Statepoint.bins file) = Some (slab, mat) →
  Statepoint.results file !! slab = Some row →
  (∀ k l, f k l =
     if decide (Z.of_nat k ∈ nuc_ind ∧ Z.of_nat l ∈ react_ind ∧ Flt.ne (g k) Flt.zero = true)
     then Flt.div (x k l) (g k) else x k l) →
  (∀ a b i r, nuc_ind !! a = Some i → react_ind !! b = Some r →
     row !! (a * length react_ind + b)%nat = Some (x (Z.to_nat i) (Z.to_nat r))) →
  (∀ k l, Z.of_nat k ∉ nuc_ind ∨ Z.of_nat l ∉ react_ind → x k l = Flt.zero) →
  (∀ a i nuc c, nuc_ind !! a = Some i → Statepoint.nuclides file !! a = Some nuc →
     AtomNumber.number (number op) !! (mat, nuc) = Some c → react_ind ≠ [] →
     g (Z.to_nat i) = c) →
  ∃ q, Flt.mul (x k fi) (energy_at op k) = Fin q ∧
       Flt.mul (Flt.mul (Flt.mul (f k fi) (Fin s)) (count_at op mat k)) (energy_at op k)
         = Fin (s * q)%Qc.
Proof.
  intros Hmat Hfind Hrow Hf Hset Hframe Hg.
  destruct (energy_finite k) as [e' ->].
  destruct (count_finite mat k) as [c' Hcount].
  pose proof Hready as (Hd & Hrd & _ & _ & _ & _ & _ & _ & Hrows).
  pose proof (index_dict_get _ _ _ _ Hrd Hfis) as Hfrange.
  destruct (decide (Z.of_nat k ∈ nuc_ind ∧ Z.of_nat fi ∈ react_ind)) as [[Hk Hl]|Hout].
  - apply list_elem_of_lookup in Hk as [a Ha], Hl as [b Hb].
    destruct (Forall2_lookup_r _ _ _ _ _ Hnuc Ha) as (nuc & Hnuc_a & Hget_k).
    destruct (Forall2_lookup_r _ _ _ _ _ Hreact Hb) as (react & Hreact_b & Hget_l).
    simpl in Hget_k, Hget_l. rewrite Z2Nat.id in Hget_l, Hb by lia.
    assert (react = "fission") as -> by (by eapply index_dict_inj).
    rewrite Forall_forall in Hrows. destruct (Hrows mat Hmat) as [_ Hnum].
    rewrite Forall_forall in Hnum.
    destruct (Hnum nuc) as [c Hc]; [by eapply list_elem_of_lookup_2|].
    pose proof (Hset a b _ _ Ha Hb) as Hx. rewrite Nat2Z.id in Hx.
    pose proof (Hg a _ nuc c Ha Hnuc_a Hc) as Hgk. rewrite Nat2Z.id in Hgk.
    specialize (Hgk ltac:(by intros ->)).
    pose proof (count_at_tally mat a nuc _ c Hnuc_a Ha Hc) as Hck. rewrite Nat2Z.id in Hck.
    assert (c = Fin c') as -> by congruence.
    assert (∃ x', x k fi = Fin x') as [x' Hx'].
    { destruct Hfinite as (Hres & _). rewrite Forall_forall in Hres.
      specialize (Hres row ltac:(by eapply list_elem_of_lookup_2)).
      rewrite Forall_forall in Hres.
      specialize (Hres _ ltac:(by eapply list_elem_of_lookup_2)).
      destruct (x k fi); [eauto|done..]. }
    rewrite Hf, Hgk, Hcount, Hx'.
    destruct (decide (c' = 0%Qc)) as [->|Hc'].
    + assert (x k fi = Flt.zero) as Hzero.
      { eapply (Hsilent mat a nuc b); [done..|].
        unfold tally_at. rewrite Hfind. csimpl. rewrite Hrow. csimpl.
        by rewrite (Forall2_length _ _ _ Hreact). }
      rewrite Hx' in Hzero. injection Hzero as ->.
      rewrite decide_False.
      2:{ intros (_ & _ & Hne). unfold Flt.ne, Flt.zero in Hne.
          by rewrite bool_decide_eq_false_2 in Hne by (by intros ?). }
      exists (0 * e')%Qc. unfold Flt.mul. split; [done|]. f_equal. ring.
    + rewrite decide_True.
      2:{ split_and!; [by eapply list_elem_of_lookup_2|
                       rewrite Z2Nat.id by lia; by eapply list_elem_of_lookup_2|].
          unfold Flt.ne, Flt.zero. by rewrite bool_decide_eq_true_2. }
      rewrite div_finite by done.
      exists (x' * e')%Qc. unfold Flt.mul. split; [done|]. f_equal. by field.
  - assert (x k fi = Flt.zero) as Hx.
    { apply Hframe. destruct (decide (Z.of_nat k ∈ nuc_ind)); [right|left]; naive_solver. }
    rewrite Hf, decide_False by naive_solver. rewrite Hx, Hcount.
    exists (0 * e')%Qc. unfold Flt.mul, Flt.zero. split; [done|]. f_equal. ring.
Qed.

(** The power of a material, before and after the division and the scaling. *)
Lemma scaled_material mat slab row slice pw :
  mat ∈ AtomNumber.burn_mat_list (number op) →
  list_find (λ y, y = mat) (pretty <$> Statepoint.bins file) = Some (slab, mat) →
  Statepoint.results file !! slab = Some row →
  material_unpacked op (Statepoint.nuclides file) nuc_ind react_ind fi (energy_at op)
                    mat row slice pw →
  ∃ f q,
    array2 n m slice f ∧ pw = Fin q ∧
    Flt.sum ((λ k, Flt.mul (Flt.mul (Flt.mul (f k fi) (Fin s)) (count_at op mat k))
                           (energy_at op k)) <$> seq 0 n)
      = Fin (s * q)%Qc.
Proof.
  intros Hmat Hfind Hrow (f & x & g & Hslice & -> & Hf & Hset & Hframe & Hg & _).
  destruct (sum_scaled s
              ((λ k, Flt.mul (Flt.mul (Flt.mul (f k fi) (Fin s)) (count_at op mat k))
                             (energy_at op k)) <$> seq 0 n)
              ((λ k, Flt.mul (x k fi) (energy_at op k)) <$> seq 0 n)) as (q & Hv & Hu).
  { apply Forall2_fmap, Forall_Forall2_diag, Forall_forall. intros k _.
    by eapply scaled_term. }
  exists f, q. by split_and!.
Qed.

(** The power of a rank, before and after the division and the scaling. *)
Lemma scaled_rank (outs : list (list (list flt) * flt)) (rest : list (list (list flt))) :
  Forall2 (λ mat out, ∃ slab row,
             list_find (λ y, y = mat) (pretty <$> Statepoint.bins file) = Some (slab, mat) ∧
             Statepoint.results file !! slab = Some row ∧
             material_unpacked op (Statepoint.nuclides file) nuc_ind react_ind fi
                               (energy_at op) mat row out.1 out.2)
          (AtomNumber.burn_mat_list (number op)) outs →
  ∃ q,
    Flt.sum outs.*2 = Fin q ∧
    fission_power_of
      (with_reaction_rates op
         (ReactionRates.scale (ReactionRates.with_rates rr (outs.*1 ++ rest)) (Fin s)))
      = Fin (s * q)%Qc.
Proof.
  intros Houts.
  pose proof Hready as (_ & Hrd & _).
  pose proof (index_dict_get _ _ _ _ Hrd Hfis) as Hfrange.
  unfold fission_power_of, sum_owned.
  cbn [with_reaction_rates number reaction_rates ReactionRates.scale ReactionRates.with_rates
       ReactionRates.n_nuc].
  apply sum_scaled. apply Forall2_same_length_lookup_2.
  { rewrite length_imap, length_fmap. by eapply Forall2_length. }
  intros i u v Hu Hv.
  rewrite list_lookup_imap in Hu. rewrite list_lookup_fmap in Hv.
  destruct (AtomNumber.burn_mat_list (number op) !! i) as [mat|] eqn:Hmat; [|done].
  destruct (outs !! i) as [[slice pw]|] eqn:Hout; [|done].
  injection Hu as <-. injection Hv as <-.
  destruct (Forall2_lookup_lr _ _ _ _ _ _ Houts Hmat Hout) as (slab & row & Hfind & Hrow & Hun).
  destruct (scaled_material mat slab row slice pw) as (f & q & Hslice & -> & Hsum);
    [by eapply list_elem_of_lookup_2|done..|].
  exists q. split; [done|]. rewrite <-Hsum. f_equal.
  apply list_fmap_ext. intros j k [Heq Hk]%lookup_seq. simpl in Heq. subst j. simpl.
  do 2 f_equal. unfold fission_rate, fission_index.
  cbn [with_reaction_rates reaction_rates ReactionRates.scale ReactionRates.with_rates
       ReactionRates.react_to_ind].
  rewrite Hfis. simpl.
  pose proof (rate_at_scale (ReactionRates.with_rates rr (outs.*1 ++ rest)) (Fin s) i k fi)
    as Hscale.
  cbn [ReactionRates.scale ReactionRates.with_rates ReactionRates.rates
       ReactionRates.nuc_to_ind ReactionRates.react_to_ind ReactionRates.n_nuc
       ReactionRates.n_react] in Hscale.
  rewrite Hscale.
  erewrite rate_at_unpacked; [done| |exact Hslice|done|lia].
  by rewrite list_lookup_fmap, Hout.
Qed.

End power.

(** *** The ranks of a run *)

Lemma global_power_run (ops : list t) (env : Env) (target : Qc) i op :
  run_ready ops env target → ops !! i = Some op →
  global_power op env (power_from env (Z.of_nat i)) = power_bcast env.
Proof.
  intros (Hne & Hranks & Hbcast & _) Hop.
  destruct (Hranks i op Hop) as (Hrank & Hsize & _).
  unfold global_power, others. rewrite Hrank, Hsize. case_decide as Hi; [|done].
  assert (i = 0%nat) as -> by lia.
  rewrite Hbcast. rewrite (seqZ_cons 0) by (destruct ops; [done|simpl; lia]).
  csimpl. by rewrite <-Z.sub_1_r.
Qed.

(** What the ingestion leaves on a rank of a run. *)
Lemma rank_normalized (ops : list t) (env : Env) (target w : Qc) i op :
  run_ready ops env target → ops !! i = Some op → power_bcast env = Fin w →
  ∃ q op',
    power_from env (Z.of_nat i) = Fin q ∧
    (∀ name, ∃ k events,
       unpack_tallies_and_normalize op env name = Return (k, op', events)) ∧
    fission_power_of op' = Fin (target / w * q)%Qc.
Proof.
  intros Hrun Hop Hw. pose proof Hrun as (Hne & Hranks & Hbcast & w' & Hw' & Hw0).
  assert (w' = w) as -> by congruence.
  destruct (Hranks i op Hop)
    as (Hrank & Hsize & Htarget & Hready & Hfinite & Hsilent & Hpartial).
  destruct (unpack_local_spec op (statepoint env) Hready)
    as (nuc_ind & react_ind & fission_ind & outs & Hnuc & Hreact & Hfis & _ & Hlocal & Houts).
  unfold partial_power in Hpartial. rewrite Hlocal in Hpartial. injection Hpartial as Hpower.
  destruct (scaled_rank op (statepoint env) (target / w)%Qc nuc_ind react_ind fission_ind
              Hready Hfinite Hsilent Hnuc Hreact Hfis outs
              (drop (length (AtomNumber.burn_mat_list (number op)))
                 (ReactionRates.map3 (λ _, Flt.zero) (ReactionRates.rates (reaction_rates op))))
              Houts) as (q & Hq & Hscaled).
  exists q. eexists. split_and!; [congruence| |exact Hscaled].
  intros name.
  destruct (unpack_tallies_and_normalize_spec op env name _ _ _ Hlocal) as (events & Hnorm).
  { intros _. rewrite Hsize. destruct ops; [done|simpl; lia]. }
  do 2 eexists. rewrite Hnorm. do 3 f_equal.
  rewrite Hpower, (global_power_run ops env target i op Hrun Hop), Hw, Htarget.
  by rewrite div_finite.
Qed.

Lemma normalized_exists (ops : list t) (env : Env) (target : Qc) :
  run_ready ops env target → ∃ ops', normalized ops env ops'.
Proof.
  intros Hrun. pose proof Hrun as (_ & _ & _ & w & Hw & _).
  apply Forall2_choice. intros op [i Hop]%list_elem_of_lookup.
  destruct (rank_normalized ops env target w i op Hrun Hop Hw) as (q & op' & _ & Hnorm & _).
  destruct (Hnorm "statepoint.h5") as (k & events & Hk).
  by exists op', k, "statepoint.h5", events.
Qed.

(** *** The measured power of a run *)

(** What [unpack_tallies_and_normalize] returns and what the rank says and
    hears on the way. *)
Lemma unpack_tallies_and_normalize_events (op : t) (env : Env) (name : string)
    (k : flt) (rr : ReactionRates.t) (power : flt) :
  unpack_local op (statepoint env) = Return (k, rr, power) →
  (rank op = 0 → 1 ≤ size op) →
  unpack_tallies_and_normalize op env name
    = Return (k,
              with_reaction_rates op
                (ReactionRates.scale rr
                   (Flt.div (Settings.power (settings op)) (global_power op env power))),
              [OpenStatepoint name]
                ++ (if decide (rank op = 0)
                    then (λ i, Recv i i (MsgFloat (power_from env i))) <$> others op
                    else [Send 0 (rank op) (MsgFloat power)])
                ++ [Bcast 0 (MsgFloat (global_power op env power))]).
Proof.
  intros Hlocal Hsize. unfold unpack_tallies_and_normalize, global_power.
  rewrite Hlocal, PyFacts.bind_Return.
  case_decide as Hrank; [|done].
  by rewrite gather_power_spec by auto.
Qed.

(** The sum that rank 0 forms is that of the parts of all ranks. *)
Lemma global_power_rank0 (op : t) (env : Env) (n : nat) :
  rank op = 0 → size op = Z.of_nat n → n ≠ 0%nat →
  global_power op env (power_from env 0) = Flt.sum (power_from env <$> seqZ 0 (Z.of_nat n)).
Proof.
  intros Hrank Hsize Hn. unfold global_power, others. rewrite Hsize.
  rewrite decide_True by done. rewrite (seqZ_cons 0) by lia.
  csimpl. by rewrite <-Z.sub_1_r.
Qed.

Lemma partial_power_Some (op : t) (file : Statepoint.t) (power : flt) :
  partial_power op file = Some power →
  ∃ k rr, unpack_local op file = Return (k, rr, power).
Proof.
  unfold partial_power.
  destruct (unpack_local op file) as [[[k rr] p]| |]; [|done..].
  intros [= <-]. eauto.
Qed.

Lemma measured_power_coherent (ops : list t) (env : Env) :
  run_coherent ops env →
  measured_power ops (statepoint env)
    = Flt.sum (power_from env <$> seqZ 0 (Z.of_nat (length ops))).
Proof.
  intros (_ & Hranks & _). unfold measured_power. f_equal.
  apply list_eq. intros i. rewrite !list_lookup_fmap.
  destruct (ops !! i) as [op|] eqn:Hop.
  - destruct (Hranks i op Hop) as (_ & _ & Hpower).
    rewrite lookup_seqZ_lt by (apply lookup_lt_Some in Hop; lia).
    csimpl. by rewrite Hpower, Z.add_0_l.
  - rewrite lookup_seqZ_ge by (apply lookup_ge_None in Hop; lia). done.
Qed.

(** On every rank of a coherent run the power of all ranks is the measured
    power of the run. *)
Lemma global_power_coherent (ops : list t) (env : Env) i op :
  run_coherent ops env → ops !! i = Some op →
  global_power op env (power_from env (Z.of_nat i)) = measured_power ops (statepoint env).
Proof.
  intros Hrun Hop. rewrite (measured_power_coherent ops env Hrun).
  pose proof Hrun as (Hne & Hranks & Hbcast).
  assert (∃ op0, ops !! 0%nat = Some op0) as [op0 Hop0].
  { destruct ops; [done|]. eauto. }
  destruct (Hranks 0%nat op0 Hop0) as (Hrank0 & Hsize0 & Hpower0).
  assert (length ops ≠ 0%nat) as Hlen by (by destruct ops).
  pose proof (global_power_rank0 op0 env (length ops) Hrank0 Hsize0 Hlen) as Hsum.
  destruct (Hranks i op Hop) as (Hrank & Hsize & Hpower).
  destruct (decide (i = 0%nat)) as [->|Hi].
  - assert (op = op0) as -> by congruence. done.
  - rewrite <-Hsum. unfold global_power at 1. rewrite decide_False by lia.
    destruct (partial_power_Some _ _ _ Hpower0) as (k0 & rr0 & Hlocal0).
    pose proof (unpack_tallies_and_normalize_events op0 env "statepoint.h5" k0 rr0 _ Hlocal0
                  ltac:(lia)) as Hrun0.
    apply Hbcast in Hrun0; [|done].
    rewrite decide_True in Hrun0 by done.
    apply elem_of_app in Hrun0 as [Hin|Hin]; [by apply list_elem_of_singleton in Hin|].
    apply elem_of_app in Hin as [Hin|Hin].
    + by apply list_elem_of_fmap in Hin as (j & ? & _).
    + apply list_elem_of_singleton in Hin. by injection Hin.
Qed.

End UnpackFacts.
(** ** More facts on the ingestion of the tallies *)

Module IngestFacts.
Import OpenMCOperator UnpackSpec UnpackFacts IngestSpec.

(** The entries of the slice of a material for the bins of the tally. *)
Lemma unpack_local_entry (op : t) (file : Statepoint.t) :
  unpack_ready op file →
  ∃ rr power,
    unpack_local op file = Return (Statepoint.k_combined file, rr, power) ∧
    ∀ i mat a nuc b react c,
      AtomNumber.burn_mat_list (number op) !! i = Some mat →
      Statepoint.nuclides file !! a = Some nuc →
      Statepoint.score_bins file !! b = Some react →
      AtomNumber.number (number op) !! (mat, nuc) = Some c →
      ∃ k l x,
        ODict.get (ReactionRates.nuc_to_ind (reaction_rates op)) nuc = Some (Z.of_nat k) ∧
        ODict.get (ReactionRates.react_to_ind (reaction_rates op)) react = Some (Z.of_nat l) ∧
        tally_at file mat a b = Some x ∧
        rate_at rr i k l = Some (if Flt.ne c Flt.zero then Flt.div x c else x).
Proof.
  intros Hready.
  destruct (unpack_local_spec op file Hready)
    as (nuc_ind & react_ind & fission_ind & outs & Hnuc & Hreact & _ & _ & Hrun & Houts).
  destruct Hready as (Hnd & Hrd & _).
  do 2 eexists. split; [exact Hrun|].
  intros i mat a nuc b react c Hmat Hnuc_a Hreact_b Hc.
  destruct (Forall2_lookup_l _ _ _ _ _ Houts Hmat)
    as ([slice pw] & Hout & slab & row & Hfind & Hrow & f & x & g &
        Hslice & _ & Hf & Hset & _ & Hg & _).
  destruct (Forall2_lookup_l _ _ _ _ _ Hnuc Hnuc_a) as (ki & Hki & Hget_k).
  destruct (Forall2_lookup_l _ _ _ _ _ Hreact Hreact_b) as (li & Hli & Hget_l).
  pose proof (index_dict_get _ _ _ _ Hnd Hget_k) as Hk.
  pose proof (index_dict_get _ _ _ _ Hrd Hget_l) as Hl.
  simpl in Hslice, Hf, Hset, Hg.
  exists (Z.to_nat ki), (Z.to_nat li), (x (Z.to_nat ki) (Z.to_nat li)).
  rewrite !Z2Nat.id by lia. split_and!; [done|done| |].
  - unfold tally_at. rewrite Hfind. csimpl. rewrite Hrow. csimpl.
    rewrite (Forall2_length _ _ _ Hreact). by apply Hset.
  - erewrite rate_at_unpacked; [|by rewrite list_lookup_fmap, Hout|exact Hslice|lia|lia].
    f_equal. rewrite Hf.
    rewrite (Hg a ki nuc c Hki Hnuc_a Hc) by (by intros ->).
    destruct (Flt.ne c Flt.zero) eqn:Hne.
    + rewrite decide_True; [done|].
      rewrite !Z2Nat.id by lia. split_and!; [|by eapply list_elem_of_lookup_2..|done].
      by eapply list_elem_of_lookup_2.
    + rewrite decide_False; [done|]. by intros (_ & _ & ?).
Qed.



(** *** Where the ingestion raises *)

Lemma mapM_getitem_unknown (d : ODict.t string Z) (known : list string) bad rest :
  Forall (λ x, x ∈ ODict.keys d) known → bad ∉ ODict.keys d →
  mapM (ODict.getitem d) (known ++ bad :: rest) = Raise (KeyError bad).
Proof.
  intros Hknown Hbad. induction Hknown as [|x known Hx _ IH].
  - change (mapM (ODict.getitem d) ([] ++ bad :: rest))
      with (y ← ODict.getitem d bad; k ← mapM (ODict.getitem d) rest; mret (y :: k)).
    assert (ODict.getitem d bad = Raise (KeyError bad)) as ->; [|done].
    unfold ODict.getitem. destruct (ODict.get d bad) eqn:Hget; [|done].
    exfalso. apply Hbad. apply ODictFacts.get_Some_elem in Hget.
    apply list_elem_of_fmap. by eexists (_, _).
  - change (mapM (ODict.getitem d) ((x :: known) ++ bad :: rest))
      with (y ← ODict.getitem d x; k ← mapM (ODict.getitem d) (known ++ bad :: rest);
            mret (y :: k)).
    rewrite IH. unfold ODict.getitem.
    destruct (ODict.get d x) eqn:Hget; [done|]. by apply ODictFacts.get_None in Hget.
Qed.

(** Up to the loop over the materials, [unpack_local] goes through when the
    tally is known. *)
Lemma unpack_local_loop (op : t) (file : Statepoint.t) :
  tally_known op file →
  ∃ nuc_ind react_ind fission_ind power_vec,
    length nuc_ind = length (Statepoint.nuclides file) ∧
    Forall (λ i, 0 ≤ i < Z.of_nat (ReactionRates.n_nuc (reaction_rates op))) nuc_ind ∧
    NoDup nuc_ind ∧
    length react_ind = length (Statepoint.score_bins file) ∧
    Forall (λ r, 0 ≤ r < Z.of_nat (ReactionRates.n_react (reaction_rates op))) react_ind ∧
    NoDup react_ind ∧
    0 ≤ fission_ind < Z.of_nat (ReactionRates.n_react (reaction_rates op)) ∧
    array1 (ReactionRates.n_nuc (reaction_rates op)) power_vec (energy_at op) ∧
    unpack_local op file =
      (out ← for_each (unpack_material op file (pretty <$> Statepoint.bins file)
                         (Statepoint.nuclides file) nuc_ind react_ind fission_ind power_vec)
                      (imap pair (AtomNumber.burn_mat_list (number op)))
                      (ReactionRates.fill (reaction_rates op) Flt.zero, Flt.zero);
       Return (Statepoint.k_combined file, out.1, out.2)).
Proof.
  intros (Hnd & Hrd & Hnucs & Hnuc_in & Hreacts & Hreact_in & Hfis).
  destruct (mapM_getitem _ _ Hnuc_in) as (nuc_ind & Hnuc_run & Hnuc_ind).
  destruct (mapM_getitem _ _ Hreact_in) as (react_ind & Hreact_run & Hreact_ind).
  destruct (indices_ok _ _ _ _ Hnd Hnucs Hnuc_ind) as [Hnuc_nodup Hnuc_range].
  destruct (indices_ok _ _ _ _ Hrd Hreacts Hreact_ind) as [Hreact_nodup Hreact_range].
  destruct (ODict.get (ReactionRates.react_to_ind (reaction_rates op)) "fission")
    as [fission_ind|] eqn:Hfget.
  2:{ by apply ODictFacts.get_None in Hfget. }
  pose proof (index_dict_get _ _ _ _ Hrd Hfget) as Hfrange.
  destruct (fission_power_vec_spec op Hnd) as (power_vec & Hpv_run & Hpv).
  exists nuc_ind, react_ind, fission_ind, power_vec.
  split; [by erewrite <-Forall2_length|].
  do 2 (split; [done|]). split; [by erewrite <-Forall2_length|].
  do 4 (split; [done|]).
  unfold unpack_local. cbn [ReactionRates.fill ReactionRates.with_rates
    ReactionRates.nuc_to_ind ReactionRates.react_to_ind].
  rewrite Hnuc_run, PyFacts.bind_Return, Hreact_run, PyFacts.bind_Return.
  unfold ODict.getitem. rewrite Hfget, PyFacts.bind_Return, Hpv_run, PyFacts.bind_Return.
  match goal with |- (?m ≫= _) = _ => destruct m as [[rr power]| |] end; done.
Qed.

Lemma unpack_local_unknown_nuclide (op : t) (file : Statepoint.t) known bad rest :
  Statepoint.nuclides file = known ++ bad :: rest →
  Forall (λ nuc, nuc ∈ ODict.keys (ReactionRates.nuc_to_ind (reaction_rates op))) known →
  bad ∉ ODict.keys (ReactionRates.nuc_to_ind (reaction_rates op)) →
  unpack_local op file = Raise (KeyError bad).
Proof.
  intros Hnucs Hknown Hbad. unfold unpack_local.
  cbn [ReactionRates.fill ReactionRates.with_rates ReactionRates.nuc_to_ind].
  by rewrite Hnucs, (mapM_getitem_unknown _ _ _ _ Hknown Hbad).
Qed.

Lemma unpack_local_no_fission (op : t) (file : Statepoint.t) :
  Forall (λ nuc, nuc ∈ ODict.keys (ReactionRates.nuc_to_ind (reaction_rates op)))
         (Statepoint.nuclides file) →
  Forall (λ react, react ∈ ODict.keys (ReactionRates.react_to_ind (reaction_rates op)))
         (Statepoint.score_bins file) →
  "fission" ∉ ODict.keys (ReactionRates.react_to_ind (reaction_rates op)) →
  unpack_local op file = Raise (KeyError "fission").
Proof.
  intros Hnuc_in Hreact_in Hfis.
  destruct (mapM_getitem _ _ Hnuc_in) as (nuc_ind & Hnuc_run & _).
  destruct (mapM_getitem _ _ Hreact_in) as (react_ind & Hreact_run & _).
  unfold unpack_local. cbn [ReactionRates.fill ReactionRates.with_rates
    ReactionRates.nuc_to_ind ReactionRates.react_to_ind].
  rewrite Hnuc_run, PyFacts.bind_Return, Hreact_run, PyFacts.bind_Return.
  unfold ODict.getitem.
  destruct (ODict.get (ReactionRates.react_to_ind (reaction_rates op)) "fission") eqn:Hget;
    [|done].
  exfalso. apply Hfis. apply ODictFacts.get_Some_elem in Hget.
  apply list_elem_of_fmap. by eexists (_, _).
Qed.

Lemma unpack_local_missing_bin (op : t) (file : Statepoint.t) ok bad rest :
  tally_known op file →
  AtomNumber.burn_mat_list (number op) = ok ++ bad :: rest →
  Forall (row_ready op file) ok →
  (length ok ≤ length (ReactionRates.rates (reaction_rates op)))%nat →
  bad ∉ (pretty <$> Statepoint.bins file : list string) →
  unpack_local op file = Raise ValueError.
Proof.
  intros Hknown Hmats Hok Hlen Hbad.
  destruct (unpack_local_loop op file Hknown)
    as (nuc_ind & react_ind & fission_ind & power_vec & H1 & H2 & H3 & H4 & H5 & H6 & H7 & H8
        & ->).
  rewrite Hmats, imap_app, PyFacts.for_each_app.
  destruct (unpack_materials_spec op file nuc_ind react_ind fission_ind power_vec (energy_at op)
              H1 H2 H3 H4 H5 H6 H7 H8 ok 0
              (ReactionRates.fill (reaction_rates op) Flt.zero) Flt.zero Hok)
    as (outs & Hrun & _).
  { simpl. unfold ReactionRates.map3. rewrite length_fmap. lia. }
  erewrite imap_ext in Hrun; [|intros a y _; simpl; reflexivity].
  rewrite Hrun, PyFacts.bind_Return. rewrite imap_cons. cbn [for_each].
  unfold unpack_material at 2, list_index. cbn [compose].
  assert (list_find (λ y, y = bad) (pretty <$> Statepoint.bins file : list string) = None)
    as ->; [|done].
  apply list_find_None, Forall_forall. by intros y Hy ->.
Qed.

End IngestFacts.
(** ** The decomposition: claims C1, C5 and C7 *)

Section decomposition.
Import Decompose DecomposeSpec DecomposeFacts.

(** C1: for every number [size] of ranks, [extract_mat_ids] splits the sorted
    list of the [n] burnable ids, and separately that of the non-burnable
    ids, into [size] contiguous chunks: rank [i] gets [n / size + 1] ids when
    [i < n mod size] and [n / size] otherwise, so any two chunks differ by at
    most one id in length, and the chunks concatenated in rank order are the
    sorted list again. *)
Theorem partition_balanced (geometry : Geometry) (chain : ODict.t string Z) (size : Z) :
  0 < size →
  need_vol (volume (scan_geometry geometry)) = [] →
  partition_ok geometry chain size.
Proof.
  intros Hsize Hvol. unfold partition_ok.
  destruct (PyStrFacts.sorted_spec (mat_burn (scan_geometry geometry))) as (Hs1 & _ & He1).
  destruct (PyStrFacts.sorted_spec (mat_not_burn (scan_geometry geometry))) as (Hs2 & _ & He2).
  split_and!; [done|done| | |].
  - intros x. by rewrite He1, mat_burn_spec.
  - intros x. by rewrite He2, mat_not_burn_spec.
  - unfold extract_mat_ids. rewrite Hvol. rewrite decide_False by (by intros ?).
    destruct (decompose_balanced (PyStr.sorted (mat_burn (scan_geometry geometry))) size Hsize)
      as (l1 & -> & Hb1).
    destruct (decompose_balanced (PyStr.sorted (mat_not_burn (scan_geometry geometry))) size Hsize)
      as (l2 & -> & Hb2).
    simpl. eexists. split; [done|]. by split.
Qed.

Lemma partition_balanced_witness :
  partition_ok Demo.geometry Demo.chain_nuclide_dict 3.
Proof.
  apply (partition_balanced Demo.geometry Demo.chain_nuclide_dict 3).
  - lia.
  - vm_compute. reflexivity.
Defined.

(** C5: the global nuclide dictionary built by [extract_mat_ids] keeps the
    chain's entries, in chain order, at the lowest indices, and appends the
    geometry's nuclides that the chain lacks in sorted order, each with the
    next consecutive index; the result has no duplicate name and is an
    injective map onto [0 .. len - 1]. *)
Theorem nuclide_index_built (geometry : Geometry) (chain : ODict.t string Z) :
  chain_order chain →
  let d := build_nuc_dict chain (PyStr.sorted (nuc_set (scan_geometry geometry))) in
  nuclide_index_ok chain d (nuc_set (scan_geometry geometry)) ∧
  (∀ x, x ∈ nuc_set (scan_geometry geometry) ↔
     ∃ m, m ∈ materials_of geometry ∧ x ∈ (mat_nuclides m).*1) ∧
  (∀ size res, extract_mat_ids geometry chain size = Return res → nuc_dict res = d).
Proof.
  intros Hchain d. split_and!.
  - by apply build_nuc_dict_ok.
  - apply nuc_set_spec.
  - intros size res. unfold extract_mat_ids. case_decide; [done|].
    cbv [mbind py_bind].
    destruct (decompose (PyStr.sorted (mat_burn _)) size) as [l1| |]; [|done..].
    destruct (decompose (PyStr.sorted (mat_not_burn _)) size) as [l2| |]; [|done..].
    by intros [= <-].
Qed.

Lemma nuclide_index_built_witness :
  let d := build_nuc_dict Demo.chain_nuclide_dict
             (PyStr.sorted (nuc_set (scan_geometry Demo.geometry))) in
  d = [("U238", 0); ("U235", 1); ("Xe135", 2); ("H1", 3); ("O16", 4)] ∧
  nuclide_index_ok Demo.chain_nuclide_dict d (nuc_set (scan_geometry Demo.geometry)).
Proof.
  split; [vm_compute; reflexivity|].
  apply (nuclide_index_built Demo.geometry Demo.chain_nuclide_dict).
  split; [|vm_compute; reflexivity].
  unfold ODict.keys. compute_done.
Defined.

(** C7: when some burnable material has no volume, [extract_mat_ids] exits
    with a message that lists the id of every such material; when none lacks
    a volume it does not exit, and returns for any positive number of
    ranks. *)
Theorem missing_volume_exits (geometry : Geometry) (chain : ODict.t string Z) (size : Z) :
  ids_consistent geometry →
  ((∃ m, missing_volume geometry m) →
     ∃ ids, extract_mat_ids geometry chain size
              = SystemExit ("Need volumes for materials: " +:+ PyStr.str_list ids) ∧
            NoDup ids ∧
            ∀ x, x ∈ ids ↔ ∃ m, missing_volume geometry m ∧ pretty (mat_id m) = x) ∧
  ((∀ m, ¬ missing_volume geometry m) →
     (∀ msg, extract_mat_ids geometry chain size ≠ SystemExit msg) ∧
     (0 < size → ∃ res, extract_mat_ids geometry chain size = Return res)).
Proof.
  intros Hc.
  assert (∀ x, x ∈ need_vol (volume (scan_geometry geometry)) ↔
               ∃ m, missing_volume geometry m ∧ pretty (mat_id m) = x) as Hneed.
  { intros x. rewrite need_vol_geometry by done. unfold missing_volume. naive_solver. }
  split.
  - intros (m & Hm). exists (need_vol (volume (scan_geometry geometry))).
    split_and!; [|apply need_vol_NoDup, volume_NoDup|done].
    unfold extract_mat_ids. rewrite decide_True; [done|].
    intros Hnil. specialize (Hneed (pretty (mat_id m))). rewrite Hnil in Hneed.
    eapply elem_of_nil, Hneed. eauto.
  - intros Hnone.
    assert (need_vol (volume (scan_geometry geometry)) = []) as Hnil.
    { apply elem_of_nil_inv. intros x (m & Hm & _)%Hneed. by eapply Hnone. }
    split.
    + intros msg. unfold extract_mat_ids. rewrite Hnil.
      rewrite decide_False by (by intros ?).
      unfold decompose, PyList.divmod. case_decide; simpl; done.
    + intros Hsize.
      destruct (partition_balanced geometry chain size Hsize Hnil)
        as (_ & _ & _ & _ & res & Hres & _).
      by exists res.
Qed.

Lemma missing_volume_exits_witness :
  extract_mat_ids Demo.geometry_no_volume Demo.chain_nuclide_dict 2
    = SystemExit "Need volumes for materials: ['10', '3']" ∧
  ∃ ids, extract_mat_ids Demo.geometry_no_volume Demo.chain_nuclide_dict 2
           = SystemExit ("Need volumes for materials: " +:+ PyStr.str_list ids) ∧
         NoDup ids ∧
         ∀ x, x ∈ ids ↔
           ∃ m, missing_volume Demo.geometry_no_volume m ∧ pretty (mat_id m) = x.
Proof.
  split; [vm_compute; reflexivity|].
  apply (missing_volume_exits Demo.geometry_no_volume Demo.chain_nuclide_dict 2).
  - intros m1 m2 H1 H2 _ _ Hid.
    unfold materials_of, scan_items in H1, H2. simpl in H1, H2.
    rewrite !elem_of_cons, elem_of_nil in H1, H2.
    destruct H1 as [->|[->|[->|[->|[]]]]], H2 as [->|[->|[->|[->|[]]]]];
      (reflexivity || discriminate Hid).
  - exists (Demo.material 10 true None [("U235", Fin 1)]).
    split; [|done]. unfold materials_of, scan_items. simpl. left.
Defined.

End decomposition.

(** ** The materials document: claims C3 and C9 *)

Section materials_document.
Import OpenMCOperator MaterialsSpec MaterialsFacts.

(** Goes through the cases of a membership in a list that is written out. *)
Local Ltac elem_cases H :=
  repeat (apply elem_of_cons in H as [H|H]; [try (injection H as -> ->); subst|]);
  [..|by apply elem_of_nil in H].

Lemma clamped_true participating n mat nuc :
  clamped participating n mat nuc = true ↔
  nuc ∈ participating ∧ ∃ val, nuclide_val n mat nuc = Some val ∧ Flt.gt val Flt.zero = false.
Proof.
  unfold clamped. rewrite andb_true_iff, bool_decide_eq_true.
  destruct (nuclide_val n mat nuc) as [val|].
  - rewrite negb_true_iff. naive_solver.
  - naive_solver.
Qed.

(** The run of the loops on a well-formed operator, and the warnings it
    prints about a nuclide of a material. *)
Lemma density_clamping_run (op : t) :
  well_formed op →
  ∃ number' xml out,
    materials_fragments op = Return (number', xml, out) ∧
    ∀ nuc mat,
      warnings_about out nuc mat =
        if decide (mat ∈ ODict.keys (AtomNumber.mat_to_ind (number op)) ∧
                   nuc ∈ ODict.keys (AtomNumber.nuc_to_ind (number op)))
        then option_list (warning_of (participating_nuclides op) (number op) mat nuc)
        else [].
Proof.
  intros Hwf. pose proof Hwf as (Hmats & Hnucs & Hsome & Hmat).
  rewrite materials_fragments_spec by done.
  do 3 eexists. split; [done|].
  intros nuc mat. unfold warnings_of. by rewrite warnings_about_concat.
Qed.

Lemma density_clamping_demo_well_formed : well_formed Demo.noisy.
Proof.
  split_and!.
  - compute_done.
  - compute_done.
  - intros mat nuc Hmat Hnuc. vm_compute in Hmat, Hnuc.
    elem_cases Hmat; elem_cases Hnuc; vm_compute; eauto.
  - intros mat mat_id Hin. vm_compute in Hin.
    elem_cases Hin; vm_compute; eauto.
Qed.

(** C3, as the code has it: for every participating nuclide of every
    material, a value that is neither positive nor below -1e-21 is stored as
    zero without a warning, a value below -1e-21 is stored as zero with
    exactly one warning that names the nuclide, the material and the value,
    and the document has an entry for the nuclide exactly when the value is
    positive. *)
Theorem density_clamping (op : t) :
  well_formed op → clamping_ok op.
Proof.
  intros Hwf. pose proof Hwf as (Hmats & Hnucs & Hsome & Hmat).
  unfold clamping_ok. rewrite materials_fragments_spec by done.
  do 3 eexists. split; [done|].
  intros mat nuc val Hmat_in Hnuc_in Hpart Hval. split.
  - rewrite has_entry_spec. unfold entry_of.
    rewrite decide_True, Hval by done. simpl.
    destruct (Flt.gt val Flt.zero).
    + split; [done|]. intros _. split_and!; [done..|eauto].
    + split; [|done]. by intros (_ & _ & [? ?]).
  - intros Hgt. split.
    + cbn [AtomNumber.with_number AtomNumber.number]. rewrite clamp_all_lookup.
      rewrite decide_True; [done|]. split_and!; [done..|].
      apply clamped_true. eauto.
    + unfold warnings_of. rewrite warnings_about_concat by done.
      rewrite decide_True by done. unfold warning_of.
      rewrite decide_True, Hval by done. simpl. rewrite Hgt.
      by destruct (Flt.lt val Flt.minus_e_minus_21).
Qed.

Lemma density_clamping_witness : clamping_ok Demo.noisy.
Proof.
  apply (density_clamping Demo.noisy), density_clamping_demo_well_formed.
Defined.

(** C3 as it is stated fails at the bound: a value of exactly -1e-21 is
    stored as zero without a warning. *)
Lemma density_clamping_bound_silent : ¬ clamping_claimed Demo.noisy.
Proof.
  intros Hclaim.
  destruct (density_clamping_run Demo.noisy) as (number' & xml & out & Hrun & Hout).
  { apply density_clamping_demo_well_formed. }
  destruct (Hclaim number' xml out Hrun "1" "U235" Flt.minus_e_minus_21)
    as (_ & Hwarn & _).
  - vm_compute. left.
  - vm_compute. left.
  - vm_compute. reflexivity.
  - vm_compute. do 2 f_equal. by apply Qc_is_canon.
  - destruct Hwarn as (_ & w & Hw); [vm_compute; reflexivity|].
    rewrite (Hout "U235" "1") in Hw.
    vm_compute in Hw. discriminate Hw.
Qed.

(** C9: [generate_materials_xml] writes to the density state: it stores zero
    for every participating nuclide of every material whose value is not
    positive, and leaves every other stored number, and everything else the
    operator holds, as it was. *)
Theorem materials_xml_clamps_state (op : t) (env : Env) :
  well_formed op →
  ∃ op' events, generate_materials_xml op env = Return (op', events) ∧ clamps_state op op'.
Proof.
  intros Hwf. unfold generate_materials_xml.
  rewrite materials_fragments_spec by done. rewrite PyFacts.bind_Return.
  cbn [rank with_number].
  set (number' := clamp_all _ _ _ _).
  assert (clamps_state op (with_number op (AtomNumber.with_number (number op) number')))
    as Hstate.
  { unfold clamps_state. cbn [with_number number AtomNumber.with_number AtomNumber.number].
    split_and!; [| |done].
    - intros mat nuc val Hmat Hnuc Hpart Hval Hgt. unfold number'.
      rewrite clamp_all_lookup. rewrite decide_True; [done|].
      split_and!; [done..|]. apply clamped_true. eauto.
    - intros mat nuc Hno. unfold number'. rewrite clamp_all_lookup.
      rewrite decide_False; [done|]. intros (Hmat & Hnuc & Hc).
      apply clamped_true in Hc as [Hpart Hval]. apply Hno. eauto. }
  case_decide; eauto.
Qed.

Lemma materials_xml_clamps_state_witness :
  ∃ op' events,
    generate_materials_xml Demo.noisy (Demo.env (Demo.q 0) (Demo.q 1)) = Return (op', events) ∧
    clamps_state Demo.noisy op'.
Proof.
  apply (materials_xml_clamps_state Demo.noisy), density_clamping_demo_well_formed.
Defined.

End materials_document.

(** ** A step of the operator: claims C6 and C8 *)

Section step.
Import OpenMCOperator EvalSpec EvalFacts.

(** C8, as the code has it: the seed of a run is the configured constant
    seed, or else the one drawn; rank 0 writes it to the settings, records
    it in the operator and returns it from the step, while any other rank
    writes no settings and returns the seed it held before the step. *)
Theorem seed_of_step (op : t) (env : Env) (vec : list (list flt)) (print_out : bool)
    (out : outcome) :
  eval op env vec print_out = Return out → seed_recorded op env out.
Proof.
  intros (n1 & n2 & rr & mx & tx & talk & power & k & Hmx & Htx & Htalk & ->)%eval_inv.
  unfold seed_recorded.
  assert (∀ l, settings_written (mx ++ tx ++ l) = settings_written l) as Hpre.
  { intros l. rewrite !settings_written_app.
    by rewrite !settings_written_input_events by done. }
  rewrite Hpre. rewrite !settings_written_app.
  rewrite (settings_written_power_talk talk) by done.
  unfold generate_settings_xml. cbn [rank with_number settings].
  destruct (decide (rank op = 0)) as [Hrank|Hrank].
  - rewrite decide_False by (by intros ?).
    cbn [fst snd with_seed seed with_reaction_rates].
    rewrite settings_written_app, settings_written_sends.
    split; [|done]. intros _.
    split_and!; [done..|]. by destruct print_out.
  - rewrite decide_True by done.
    cbn [fst snd with_seed seed with_reaction_rates with_number].
    rewrite settings_written_wait. split; [done|]. by intros _.
Qed.

Lemma seed_of_step_witness :
  ∃ out,
    eval Demo.rank0 (Demo.env (Demo.q 15) (Demo.q 45))
         [[Demo.q 2; Demo.q 1]; [Demo.q 2; Demo.q 1]] true = Return out ∧
    out.1.1.2 = 42 ∧
    seed_recorded Demo.rank0 (Demo.env (Demo.q 15) (Demo.q 45)) out.
Proof.
  eexists. split; [vm_compute; reflexivity|]. split; [reflexivity|].
  apply (seed_of_step Demo.rank0 _ [[Demo.q 2; Demo.q 1]; [Demo.q 2; Demo.q 1]] true).
  vm_compute. reflexivity.
Defined.

(** C8 as it is stated fails on a rank other than 0: rank 1 of a run whose
    configured seed is 42 returns the seed 0 it was created with. *)
Lemma seed_of_step_rank1 :
  ∃ out,
    eval Demo.rank1 (Demo.env (Demo.q 15) (Demo.q 45)) [[Demo.q 2; Demo.q 1]] true
      = Return out ∧
    ¬ seed_claimed Demo.rank1 (Demo.env (Demo.q 15) (Demo.q 45)) out.
Proof.
  eexists. split; [vm_compute; reflexivity|].
  unfold seed_claimed. intros [Hseed _]. vm_compute in Hseed. discriminate Hseed.
Qed.

(** C6, as the code has it: in a step that returns, a rank goes from the
    end of the run to the opening of the statepoint without a barrier; the
    barrier of the step comes after the ingestion, the exchange of the
    partial powers and the broadcast of their total, and before rank 0
    removes the statepoint. *)
Theorem barrier_of_step (op : t) (env : Env) (vec : list (list flt)) (print_out : bool)
    (out : outcome) :
  eval op env vec print_out = Return out → barrier_after_normalization op out.
Proof.
  intros (n1 & n2 & rr & mx & tx & talk & power & k & Hmx & Htx & Htalk & ->)%eval_inv.
  unfold barrier_after_normalization, before_ingestion. cbn [snd].
  set (op12 := with_number (with_number op n1) n2).
  set (name := "statepoint." +:+ pretty (Settings.batches (settings op)) +:+ ".h5").
  pose proof (input_events_skip is_completion mx input_event_not_completion Hmx) as Hmx_c.
  pose proof (input_events_skip is_completion tx input_event_not_completion Htx) as Htx_c.
  pose proof (input_events_skip is_open mx input_event_not_open Hmx) as Hmx_o.
  pose proof (input_events_skip is_open tx input_event_not_open Htx) as Htx_o.
  pose proof (settings_event_skip is_completion op12 env ltac:(done)) as Hsx_c.
  pose proof (settings_event_skip is_open op12 env ltac:(done)) as Hsx_o.
  rewrite !(after_skip is_completion) by done.
  rewrite !(after_skip is_open mx), !(after_skip is_open tx), !(after_skip is_open _ _ Hsx_o)
    by done.
  destruct (decide (rank op = 0)) as [Hrank|Hrank].
  - rewrite decide_False by (by intros ?). cbn [app after is_completion fmap option_fmap option_map].
    split.
    + eexists. split; [done|].
      rewrite before_skip by (by apply sends_skip). simpl. rewrite app_nil_r.
      intros (i & ? & _)%list_elem_of_fmap. done.
    + rewrite after_skip by (by apply sends_skip). simpl.
      exists name, talk, power, ([Remove name] ++ (if print_out then [PrintTimes] else [])).
      split_and!.
      * by rewrite <-!app_assoc.
      * done.
      * destruct print_out; intros Hin; repeat (apply elem_of_cons in Hin as [?|Hin]; [done|]);
          by apply elem_of_nil in Hin.
      * intros _. eauto.
      * done.
  - rewrite decide_True by done. cbn [app]. rewrite after_wait.
    split.
    + eexists. split; [done|]. simpl. apply not_elem_of_nil.
    + rewrite after_skip by apply wait_not_open. simpl.
      exists name, talk, power, []. split_and!.
      * by rewrite <-!app_assoc.
      * done.
      * apply not_elem_of_nil.
      * done.
      * done.
Qed.

Lemma barrier_of_step_witness :
  ∃ out,
    eval Demo.rank0 (Demo.env (Demo.q 15) (Demo.q 45))
         [[Demo.q 2; Demo.q 1]; [Demo.q 2; Demo.q 1]] true = Return out ∧
    barrier_after_normalization Demo.rank0 out.
Proof.
  eexists. split; [vm_compute; reflexivity|].
  apply (barrier_of_step Demo.rank0 (Demo.env (Demo.q 15) (Demo.q 45))
           [[Demo.q 2; Demo.q 1]; [Demo.q 2; Demo.q 1]] true).
  vm_compute. reflexivity.
Defined.

(** C6 as it is stated fails: a rank that has seen the end of the run opens
    the statepoint at once; no barrier lies in between. *)
Lemma barrier_of_step_not_before :
  ∃ out,
    eval Demo.rank1 (Demo.env (Demo.q 15) (Demo.q 45)) [[Demo.q 2; Demo.q 1]] true
      = Return out ∧
    ¬ barrier_claimed out.
Proof.
  eexists. split; [vm_compute; reflexivity|].
  intros (l & Hl & Hin). vm_compute in Hl. injection Hl as <-.
  by apply elem_of_nil in Hin.
Qed.

End step.

(** ** The ingestion of the tallies: claims C2, C4 and C10 *)

Section ingestion.
Import OpenMCOperator UnpackSpec UnpackFacts.

Local Ltac elem_cases H :=
  repeat (apply elem_of_cons in H as [H|H]; [try (injection H as -> ->); subst|]);
  [..|by apply elem_of_nil in H].

Local Ltac row_ready_tac :=
  split;
    [do 2 eexists; split_and!; [vm_compute; reflexivity|vm_compute; reflexivity|simpl; lia]
    |repeat constructor; vm_compute; eauto].

Local Ltac unpack_ready_tac :=
  split_and!;
    [split_and!; compute_done|split_and!; compute_done|compute_done..
    |simpl; lia|repeat (constructor; [row_ready_tac|]); constructor].

Lemma demo_rank0_ready : unpack_ready Demo.rank0 Demo.run_statepoint.
Proof. unpack_ready_tac. Qed.

Lemma demo_rank1_ready : unpack_ready Demo.rank1 Demo.run_statepoint.
Proof. unpack_ready_tac. Qed.

Lemma demo_depleted_ready : unpack_ready Demo.depleted Demo.run_statepoint.
Proof. unpack_ready_tac. Qed.

Lemma demo_run_ready : run_ready Demo.ranks Demo.run_env (Qc_of_Z 30).
Proof.
  split_and!.
  - done.
  - intros [|[|i]] op Hop; simpl in Hop; [injection Hop as <-..|done].
    + split_and!; [reflexivity|reflexivity|reflexivity|apply demo_rank0_ready| | |].
      * split_and!; [repeat constructor|compute_done|repeat constructor].
      * intros mat a nuc b x Hmat Hnuc _ Hzero _. exfalso.
        simpl in Hmat. elem_cases Hmat;
          (destruct a as [|[|a]]; simpl in Hnuc; [injection Hnuc as <-..|done]);
          vm_compute in Hzero; discriminate Hzero.
      * vm_compute. do 2 f_equal. by apply Qc_is_canon.
    + split_and!; [reflexivity|reflexivity|reflexivity|apply demo_rank1_ready| | |].
      * split_and!; [repeat constructor|compute_done|repeat constructor].
      * intros mat a nuc b x Hmat Hnuc _ Hzero _. exfalso.
        simpl in Hmat. elem_cases Hmat;
          (destruct a as [|[|a]]; simpl in Hnuc; [injection Hnuc as <-..|done]);
          vm_compute in Hzero; discriminate Hzero.
      * vm_compute. do 2 f_equal. by apply Qc_is_canon.
  - vm_compute. do 1 f_equal. by apply Qc_is_canon.
  - exists (Qc_of_Z 45). split; [reflexivity|]. intros Heq. discriminate Heq.
Qed.

(** C4: where a rank stores exactly zero atoms of a tally nuclide in one of
    its materials, the division by the number of atoms leaves the entries of
    the nuclide alone: after the loop over the materials each of them is the
    value of the tally, so it is finite whenever the tally is. *)
Theorem zero_atoms_not_divided (op : t) (file : Statepoint.t) :
  unpack_ready op file →
  ∃ rr power,
    unpack_local op file = Return (Statepoint.k_combined file, rr, power) ∧
    zero_atoms_kept op file rr.
Proof.
  intros Hready.
  destruct (unpack_local_spec op file Hready)
    as (nuc_ind & react_ind & fission_ind & outs & Hnuc & Hreact & _ & _ & Hrun & Houts).
  destruct Hready as (Hnd & Hrd & _).
  do 2 eexists. split; [exact Hrun|].
  intros i mat a nuc b react Hmat Hnuc_a Hreact_b Hzero.
  destruct (Forall2_lookup_l _ _ _ _ _ Houts Hmat)
    as ([slice pw] & Hout & slab & row & Hfind & Hrow & f & x & g &
        Hslice & _ & Hf & Hset & _ & Hg & _).
  destruct (Forall2_lookup_l _ _ _ _ _ Hnuc Hnuc_a) as (ki & Hki & Hget_k).
  destruct (Forall2_lookup_l _ _ _ _ _ Hreact Hreact_b) as (li & Hli & Hget_l).
  pose proof (index_dict_get _ _ _ _ Hnd Hget_k) as Hk.
  pose proof (index_dict_get _ _ _ _ Hrd Hget_l) as Hl.
  simpl in Hslice, Hf, Hset, Hg.
  assert (f (Z.to_nat ki) (Z.to_nat li) = x (Z.to_nat ki) (Z.to_nat li)) as Hkept.
  { rewrite Hf. rewrite decide_False; [done|]. intros (_ & _ & Hne).
    rewrite (Hg a ki nuc Flt.zero Hki Hnuc_a Hzero) in Hne; [done|].
    intros ->. done. }
  assert (rate_at (ReactionRates.with_rates (reaction_rates op)
                     (outs.*1 ++ drop (length (AtomNumber.burn_mat_list (number op)))
                        (ReactionRates.map3 (λ _, Flt.zero)
                           (ReactionRates.rates (reaction_rates op))))) i
                  (Z.to_nat ki) (Z.to_nat li)
          = Some (x (Z.to_nat ki) (Z.to_nat li))) as Hrate.
  { rewrite <-Hkept. eapply rate_at_unpacked; [|exact Hslice|lia|lia].
    rewrite list_lookup_fmap, Hout. done. }
  exists (Z.to_nat ki), (Z.to_nat li), (x (Z.to_nat ki) (Z.to_nat li)).
  rewrite !Z2Nat.id by lia. split_and!; [done|done| |done|].
  - unfold tally_at. rewrite Hfind. csimpl. rewrite Hrow. csimpl.
    rewrite (Forall2_length _ _ _ Hreact). by apply Hset.
  - intros Hfin. rewrite Hrate. destruct (x (Z.to_nat ki) (Z.to_nat li)); [eauto|done..].
Qed.

Lemma zero_atoms_not_divided_witness :
  ∃ rr power,
    unpack_local Demo.depleted Demo.run_statepoint
      = Return (Statepoint.k_combined Demo.run_statepoint, rr, power) ∧
    zero_atoms_kept Demo.depleted Demo.run_statepoint rr.
Proof.
  apply (zero_atoms_not_divided Demo.depleted Demo.run_statepoint), demo_depleted_ready.
Defined.

Lemma demo_inert_coherent : run_coherent Demo.inert_ranks Demo.inert_env.
Proof.
  assert (∀ i op, Demo.inert_ranks !! i = Some op →
            rank op = Z.of_nat i ∧ size op = Z.of_nat (length Demo.inert_ranks) ∧
            partial_power op (statepoint Demo.inert_env)
              = Some (power_from Demo.inert_env (Z.of_nat i))) as Hranks.
  { intros [|[|i]] op Hop; simpl in Hop; [injection Hop as <-..|done].
    - split_and!; [reflexivity..|]. vm_compute. do 2 f_equal. by apply Qc_is_canon.
    - split_and!; [reflexivity..|]. vm_compute. do 2 f_equal. by apply Qc_is_canon. }
  split_and!; [done|exact Hranks|].
  intros op name k op' events Hop Hrun. injection Hop as <-.
  destruct (Hranks 0%nat _ eq_refl) as (_ & _ & Hpower).
  destruct (partial_power_Some _ _ _ Hpower) as (k0 & rr0 & Hlocal).
  rewrite (unpack_tallies_and_normalize_events _ _ name k0 rr0 _ Hlocal) in Hrun
    by (intros _; vm_compute; discriminate).
  injection Hrun as _ _ <-.
  rewrite !elem_of_cons. right. right. left. do 2 f_equal.
  vm_compute. f_equal. by apply Qc_is_canon.
Qed.

(** C10: [unpack_tallies_and_normalize] divides the target power by the
    measured power of the run, the sum of the parts of the power that the
    ranks measure, without a look at it: on every rank of a run it returns
    whatever the measured power is, and leaves the tensor of the rank scaled
    by the target power over the measured power; when the measured power is
    zero, no entry of this tensor is finite. *)
Theorem normalization_unguarded (ops : list t) (env : Env) :
  run_coherent ops env → divided_unguarded ops env.
Proof.
  intros Hrun i op Hop. pose proof Hrun as (Hne & Hranks & _).
  destruct (Hranks i op Hop) as (Hrank & Hsize & Hpower).
  destruct (partial_power_Some _ _ _ Hpower) as (k & rr & Hlocal).
  exists k, rr, (power_from env (Z.of_nat i)). split; [done|].
  rewrite <-(global_power_coherent ops env i op Hrun Hop). split.
  - intros name. eexists.
    apply unpack_tallies_and_normalize_events; [done|].
    intros _. rewrite Hsize. destruct ops; [done|simpl; lia].
  - intros Hzero j k' l x. rewrite rate_at_scale, Hzero.
    destruct (rate_at rr j k' l) as [y|]; [|done]. intros [= <-].
    apply div_zero_not_finite.
Qed.

Lemma normalization_unguarded_witness :
  measured_power Demo.inert_ranks (statepoint Demo.inert_env) = Flt.zero ∧
  divided_unguarded Demo.inert_ranks Demo.inert_env.
Proof.
  split.
  - vm_compute. reflexivity.
  - apply (normalization_unguarded Demo.inert_ranks Demo.inert_env), demo_inert_coherent.
Defined.

(** C2, as the code has it: when the ranks of a run and what they hear fit
    together, all they read is finite, the measured power is not zero and
    nuclides without atoms have no fissions, the ingestion goes through on
    every rank, and after it the sum over the ranks, their materials and
    the nuclides of rate of fission times atoms times energy of a fission
    is the target power. *)
Theorem power_normalization (ops : list t) (env : Env) (target : Qc) :
  run_ready ops env target → normalization_ok ops env target.
Proof.
  intros Hrun. pose proof Hrun as (Hne & Hranks & Hbcast & w & Hw & Hw0). split.
  - by eapply normalized_exists.
  - intros ops' Hnorm.
    destruct (sum_scaled (target / w)%Qc (fission_power_of <$> ops')
                (power_from env <$> seqZ 0 (Z.of_nat (length ops)))) as (t & Hv & Hu).
    { apply Forall2_same_length_lookup_2.
      { rewrite !length_fmap, length_seqZ, Nat2Z.id. symmetry. by eapply Forall2_length. }
      intros i u v Hu Hv. rewrite list_lookup_fmap in Hu. rewrite list_lookup_fmap in Hv.
      destruct (ops' !! i) as [op''|] eqn:Hop''; [|done]. injection Hu as <-.
      destruct (seqZ 0 (Z.of_nat (length ops)) !! i) as [j|] eqn:Hj; [|done]. injection Hv as <-.
      apply lookup_seqZ in Hj as [-> _].
      destruct (Forall2_lookup_r _ _ _ _ _ Hnorm Hop'') as (op & Hop & k & name & events & Hk).
      destruct (rank_normalized ops env target w i op Hrun Hop Hw)
        as (q & op' & Hq & Hnorm' & Hpower).
      destruct (Hnorm' name) as (k' & events' & Hk').
      assert (op'' = op') as -> by congruence.
      exists q. by rewrite Z.add_0_l. }
    rewrite Hu. rewrite <-Hbcast, Hw in Hv. injection Hv as <-. f_equal. by field.
Qed.

Lemma power_normalization_witness :
  normalization_ok Demo.ranks Demo.run_env (Qc_of_Z 30).
Proof.
  apply (power_normalization Demo.ranks Demo.run_env (Qc_of_Z 30)), demo_run_ready.
Defined.

(** C2 as it is stated fails on a run of two ranks with a target power of
    30: the fissions of the ranks add up to 6, since a fission of U235 gives
    an energy of 5. *)
Lemma fissions_are_not_power :
  ¬ normalization_claimed Demo.ranks Demo.run_env (Qc_of_Z 30).
Proof.
  intros Hclaim.
  destruct (normalized_exists _ _ _ demo_run_ready) as (ops' & Hnorm).
  specialize (Hclaim ops' Hnorm).
  assert (Flt.sum (fissions <$> ops') = Fin (Qc_of_Z 6)) as Hsix.
  { unfold normalized, Demo.ranks in Hnorm.
    apply Forall2_cons_inv_l in Hnorm as (op0 & ops1 & (k0 & n0 & e0 & H0) & Hnorm & ->).
    apply Forall2_cons_inv_l in Hnorm as (op1 & ops2 & (k1 & n1 & e1 & H1) & Hnorm & ->).
    apply Forall2_nil_inv_l in Hnorm as ->.
    vm_compute in H0. injection H0 as _ <- _.
    vm_compute in H1. injection H1 as _ <- _.
    vm_compute. f_equal. by apply Qc_is_canon. }
  rewrite Hsix in Hclaim. discriminate Hclaim.
Qed.

End ingestion.
(** ** More on the ingestion of the tallies *)

Section ingestion_more.
Import OpenMCOperator UnpackSpec UnpackFacts IngestSpec IngestFacts.

(** The rates that the ingestion leaves are per atom: for a tally nuclide of
    which a burnable material of the rank has a number of atoms other than
    zero, the entry for every score of the tally is the tally over the number
    of atoms. *)
Theorem unpack_rates_per_atom (op : t) (file : Statepoint.t) :
  unpack_ready op file →
  ∃ rr power,
    unpack_local op file = Return (Statepoint.k_combined file, rr, power) ∧
    rates_per_atom op file rr.
Proof.
  intros Hready.
  destruct (unpack_local_entry op file Hready) as (rr & power & Hrun & Hentry).
  exists rr, power. split; [done|].
  intros i mat a nuc b react c Hmat Hnuc Hreact Hc Hne.
  destruct (Hentry i mat a nuc b react c Hmat Hnuc Hreact Hc) as (k & l & x & ? & ? & ? & Hrate).
  exists k, l, x. rewrite Hne in Hrate. by split_and!.
Qed.

Lemma unpack_rates_per_atom_witness :
  ∃ rr power,
    unpack_local Demo.rank0 Demo.run_statepoint
      = Return (Statepoint.k_combined Demo.run_statepoint, rr, power) ∧
    rates_per_atom Demo.rank0 Demo.run_statepoint rr.
Proof.
  apply (unpack_rates_per_atom Demo.rank0 Demo.run_statepoint), demo_rank0_ready.
Defined.



(** A nuclide of the tally that the tensor does not know stops the
    ingestion: [unpack_tallies_and_normalize] raises a [KeyError] with the
    name of the first such nuclide; it does the same with the name of
    fission when all nuclides and scores are known but the tensor has no
    reaction of this name. *)
Theorem unpack_unknown_name (op : t) (env : Env) (name : string) :
  (∀ known bad rest,
     Statepoint.nuclides (statepoint env) = known ++ bad :: rest →
     Forall (λ nuc, nuc ∈ ODict.keys (ReactionRates.nuc_to_ind (reaction_rates op))) known →
     bad ∉ ODict.keys (ReactionRates.nuc_to_ind (reaction_rates op)) →
     unpack_tallies_and_normalize op env name = Raise (KeyError bad)) ∧
  (Forall (λ nuc, nuc ∈ ODict.keys (ReactionRates.nuc_to_ind (reaction_rates op)))
          (Statepoint.nuclides (statepoint env)) →
   Forall (λ react, react ∈ ODict.keys (ReactionRates.react_to_ind (reaction_rates op)))
          (Statepoint.score_bins (statepoint env)) →
   "fission" ∉ ODict.keys (ReactionRates.react_to_ind (reaction_rates op)) →
   unpack_tallies_and_normalize op env name = Raise (KeyError "fission")).
Proof.
  split.
  - intros known bad rest Hnucs Hknown Hbad. unfold unpack_tallies_and_normalize.
    by rewrite (unpack_local_unknown_nuclide op _ known bad rest).
  - intros Hnuc Hreact Hfis. unfold unpack_tallies_and_normalize.
    by rewrite unpack_local_no_fission.
Qed.

Lemma unpack_unknown_name_witness :
  unpack_tallies_and_normalize Demo.rank0
    {| fragment_from := λ _, []; nuclides_from := λ _, ∅; random_seed := 1; polls := 0;
       statepoint := Demo.strange_statepoint; power_from := λ _, Flt.zero;
       power_bcast := Flt.zero |} "statepoint.100.h5"
    = Raise (KeyError "Pu239").
Proof.
  apply (proj1 (unpack_unknown_name Demo.rank0 _ "statepoint.100.h5")
           ["U235"] "Pu239" ["U238"]).
  - reflexivity.
  - repeat constructor.
  - compute_done.
Defined.

(** A burnable material of the rank for which the statepoint has no bin
    stops the ingestion: when the tally is known, and the materials before
    it have their rows, [unpack_tallies_and_normalize] raises a
    [ValueError]. *)
Theorem unpack_material_without_bin (op : t) (env : Env) (name : string)
    (ok : list string) (bad : string) (rest : list string) :
  tally_known op (statepoint env) →
  AtomNumber.burn_mat_list (number op) = ok ++ bad :: rest →
  Forall (row_ready op (statepoint env)) ok →
  (length ok ≤ length (ReactionRates.rates (reaction_rates op)))%nat →
  bad ∉ (pretty <$> Statepoint.bins (statepoint env) : list string) →
  unpack_tallies_and_normalize op env name = Raise ValueError.
Proof.
  intros Hknown Hmats Hok Hlen Hbad. unfold unpack_tallies_and_normalize.
  by rewrite (unpack_local_missing_bin op _ ok bad rest).
Qed.

Lemma unpack_material_without_bin_witness :
  unpack_tallies_and_normalize Demo.rank0
    {| fragment_from := λ _, []; nuclides_from := λ _, ∅; random_seed := 1; polls := 0;
       statepoint := Demo.partial_statepoint; power_from := λ _, Flt.zero;
       power_bcast := Flt.zero |} "statepoint.100.h5"
    = Raise ValueError.
Proof.
  apply (unpack_material_without_bin Demo.rank0 _ "statepoint.100.h5" ["1"] "2" []).
  - split_and!; [split_and!; compute_done..|compute_done|compute_done|compute_done
                 |compute_done|compute_done].
  - reflexivity.
  - repeat constructor.
    + do 2 eexists. split_and!; [vm_compute; reflexivity|vm_compute; reflexivity|simpl; lia].
    + vm_compute; eauto.
    + vm_compute; eauto.
  - simpl. lia.
  - compute_done.
Defined.

End ingestion_more.
